(** * filmsy-server: the content catalogue's data access layer and its
      HTTP handlers

    A shallow embedding of [src/schema.ts], [src/storage.ts] and
    [src/routes.ts].

    - The relational store is a record of four tables, each a list of rows
      in the order the engine scans them.  Every operation of
      [DatabaseStorage] is one SQL statement: a query is a pure function
      of the store, a write returns the next store or the engine's error
      and leaves the store untouched when it fails.
    - Nullable columns are [option].  An [integer] column holds 32 bits:
      the one statement that computes on such a column,
      [viewCount + 1], fails when the result leaves the range; the values
      a request inserts have passed the range check of its schema.
      Timestamps are integers.
    - What the engine chooses on its own ([gen_random_uuid()], [now()],
      JavaScript's [new Date()]) is passed in as an [Env].
    - [ORDER BY] is the stable sort of the scan order, one of the results
      the engine may give when keys tie.
    - A handler is the sequence of the statements it awaits.  [serve]
      runs one request from its first statement to its answer with no
      statement of another request in between; [sched_step] runs the
      statements of several requests in any order. *)

From Stdlib Require Import List String Ascii ZArith Bool Lia Permutation Sorted.
Import ListNotations.
Local Open Scope Z_scope.

(** ** Values *)

(** A key of a zod object that is [.optional().nullable()]: missing from
    the object, [null], or a value. *)
Inductive Field (A : Type) : Type :=
| Absent
| Null
| Value (a : A).
Arguments Absent {A}.
Arguments Null {A}.
Arguments Value {A} a.

(** [db.insert(..).values(..)]: a missing key takes the column's default. *)
Definition insert_col {A} (default : option A) (f : Field A) : option A :=
  match f with
  | Absent => default
  | Null => None
  | Value a => Some a
  end.

(** [db.update(..).set(..)]: a missing key leaves the column as it is. *)
Definition update_col {A} (old : option A) (f : Field A) : option A :=
  match f with
  | Absent => old
  | Null => None
  | Value a => Some a
  end.

(** The same for a [notNull()] column, whose key is a value or missing. *)
Definition update_req {A} (old : A) (f : option A) : A :=
  match f with
  | None => old
  | Some a => a
  end.

(** ** [src/schema.ts]: the tables *)

Module User.
Record t := mk {
    id : string;
    email : option string;
    firstName : option string;
    lastName : option string;
    profileImageUrl : option string;
    createdAt : option Z;
    updatedAt : option Z
  }.
End User.

Module Content.
Record t := mk {
    id : string;
    title : string;
    description : option string;
    type : string;
    videoUrl : option string;
    thumbnailHorizontal : option string;
    thumbnailVertical : option string;
    year : option Z;
    duration : option string;
    rating : option string;
    genres : option (list string);
    cast : option (list string);
    director : option string;
    isActive : option bool;
    isFeatured : option bool;
    viewCount : option Z;
    createdAt : option Z;
    updatedAt : option Z
  }.
End Content.

Module Episode.
Record t := mk {
    id : string;
    contentId : string;
    title : string;
    description : option string;
    episodeNumber : Z;
    seasonNumber : option Z;
    videoUrl : string;
    thumbnail : option string;
    duration : option string;
    createdAt : option Z
  }.
End Episode.

Module Favorite.
Record t := mk {
    id : string;
    userId : string;
    contentId : string;
    createdAt : option Z
  }.
End Favorite.

(** [typeof users.$inferInsert] *)
Module UpsertUser.
Record t := mk {
    id : option string;
    email : Field string;
    firstName : Field string;
    lastName : Field string;
    profileImageUrl : Field string;
    createdAt : Field Z;
    updatedAt : Field Z
  }.
End UpsertUser.

(** [z.infer<typeof insertContentSchema>]: the insert schema of [content]
    without [id], [createdAt], [updatedAt] and [viewCount]. *)
Module InsertContent.
Record t := mk {
    title : string;
    description : Field string;
    type : string;
    videoUrl : Field string;
    thumbnailHorizontal : Field string;
    thumbnailVertical : Field string;
    year : Field Z;
    duration : Field string;
    rating : Field string;
    genres : Field (list string);
    cast : Field (list string);
    director : Field string;
    isActive : Field bool;
    isFeatured : Field bool
  }.
End InsertContent.

(** [Partial<InsertContent>] *)
Module PartialInsertContent.
Record t := mk {
    title : option string;
    description : Field string;
    type : option string;
    videoUrl : Field string;
    thumbnailHorizontal : Field string;
    thumbnailVertical : Field string;
    year : Field Z;
    duration : Field string;
    rating : Field string;
    genres : Field (list string);
    cast : Field (list string);
    director : Field string;
    isActive : Field bool;
    isFeatured : Field bool
  }.
End PartialInsertContent.

(** [z.infer<typeof insertEpisodeSchema>] *)
Module InsertEpisode.
Record t := mk {
    contentId : string;
    title : string;
    description : Field string;
    episodeNumber : Z;
    seasonNumber : Field Z;
    videoUrl : string;
    thumbnail : Field string;
    duration : Field string
  }.
End InsertEpisode.

(** [z.infer<typeof insertFavoriteSchema>] *)
Module InsertFavorite.
Record t := mk {
    userId : string;
    contentId : string
  }.
End InsertFavorite.

(** ** The store *)

Record Store := mkStore {
  users : list User.t;
  content : list Content.t;
  episodes : list Episode.t;
  favorites : list Favorite.t
}.

Definition empty_store : Store := mkStore [] [] [] [].

(** What the engine and the clock supply to one statement. *)
Record Env := mkEnv {
  uuid : string;
  now : Z
}.

(** The constraint violations the engine raises on these tables. *)
Inductive StoreError : Type :=
| UniqueViolation
| ForeignKeyViolation
| NumericValueOutOfRange.

(** The range of an [integer] column. *)
Definition INT4_MIN : Z := -2147483648.
Definition INT4_MAX : Z := 2147483647.

(** A statement that may fail: its value, or the error it raises. *)
Inductive Result (A : Type) : Type :=
| Ok (a : A)
| Err (e : StoreError).
Arguments Ok {A} a.
Arguments Err {A} e.

(** ** SQL helpers *)

(** [eq(column, true)] on a nullable boolean column: NULL does not pass. *)
Definition is_true (b : option bool) : bool :=
  match b with
  | Some true => true
  | _ => false
  end.

(** [desc(column)] on a nullable column: PostgreSQL puts NULL first, then
    the values from the greatest down. [desc_le a b] says that [a] may
    stand before [b]. *)
Definition desc_le (a b : option Z) : bool :=
  match a, b with
  | None, _ => true
  | Some _, None => false
  | Some x, Some y => y <=? x
  end.

(** Ascending order puts NULL last. *)
Definition asc_le (a b : option Z) : bool :=
  match a, b with
  | _, None => true
  | None, Some _ => false
  | Some x, Some y => x <=? y
  end.

Section OrderBy.
Context {A : Type}.
Variable le : A -> A -> bool.

Fixpoint insert_sorted (a : A) (l : list A) : list A :=
  match l with
  | [] => [a]
  | b :: l' => if le a b then a :: l else b :: insert_sorted a l'
  end.

Definition orderBy (l : list A) : list A :=
  fold_right insert_sorted [] l.
End OrderBy.

(** The order a sorted result is in. *)
Definition stands_before {A} (le : A -> A -> bool) (a b : A) : Prop :=
  le a b = true.

(** [const [result] = rows] *)
Definition first {A} (rows : list A) : option A := hd_error rows.

(** ** [ilike(column, pattern)]

    PostgreSQL's LIKE on UTF-8 text.  The pattern is read byte by byte:
    [%] stands for any run of characters, [_] for any one character, a
    backslash takes the byte after it literally, any other byte stands
    for itself.  The text is walked by bytes under a literal and by
    characters under [%] and [_]: a character is a byte and the
    continuation bytes (10xxxxxx) that follow it.  A pattern that ends in
    a lone backslash matches nothing here (the engine rejects it); the
    pattern [searchContent] builds always ends in [%]. *)

Definition percent : ascii := "%"%char.
Definition underscore : ascii := "_"%char.
Definition backslash : ascii := "\"%char.

Definition is_continuation (b : ascii) : bool :=
  let n := nat_of_ascii b in ((128 <=? n) && (n <=? 191))%nat.

(** The text from the end of the character that starts before it. *)
Fixpoint skip_continuation (t : list ascii) : list ascii :=
  match t with
  | [] => []
  | b :: t' => if is_continuation b then skip_continuation t' else t
  end.

(** The text starts on a character, or is at its end. *)
Definition boundary (t : list ascii) : bool :=
  match t with
  | [] => true
  | b :: _ => negb (is_continuation b)
  end.

Fixpoint like_match (p : list ascii) : list ascii -> bool :=
  match p with
  | [] => fun t => match t with [] => true | _ :: _ => false end
  | c :: p' =>
      if Ascii.eqb c percent then
        fun t =>
          like_match p' t
          || (fix later (t : list ascii) : bool :=
                match t with
                | [] => false
                | _ :: t' => boundary t' && like_match p' t' || later t'
                end) t
      else if Ascii.eqb c underscore then
        fun t =>
          match t with
          | [] => false
          | _ :: t' => like_match p' (skip_continuation t')
          end
      else if Ascii.eqb c backslash then
        match p' with
        | [] => fun _ => false
        | e :: p'' =>
            fun t =>
              match t with
              | [] => false
              | x :: t' => Ascii.eqb x e && like_match p'' t'
              end
        end
      else
        fun t =>
          match t with
          | [] => false
          | x :: t' => Ascii.eqb x c && like_match p' t'
          end
  end.

(** The text matches the pattern from a later character on. *)
Fixpoint matches_later (p t : list ascii) : bool :=
  match t with
  | [] => false
  | _ :: t' => boundary t' && like_match p t' || matches_later p t'
  end.

(** ILIKE folds case on both sides; the model folds the ASCII letters. *)
Definition lower (c : ascii) : ascii :=
  let n := nat_of_ascii c in
  if ((65 <=? n) && (n <=? 90))%nat then ascii_of_nat (n + 32) else c.

Definition ilike (text pattern : string) : bool :=
  like_match (map lower (list_ascii_of_string pattern))
             (map lower (list_ascii_of_string text)).

(** ** [src/storage.ts]: [DatabaseStorage] *)

Definition has_user (s : Store) (id : string) : bool :=
  existsb (fun u => String.eqb (User.id u) id) (users s).

Definition has_content (s : Store) (id : string) : bool :=
  existsb (fun c => String.eqb (Content.id c) id) (content s).

Definition active (c : Content.t) : bool := is_true (Content.isActive c).

Definition by_createdAt_desc (a b : Content.t) : bool :=
  desc_le (Content.createdAt a) (Content.createdAt b).

Definition by_viewCount_desc (a b : Content.t) : bool :=
  desc_le (Content.viewCount a) (Content.viewCount b).

(** *** User operations *)

Definition getUser (s : Store) (id : string) : option User.t :=
  first (filter (fun u => String.eqb (User.id u) id) (users s)).

(** [email] is [unique()]: no other row may hold the same non-NULL value. *)
Definition email_taken (s : Store) (self : string) (e : option string) : bool :=
  match e with
  | None => false
  | Some e =>
      existsb
        (fun u =>
           negb (String.eqb (User.id u) self)
           && match User.email u with
              | Some e' => String.eqb e' e
              | None => false
              end)
        (users s)
  end.

Definition upsertUser (env : Env) (s : Store) (userData : UpsertUser.t)
  : Result (User.t * Store) :=
  let uid :=
    match UpsertUser.id userData with
    | Some i => i
    | None => uuid env
    end in
  match getUser s uid with
  | None =>
      let row :=
        User.mk uid
          (insert_col None (UpsertUser.email userData))
          (insert_col None (UpsertUser.firstName userData))
          (insert_col None (UpsertUser.lastName userData))
          (insert_col None (UpsertUser.profileImageUrl userData))
          (insert_col (Some (now env)) (UpsertUser.createdAt userData))
          (insert_col (Some (now env)) (UpsertUser.updatedAt userData)) in
      if email_taken s uid (User.email row) then Err UniqueViolation
      else Ok (row, mkStore (users s ++ [row]) (content s) (episodes s)
                            (favorites s))
  | Some old =>
      let row :=
        User.mk uid
          (update_col (User.email old) (UpsertUser.email userData))
          (update_col (User.firstName old) (UpsertUser.firstName userData))
          (update_col (User.lastName old) (UpsertUser.lastName userData))
          (update_col (User.profileImageUrl old)
                      (UpsertUser.profileImageUrl userData))
          (update_col (User.createdAt old) (UpsertUser.createdAt userData))
          (Some (now env)) in
      if email_taken s uid (User.email row) then Err UniqueViolation
      else Ok (row,
               mkStore
                 (map (fun u => if String.eqb (User.id u) uid then row else u)
                      (users s))
                 (content s) (episodes s) (favorites s))
  end.

(** *** Content operations *)

Definition getAllContent (s : Store) : list Content.t :=
  orderBy by_createdAt_desc (filter active (content s)).

Definition getContentById (s : Store) (id : string) : option Content.t :=
  first (filter (fun c => String.eqb (Content.id c) id && active c)
                (content s)).

Definition getContentByType (s : Store) (type : string) : list Content.t :=
  orderBy by_createdAt_desc
    (filter (fun c => String.eqb (Content.type c) type && active c)
            (content s)).

Definition getFeaturedContent (s : Store) : option Content.t :=
  first
    (orderBy by_createdAt_desc
       (filter (fun c => is_true (Content.isFeatured c) && active c)
               (content s))).

Definition getPopularContent (s : Store) : list Content.t :=
  firstn 20 (orderBy by_viewCount_desc (filter active (content s))).

Definition getNewContent (s : Store) : list Content.t :=
  firstn 20 (orderBy by_createdAt_desc (filter active (content s))).

Definition searchContent (s : Store) (query : string) : list Content.t :=
  orderBy by_createdAt_desc
    (filter
       (fun c => active c && ilike (Content.title c) ("%" ++ query ++ "%"))
       (content s)).

Definition new_content (env : Env) (data : InsertContent.t) : Content.t :=
  Content.mk (uuid env)
    (InsertContent.title data)
    (insert_col None (InsertContent.description data))
    (InsertContent.type data)
    (insert_col None (InsertContent.videoUrl data))
    (insert_col None (InsertContent.thumbnailHorizontal data))
    (insert_col None (InsertContent.thumbnailVertical data))
    (insert_col None (InsertContent.year data))
    (insert_col None (InsertContent.duration data))
    (insert_col None (InsertContent.rating data))
    (insert_col None (InsertContent.genres data))
    (insert_col None (InsertContent.cast data))
    (insert_col None (InsertContent.director data))
    (insert_col (Some true) (InsertContent.isActive data))
    (insert_col (Some false) (InsertContent.isFeatured data))
    (Some 0)
    (Some (now env))
    (Some (now env)).

Definition createContent (env : Env) (s : Store) (data : InsertContent.t)
  : Result (Content.t * Store) :=
  if has_content s (uuid env) then Err UniqueViolation
  else
    let row := new_content env data in
    Ok (row, mkStore (users s) (content s ++ [row]) (episodes s)
                     (favorites s)).

(** [.set({ ...data, updatedAt: new Date() })] on one row. *)
Definition set_content (env : Env) (data : PartialInsertContent.t)
  (c : Content.t) : Content.t :=
  Content.mk (Content.id c)
    (update_req (Content.title c) (PartialInsertContent.title data))
    (update_col (Content.description c) (PartialInsertContent.description data))
    (update_req (Content.type c) (PartialInsertContent.type data))
    (update_col (Content.videoUrl c) (PartialInsertContent.videoUrl data))
    (update_col (Content.thumbnailHorizontal c)
                (PartialInsertContent.thumbnailHorizontal data))
    (update_col (Content.thumbnailVertical c)
                (PartialInsertContent.thumbnailVertical data))
    (update_col (Content.year c) (PartialInsertContent.year data))
    (update_col (Content.duration c) (PartialInsertContent.duration data))
    (update_col (Content.rating c) (PartialInsertContent.rating data))
    (update_col (Content.genres c) (PartialInsertContent.genres data))
    (update_col (Content.cast c) (PartialInsertContent.cast data))
    (update_col (Content.director c) (PartialInsertContent.director data))
    (update_col (Content.isActive c) (PartialInsertContent.isActive data))
    (update_col (Content.isFeatured c) (PartialInsertContent.isFeatured data))
    (Content.viewCount c)
    (Content.createdAt c)
    (Some (now env)).

(** [UPDATE .. WHERE condition]: the rows that pass are rewritten.  A
    table is the list of its rows in the order the model keeps them,
    which an update leaves alone; the engine promises no order of its
    own, and the properties below ask for none among rows that compare
    equal. *)
Definition update_where {A} (cond : A -> bool) (f : A -> A) (rows : list A)
  : list A :=
  map (fun r => if cond r then f r else r) rows.

Definition has_id (id : string) (c : Content.t) : bool :=
  String.eqb (Content.id c) id.

Definition updateContent (env : Env) (s : Store) (id : string)
  (data : PartialInsertContent.t) : option Content.t * Store :=
  let s' :=
    mkStore (users s)
            (update_where (has_id id) (set_content env data) (content s))
            (episodes s) (favorites s) in
  (first (filter (has_id id) (content s')), s').

(** [DELETE .. WHERE id = ..]; the rows of [episodes] and [favorites] that
    reference the content go with it ([onDelete: 'cascade']). *)
Definition deleteContent (s : Store) (id : string) : Store :=
  mkStore (users s)
          (filter (fun c => negb (has_id id c)) (content s))
          (filter (fun e => negb (String.eqb (Episode.contentId e) id))
                  (episodes s))
          (filter (fun f => negb (String.eqb (Favorite.contentId f) id))
                  (favorites s)).

(** [viewCount + 1] does not fit the column. *)
Definition at_int4_max (viewCount : option Z) : bool :=
  match viewCount with
  | Some v => INT4_MAX <=? v
  | None => false
  end.

(** [viewCount = viewCount + 1] on one row; NULL + 1 is NULL. *)
Definition bump_viewCount (c : Content.t) : Content.t :=
  Content.mk (Content.id c) (Content.title c) (Content.description c)
    (Content.type c) (Content.videoUrl c) (Content.thumbnailHorizontal c)
    (Content.thumbnailVertical c) (Content.year c) (Content.duration c)
    (Content.rating c) (Content.genres c) (Content.cast c)
    (Content.director c) (Content.isActive c) (Content.isFeatured c)
    (option_map (fun v => v + 1) (Content.viewCount c))
    (Content.createdAt c) (Content.updatedAt c).

(** The statement fails as a whole, writing no row, when the sum is out
    of range in a row it selects. *)
Definition incrementViewCount (s : Store) (id : string) : Result Store :=
  if existsb (fun c => has_id id c && at_int4_max (Content.viewCount c))
             (content s)
  then Err NumericValueOutOfRange
  else
    Ok (mkStore (users s)
                (update_where (has_id id) bump_viewCount (content s))
                (episodes s) (favorites s)).

(** *** Episode operations *)

(** [orderBy(episodes.seasonNumber, episodes.episodeNumber)] *)
Definition by_season_episode (a b : Episode.t) : bool :=
  if asc_le (Episode.seasonNumber a) (Episode.seasonNumber b) then
    if asc_le (Episode.seasonNumber b) (Episode.seasonNumber a) then
      Episode.episodeNumber a <=? Episode.episodeNumber b
    else true
  else false.

Definition getEpisodesByContentId (s : Store) (contentId : string)
  : list Episode.t :=
  orderBy by_season_episode
    (filter (fun e => String.eqb (Episode.contentId e) contentId)
            (episodes s)).

Definition new_episode (env : Env) (data : InsertEpisode.t) : Episode.t :=
  Episode.mk (uuid env)
    (InsertEpisode.contentId data)
    (InsertEpisode.title data)
    (insert_col None (InsertEpisode.description data))
    (InsertEpisode.episodeNumber data)
    (insert_col (Some 1) (InsertEpisode.seasonNumber data))
    (InsertEpisode.videoUrl data)
    (insert_col None (InsertEpisode.thumbnail data))
    (insert_col None (InsertEpisode.duration data))
    (Some (now env)).

Definition createEpisode (env : Env) (s : Store) (data : InsertEpisode.t)
  : Result (Episode.t * Store) :=
  if existsb (fun e => String.eqb (Episode.id e) (uuid env)) (episodes s)
  then Err UniqueViolation
  else if negb (has_content s (InsertEpisode.contentId data))
  then Err ForeignKeyViolation
  else
    let row := new_episode env data in
    Ok (row, mkStore (users s) (content s) (episodes s ++ [row])
                     (favorites s)).

Definition deleteEpisode (s : Store) (id : string) : Store :=
  mkStore (users s) (content s)
          (filter (fun e => negb (String.eqb (Episode.id e) id))
                  (episodes s))
          (favorites s).

(** *** Favorites operations *)

Definition favorite_of (userId contentId : string) (f : Favorite.t) : bool :=
  String.eqb (Favorite.userId f) userId
  && String.eqb (Favorite.contentId f) contentId.

(** The inner join of [favorites] with [content], row by row. *)
Definition getUserFavorites (s : Store) (userId : string) : list Content.t :=
  flat_map
    (fun f =>
       filter
         (fun c =>
            String.eqb (Favorite.contentId f) (Content.id c)
            && (String.eqb (Favorite.userId f) userId && active c))
         (content s))
    (favorites s).

Definition addToFavorites (env : Env) (s : Store) (data : InsertFavorite.t)
  : Result (Favorite.t * Store) :=
  if existsb (fun f => String.eqb (Favorite.id f) (uuid env)) (favorites s)
  then Err UniqueViolation
  else if negb (has_user s (InsertFavorite.userId data)
                && has_content s (InsertFavorite.contentId data))
  then Err ForeignKeyViolation
  else
    let row :=
      Favorite.mk (uuid env) (InsertFavorite.userId data)
                  (InsertFavorite.contentId data) (Some (now env)) in
    Ok (row, mkStore (users s) (content s) (episodes s)
                     (favorites s ++ [row])).

Definition removeFromFavorites (s : Store) (userId contentId : string)
  : Store :=
  mkStore (users s) (content s) (episodes s)
          (filter (fun f => negb (favorite_of userId contentId f))
                  (favorites s)).

(** [return !!result] *)
Definition isFavorite (s : Store) (userId contentId : string) : bool :=
  match first (filter (favorite_of userId contentId) (favorites s)) with
  | Some _ => true
  | None => false
  end.

(** ** Request bodies and the zod schemas of [src/schema.ts] *)

(** A parsed JSON body.  Numbers are the integer ones; an object keeps its
    keys as an association list that is read at the first match. *)
#[local] Unset Elimination Schemes.
Inductive Json : Type :=
| JNull
| JBool (b : bool)
| JNum (n : Z)
| JStr (s : string)
| JArr (items : list Json)
| JObj (fields : list (string * Json)).
#[local] Set Elimination Schemes.

Fixpoint assoc {A} (k : string) (l : list (string * A)) : option A :=
  match l with
  | [] => None
  | (k', v) :: l' => if String.eqb k' k then Some v else assoc k l'
  end.

(** [value.key]; [None] is JavaScript's [undefined].  The body parser
    hands the handlers an object or an array, never a bare [null]. *)
Definition field (j : Json) (k : string) : option Json :=
  match j with
  | JObj fields => assoc k fields
  | _ => None
  end.

(** JavaScript truthiness. *)
Definition truthy (j : Json) : bool :=
  match j with
  | JNull => false
  | JBool b => b
  | JNum n => negb (n =? 0)
  | JStr s => negb (String.eqb s "")
  | JArr _ => true
  | JObj _ => true
  end.

(** [req.body.key || req.body] *)
Definition field_or_self (j : Json) (k : string) : Json :=
  match field j k with
  | Some v => if truthy v then v else j
  | None => j
  end.

(** [{ ...req.body, userId }] *)
Definition spread_with (j : Json) (k : string) (v : Json) : Json :=
  match j with
  | JObj fields => JObj ((k, v) :: fields)
  | _ => JObj [(k, v)]
  end.

(** A [ZodError] lists the paths of the keys that failed. *)
Definition ZodIssue : Type := list string.
Definition ZodError : Type := list ZodIssue.

(** The checks [createInsertSchema] derives from a column: its type, the
    length of a [varchar] that declares one, the range of an [integer]. *)
Definition as_string (j : Json) : option string :=
  match j with
  | JStr s => Some s
  | _ => None
  end.

Definition as_varchar (len : nat) (j : Json) : option string :=
  match j with
  | JStr s => if (String.length s <=? len)%nat then Some s else None
  | _ => None
  end.

Definition as_integer (j : Json) : option Z :=
  match j with
  | JNum n => if (INT4_MIN <=? n) && (n <=? INT4_MAX) then Some n else None
  | _ => None
  end.

Definition as_boolean (j : Json) : option bool :=
  match j with
  | JBool b => Some b
  | _ => None
  end.

Fixpoint all_strings (l : list Json) : option (list string) :=
  match l with
  | [] => Some []
  | j :: l' =>
      match as_string j, all_strings l' with
      | Some s, Some ss => Some (s :: ss)
      | _, _ => None
      end
  end.

(** A [text().array()] column: an array whose elements all pass the
    check of the base column. *)
Definition as_text_array (j : Json) : option (list string) :=
  match j with
  | JArr items => all_strings items
  | _ => None
  end.

(** A [notNull()] column without a default: the key is required. *)
Definition required {A} (check : Json -> option A) (j : Json) (k : string)
  : option A :=
  match field j k with
  | Some v => check v
  | None => None
  end.

(** Any other column: the key may be missing or [null]. *)
Definition optional {A} (check : Json -> option A) (j : Json) (k : string)
  : option (Field A) :=
  match field j k with
  | None => Some Absent
  | Some JNull => Some Null
  | Some v => option_map Value (check v)
  end.

(** After [.partial()] a required key may be missing, but not [null]. *)
Definition partial {A} (check : Json -> option A) (j : Json) (k : string)
  : option (option A) :=
  match field j k with
  | None => Some None
  | Some v => option_map Some (check v)
  end.

Definition issue {A} (k : string) (r : option A) : list ZodIssue :=
  match r with
  | Some _ => []
  | None => [[k]]
  end.

Definition is_object (j : Json) : bool :=
  match j with
  | JObj _ => true
  | _ => false
  end.

Section ContentSchema.
Variable j : Json.

Let description := optional as_string j "description".
Let videoUrl := optional as_string j "videoUrl".
Let thumbnailHorizontal := optional as_string j "thumbnailHorizontal".
Let thumbnailVertical := optional as_string j "thumbnailVertical".
Let year := optional as_integer j "year".
Let duration := optional as_string j "duration".
Let rating := optional as_string j "rating".
Let genres := optional as_text_array j "genres".
Let cast := optional as_text_array j "cast".
Let director := optional as_string j "director".
Let isActive := optional as_boolean j "isActive".
Let isFeatured := optional as_boolean j "isFeatured".

(** The issues come in the order of the columns. *)
Let issues_after_type : list ZodIssue :=
  issue "videoUrl" videoUrl
  ++ issue "thumbnailHorizontal" thumbnailHorizontal
  ++ issue "thumbnailVertical" thumbnailVertical
  ++ issue "year" year ++ issue "duration" duration ++ issue "rating" rating
  ++ issue "genres" genres ++ issue "cast" cast ++ issue "director" director
  ++ issue "isActive" isActive ++ issue "isFeatured" isFeatured.

(** [insertContentSchema.parse(j)]; keys the schema does not declare
    ([id], [viewCount], [createdAt], ..) are stripped. *)
Definition insertContentSchema_parse : ZodError + InsertContent.t :=
  if negb (is_object j) then inl [[]]
  else
    let title := required as_string j "title" in
    let type := required (as_varchar 20) j "type" in
    match title, description, type, videoUrl, thumbnailHorizontal,
          thumbnailVertical, year, duration, rating, genres, cast, director,
          isActive, isFeatured with
    | Some a, Some b, Some c, Some d, Some e, Some f, Some g, Some h, Some i,
      Some k, Some l, Some m, Some n, Some o =>
        inr (InsertContent.mk a b c d e f g h i k l m n o)
    | _, _, _, _, _, _, _, _, _, _, _, _, _, _ =>
        inl (issue "title" title ++ issue "description" description
             ++ issue "type" type ++ issues_after_type)
    end.

(** [insertContentSchema.partial().parse(j)] *)
Definition insertContentSchema_partial_parse
  : ZodError + PartialInsertContent.t :=
  if negb (is_object j) then inl [[]]
  else
    let title := partial as_string j "title" in
    let type := partial (as_varchar 20) j "type" in
    match title, description, type, videoUrl, thumbnailHorizontal,
          thumbnailVertical, year, duration, rating, genres, cast, director,
          isActive, isFeatured with
    | Some a, Some b, Some c, Some d, Some e, Some f, Some g, Some h, Some i,
      Some k, Some l, Some m, Some n, Some o =>
        inr (PartialInsertContent.mk a b c d e f g h i k l m n o)
    | _, _, _, _, _, _, _, _, _, _, _, _, _, _ =>
        inl (issue "title" title ++ issue "description" description
             ++ issue "type" type ++ issues_after_type)
    end.

(** [insertEpisodeSchema.parse(j)] *)
Definition insertEpisodeSchema_parse : ZodError + InsertEpisode.t :=
  if negb (is_object j) then inl [[]]
  else
    let contentId := required as_string j "contentId" in
    let title := required as_string j "title" in
    let episodeNumber := required as_integer j "episodeNumber" in
    let seasonNumber := optional as_integer j "seasonNumber" in
    let videoUrl := required as_string j "videoUrl" in
    let thumbnail := optional as_string j "thumbnail" in
    match contentId, title, description, episodeNumber, seasonNumber,
          videoUrl, thumbnail, duration with
    | Some a, Some b, Some c, Some d, Some e, Some f, Some g, Some h =>
        inr (InsertEpisode.mk a b c d e f g h)
    | _, _, _, _, _, _, _, _ =>
        inl (issue "contentId" contentId ++ issue "title" title
             ++ issue "description" description
             ++ issue "episodeNumber" episodeNumber
             ++ issue "seasonNumber" seasonNumber
             ++ issue "videoUrl" videoUrl ++ issue "thumbnail" thumbnail
             ++ issue "duration" duration)
    end.

(** [insertFavoriteSchema.parse(j)] *)
Definition insertFavoriteSchema_parse : ZodError + InsertFavorite.t :=
  if negb (is_object j) then inl [[]]
  else
    let userId := required as_string j "userId" in
    let contentId := required as_string j "contentId" in
    match userId, contentId with
    | Some a, Some b => inr (InsertFavorite.mk a b)
    | _, _ => inl (issue "userId" userId ++ issue "contentId" contentId)
    end.

End ContentSchema.

(** ** [src/routes.ts]: the request handlers *)

(** The calls a handler makes on [storage], in the order it makes them. *)
Inductive Call : Type :=
| CallGetUser (id : string)
| CallGetAllContent
| CallGetContentById (id : string)
| CallGetContentByType (type : string)
| CallGetFeaturedContent
| CallGetPopularContent
| CallGetNewContent
| CallSearchContent (query : string)
| CallCreateContent (data : InsertContent.t)
| CallUpdateContent (id : string) (data : PartialInsertContent.t)
| CallDeleteContent (id : string)
| CallIncrementViewCount (id : string)
| CallGetEpisodesByContentId (contentId : string)
| CallCreateEpisode (data : InsertEpisode.t)
| CallGetUserFavorites (userId : string)
| CallAddToFavorites (data : InsertFavorite.t)
| CallRemoveFromFavorites (userId contentId : string)
| CallIsFavorite (userId contentId : string).

(** What a [try] block can catch. *)
Inductive Thrown : Type :=
| ThrownZod (e : ZodError)
| ThrownStore (e : StoreError).

(** A handler is the statements it awaits, one after the other: it has
    returned, it has thrown, or it awaits a storage call, which runs on
    the store as it is at that moment and gives the store after it and
    the rest of the handler. *)
#[local] Unset Elimination Schemes.
Inductive M (A : Type) : Type :=
| Ret (a : A)
| Throw (e : Thrown)
| Await (c : Call) (statement : Store -> Store * M A).
#[local] Set Elimination Schemes.
Arguments Ret {A} a.
Arguments Throw {A} e.
Arguments Await {A} c statement.

Definition ret {A} (a : A) : M A := Ret a.

Definition throw {A} (e : Thrown) : M A := Throw e.

Fixpoint bind {A B} (m : M A) (k : A -> M B) : M B :=
  match m with
  | Ret a => k a
  | Throw e => Throw e
  | Await c statement =>
      Await c (fun s => (fst (statement s), bind (snd (statement s)) k))
  end.

Fixpoint try_catch {A} (m : M A) (handler : Thrown -> M A) : M A :=
  match m with
  | Ret a => Ret a
  | Throw e => handler e
  | Await c statement =>
      Await c (fun s => (fst (statement s),
                         try_catch (snd (statement s)) handler))
  end.

Notation "x <- m ;; k" := (bind m (fun x => k))
  (at level 61, m at next level, right associativity).
Notation "m ;;; k" := (bind m (fun _ => k))
  (at level 61, right associativity).

(** [await storage.f(..)] for a query, *)
Definition query {A} (c : Call) (f : Store -> A) : M A :=
  Await c (fun s => (s, Ret (f s))).

(** for a write that cannot fail, *)
Definition exec (c : Call) (f : Store -> Store) : M unit :=
  Await c (fun s => (f s, Ret tt)).

(** for a write that returns a row, *)
Definition exec_returning {A} (c : Call) (f : Store -> A * Store) : M A :=
  Await c (fun s => (snd (f s), Ret (fst (f s)))).

(** for a write the engine may reject, *)
Definition attempt {A} (c : Call) (f : Store -> Result (A * Store)) : M A :=
  Await c (fun s =>
             match f s with
             | Ok (a, s') => (s', Ret a)
             | Err e => (s, Throw (ThrownStore e))
             end).

(** and for one that returns nothing. *)
Definition attempt_void (c : Call) (f : Store -> Result Store) : M unit :=
  Await c (fun s =>
             match f s with
             | Ok s' => (s', Ret tt)
             | Err e => (s, Throw (ThrownStore e))
             end).

(** [schema.parse(..)] *)
Definition parse {A} (r : ZodError + A) : M A :=
  match r with
  | inr a => ret a
  | inl e => throw (ThrownZod e)
  end.

(** A handler run from its first statement to its end, with the log of
    the storage calls it made. *)
Definition State : Type := Store * list Call.

Fixpoint run {A} (m : M A) (st : State) : (Thrown + A) * State :=
  match m with
  | Ret a => (inr a, st)
  | Throw e => (inl e, st)
  | Await c statement =>
      run (snd (statement (fst st)))
          (fst (statement (fst st)), snd st ++ [c])
  end.

(** What a request that ran to its end is left as. *)
Definition outcome {A} (r : Thrown + A) : M A :=
  match r with
  | inl e => Throw e
  | inr a => Ret a
  end.

Inductive Body : Type :=
| BodyEmpty
| BodyMessage (message : string)
| BodyInvalid (message : string) (errors : ZodError)
| BodySuccess
| BodyUser (u : option User.t)
| BodyContent (c : option Content.t)
| BodyContentList (l : list Content.t)
| BodyEpisode (e : Episode.t)
| BodyEpisodeList (l : list Episode.t)
| BodyFavorite (f : Favorite.t)
| BodyIsFavorite (b : bool).

Record Response := mkResponse {
  status : Z;
  body : Body
}.

Definition json (b : Body) : M Response := ret (mkResponse 200 b).
Definition status_json (code : Z) (b : Body) : M Response :=
  ret (mkResponse code b).

Definition ADMIN_PASSWORD : string := "cla-SAMU20".

(** A value of [req.query]: a string, or an array or object of them. *)
Inductive QueryValue : Type :=
| QString (s : string)
| QNested.

Definition q_truthy (q : option QueryValue) : bool :=
  match q with
  | None => false
  | Some (QString s) => negb (String.eqb s "")
  | Some QNested => true
  end.

Record Query := mkQuery {
  q_type : option QueryValue;
  q_featured : option QueryValue;
  q_popular : option QueryValue;
  q_new : option QueryValue;
  q_search : option QueryValue
}.

Inductive Request : Type :=
| GetAuthUser
| GetContent (q : Query)
| GetContentById (id : string)
| GetEpisodes (id : string)
| GetFavorites
| PostFavorites (body : Json)
| DeleteFavorite (contentId : string)
| CheckFavorite (contentId : string)
| AdminVerify (body : Json)
| AdminCreateContent (body : Json)
| AdminUpdateContent (id : string) (body : Json)
| AdminDeleteContent (id : string) (body : Json)
| AdminCreateEpisode (body : Json).

(** Modelled from the spec: the [isAuthenticated] middleware of
    [./replitAuth], which is not among the sources.  A request without a
    session is answered 401; otherwise the handler runs with the session's
    user id ([req.user.claims.sub]). *)
Definition isAuthenticated (session : option string)
  (next : string -> M Response) : M Response :=
  match session with
  | Some userId => next userId
  | None => status_json 401 (BodyMessage "Unauthorized")
  end.

(** [password !== ADMIN_PASSWORD] is false only for that very string. *)
Definition password_matches (body : Json) : bool :=
  match field body "password" with
  | Some (JStr p) => String.eqb p ADMIN_PASSWORD
  | _ => false
  end.

Definition checkAdminPassword (body : Json) (next : M Response)
  : M Response :=
  if negb (password_matches body) then
    status_json 401 (BodyMessage "Invalid admin password")
  else next.

(** The [catch] of the handlers that tell a [ZodError] apart. *)
Definition catch_zod (invalid failed : string) (e : Thrown) : M Response :=
  match e with
  | ThrownZod errors => status_json 400 (BodyInvalid invalid errors)
  | ThrownStore _ => status_json 500 (BodyMessage failed)
  end.

(** The [catch] of the other handlers. *)
Definition catch_all (failed : string) (e : Thrown) : M Response :=
  status_json 500 (BodyMessage failed).

Definition get_auth_user (session : option string) : M Response :=
  isAuthenticated session (fun userId =>
    try_catch
      (user <- query (CallGetUser userId) (fun s => getUser s userId) ;;
       json (BodyUser user))
      (catch_all "Failed to fetch user")).

(** [search && typeof search === 'string'] *)
Definition search_string (q : Query) : option string :=
  match q_search q with
  | Some (QString search) =>
      if negb (String.eqb search "") then Some search else None
  | _ => None
  end.

(** [type && (type === 'movie' || type === 'series')] *)
Definition movie_or_series (q : Query) : option string :=
  match q_type q with
  | Some (QString type) =>
      if String.eqb type "movie" || String.eqb type "series"
      then Some type else None
  | _ => None
  end.

Definition get_content (q : Query) : M Response :=
  try_catch
    (if q_truthy (q_featured q) then
       c <- query CallGetFeaturedContent getFeaturedContent ;;
       json (BodyContent c)
     else if q_truthy (q_popular q) then
       l <- query CallGetPopularContent getPopularContent ;;
       json (BodyContentList l)
     else if q_truthy (q_new q) then
       l <- query CallGetNewContent getNewContent ;;
       json (BodyContentList l)
     else
       match search_string q with
       | Some search =>
           l <- query (CallSearchContent search)
                      (fun s => searchContent s search) ;;
           json (BodyContentList l)
       | None =>
           match movie_or_series q with
           | Some type =>
               l <- query (CallGetContentByType type)
                          (fun s => getContentByType s type) ;;
               json (BodyContentList l)
           | None =>
               l <- query CallGetAllContent getAllContent ;;
               json (BodyContentList l)
           end
       end)
    (catch_all "Failed to fetch content").

(** [storage.incrementViewCount(id)] issues a single statement. *)
Definition incrementViewCount_prog (id : string) : M unit :=
  attempt_void (CallIncrementViewCount id) (fun s => incrementViewCount s id).

Definition get_content_by_id (id : string) : M Response :=
  try_catch
    (c <- query (CallGetContentById id) (fun s => getContentById s id) ;;
     match c with
     | None => status_json 404 (BodyMessage "Content not found")
     | Some c =>
         incrementViewCount_prog id ;;;
         json (BodyContent (Some c))
     end)
    (catch_all "Failed to fetch content").

Definition get_episodes (id : string) : M Response :=
  try_catch
    (l <- query (CallGetEpisodesByContentId id)
                (fun s => getEpisodesByContentId s id) ;;
     json (BodyEpisodeList l))
    (catch_all "Failed to fetch episodes").

Definition get_favorites (session : option string) : M Response :=
  isAuthenticated session (fun userId =>
    try_catch
      (l <- query (CallGetUserFavorites userId)
                  (fun s => getUserFavorites s userId) ;;
       json (BodyContentList l))
      (catch_all "Failed to fetch favorites")).

Definition post_favorites (env : Env) (session : option string)
  (body : Json) : M Response :=
  isAuthenticated session (fun userId =>
    try_catch
      (parsed <- parse (insertFavoriteSchema_parse
                          (spread_with body "userId" (JStr userId))) ;;
       let data :=
         InsertFavorite.mk userId (InsertFavorite.contentId parsed) in
       favorite <- attempt (CallAddToFavorites data)
                           (fun s => addToFavorites env s data) ;;
       status_json 201 (BodyFavorite favorite))
      (catch_all "Failed to add to favorites")).

Definition delete_favorite (session : option string) (contentId : string)
  : M Response :=
  isAuthenticated session (fun userId =>
    try_catch
      (exec (CallRemoveFromFavorites userId contentId)
            (fun s => removeFromFavorites s userId contentId) ;;;
       status_json 204 BodyEmpty)
      (catch_all "Failed to remove from favorites")).

Definition check_favorite (session : option string) (contentId : string)
  : M Response :=
  isAuthenticated session (fun userId =>
    try_catch
      (b <- query (CallIsFavorite userId contentId)
                  (fun s => isFavorite s userId contentId) ;;
       json (BodyIsFavorite b))
      (catch_all "Failed to check favorite status")).

Definition admin_verify (body : Json) : M Response :=
  if password_matches body then json BodySuccess
  else status_json 401 (BodyMessage "Invalid admin password").

Definition admin_create_content (env : Env) (body : Json) : M Response :=
  checkAdminPassword body
    (try_catch
       (contentData <- parse (insertContentSchema_parse
                                (field_or_self body "content")) ;;
        c <- attempt (CallCreateContent contentData)
                     (fun s => createContent env s contentData) ;;
        status_json 201 (BodyContent (Some c)))
       (catch_zod "Invalid content data" "Failed to create content")).

Definition admin_update_content (env : Env) (id : string) (body : Json)
  : M Response :=
  checkAdminPassword body
    (try_catch
       (contentData <- parse (insertContentSchema_partial_parse
                                (field_or_self body "content")) ;;
        c <- exec_returning (CallUpdateContent id contentData)
                            (fun s => updateContent env s id contentData) ;;
        json (BodyContent c))
       (catch_zod "Invalid content data" "Failed to update content")).

Definition admin_delete_content (id : string) (body : Json) : M Response :=
  checkAdminPassword body
    (try_catch
       (exec (CallDeleteContent id) (fun s => deleteContent s id) ;;;
        status_json 204 BodyEmpty)
       (catch_all "Failed to delete content")).

Definition admin_create_episode (env : Env) (body : Json) : M Response :=
  checkAdminPassword body
    (try_catch
       (episodeData <- parse (insertEpisodeSchema_parse
                                (field_or_self body "episode")) ;;
        e <- attempt (CallCreateEpisode episodeData)
                     (fun s => createEpisode env s episodeData) ;;
        status_json 201 (BodyEpisode e))
       (catch_zod "Invalid episode data" "Failed to create episode")).

(** The router. *)
Definition route (env : Env) (session : option string) (req : Request)
  : M Response :=
  match req with
  | GetAuthUser => get_auth_user session
  | GetContent q => get_content q
  | GetContentById id => get_content_by_id id
  | GetEpisodes id => get_episodes id
  | GetFavorites => get_favorites session
  | PostFavorites body => post_favorites env session body
  | DeleteFavorite contentId => delete_favorite session contentId
  | CheckFavorite contentId => check_favorite session contentId
  | AdminVerify body => admin_verify body
  | AdminCreateContent body => admin_create_content env body
  | AdminUpdateContent id body => admin_update_content env id body
  | AdminDeleteContent id body => admin_delete_content id body
  | AdminCreateEpisode body => admin_create_episode env body
  end.

(** One request served on a store with no other request in between: the
    response, the store afterwards and the storage calls that were made.
    Every handler ends in a response; nothing escapes its [catch]. *)
Record Served := mkServed {
  response : option Response;
  store_after : Store;
  calls : list Call
}.

Definition serve (env : Env) (session : option string) (req : Request)
  (s : Store) : Served :=
  match run (route env session req) (s, []) with
  | (inr r, (s', log)) => mkServed (Some r) s' log
  | (inl _, (s', log)) => mkServed None s' log
  end.

(** ** Vocabulary of the properties *)

(** A content row with its counter moved by [n]; NULL stays NULL. *)
Definition add_views (n : Z) (c : Content.t) : Content.t :=
  Content.mk (Content.id c) (Content.title c) (Content.description c)
    (Content.type c) (Content.videoUrl c) (Content.thumbnailHorizontal c)
    (Content.thumbnailVertical c) (Content.year c) (Content.duration c)
    (Content.rating c) (Content.genres c) (Content.cast c)
    (Content.director c) (Content.isActive c) (Content.isFeatured c)
    (option_map (fun v => v + n) (Content.viewCount c))
    (Content.createdAt c) (Content.updatedAt c).

(** Every counter of the rows of [id] can take [n] more views. *)
Definition room_for (n : Z) (id : string) (s : Store) : Prop :=
  forall c v,
    In c (content s) -> Content.id c = id ->
    Content.viewCount c = Some v -> v + n <= INT4_MAX.

(** [id] is the primary key of [content]. *)
Definition content_pk (s : Store) : Prop :=
  NoDup (map Content.id (content s)).

(** An active row that is marked as featured. *)
Definition featured (c : Content.t) : Prop :=
  Content.isFeatured c = Some true /\ Content.isActive c = Some true.

(** The admin endpoints and the body each one carries. *)
Definition admin_body (req : Request) : option Json :=
  match req with
  | AdminVerify body => Some body
  | AdminCreateContent body => Some body
  | AdminUpdateContent _ body => Some body
  | AdminDeleteContent _ body => Some body
  | AdminCreateEpisode body => Some body
  | _ => None
  end.

(** *** Substrings, as the specification words the search *)

Definition fold_case (s : string) : list ascii :=
  map lower (list_ascii_of_string s).



Fixpoint is_prefix (q t : list ascii) : bool :=
  match q, t with
  | [], _ => true
  | _ :: _, [] => false
  | a :: q', b :: t' => Ascii.eqb b a && is_prefix q' t'
  end.

Fixpoint occurs_in (q t : list ascii) : bool :=
  is_prefix q t
  || match t with
     | [] => false
     | _ :: t' => occurs_in q t'
     end.

(** The query does not begin in the middle of a character, as no
    string that JavaScript encodes does. *)
Definition starts_on_character (query : string) : bool :=
  boundary (list_ascii_of_string query).

(** No character of the query means anything to LIKE. *)
Definition is_wildcard (c : ascii) : bool :=
  Ascii.eqb c percent || Ascii.eqb c underscore || Ascii.eqb c backslash.

Definition wildcard_free (query : string) : bool :=
  forallb (fun c => negb (is_wildcard c)) (list_ascii_of_string query).

(** *** Requests in flight

    The store runs one statement of one request at a time, in any
    order. *)
Section InFlight.
Context {A : Type}.

Inductive sched_step : Store * list (M A) -> Store * list (M A) -> Prop :=
| sched_pick (s : Store) (before after : list (M A)) (c : Call)
    (statement : Store -> Store * M A) :
    sched_step (s, before ++ Await c statement :: after)
               (fst (statement s), before ++ snd (statement s) :: after).

Inductive executes : Store * list (M A) -> Store * list (M A) -> Prop :=
| exec_here (x : Store * list (M A)) : executes x x
| exec_step (x y z : Store * list (M A)) :
    sched_step x y -> executes y z -> executes x z.

Definition is_pending (m : M A) : bool :=
  match m with
  | Await _ _ => true
  | _ => false
  end.

Definition finished (pool : list (M A)) : Prop :=
  Forall (fun m => is_pending m = false) pool.


(** The next statement of the request at place [i], if it awaits one. *)
Definition step_request (i : nat) (x : Store * list (M A))
  : Store * list (M A) :=
  match nth_error (snd x) i with
  | Some (Await c statement) =>
      (fst (statement (fst x)),
       firstn i (snd x) ++ snd (statement (fst x)) :: skipn (S i) (snd x))
  | _ => x
  end.

(** The statements of the requests, in the given order of places. *)
Definition schedule (order : list nat) (x : Store * list (M A))
  : Store * list (M A) :=
  fold_left (fun x i => step_request i x) order x.

End InFlight.

(** The store with the counter of the rows of [id] moved by [n]. *)
Definition viewed (n : Z) (id : string) (s : Store) : Store :=
  mkStore (users s)
          (update_where (has_id id) (add_views n) (content s))
          (episodes s) (favorites s).

(** *** The stores the system can be in

    From the empty store, by serving a request or by a login of the
    identity provider, which upserts the user. *)
Inductive reachable : Store -> Prop :=
| reach_empty : reachable empty_store
| reach_serve (env : Env) (session : option string) (req : Request)
    (s : Store) :
    reachable s -> reachable (store_after (serve env session req s))
| reach_login (env : Env) (userData : UpsertUser.t) (s s' : Store)
    (u : User.t) :
    reachable s -> upsertUser env s userData = Ok (u, s') -> reachable s'.

(** What every such store satisfies. *)
Record well_formed (s : Store) : Prop := mk_well_formed {
  wf_pk : content_pk s;
  wf_viewCount :
    forall c, In c (content s) ->
              exists v, Content.viewCount c = Some v /\ 0 <= v <= INT4_MAX;
  wf_createdAt :
    forall c, In c (content s) -> exists t, Content.createdAt c = Some t
}.

(** *** Keys and references *)

(** [id] is the primary key of [users], and [email] is unique among the
    rows that have one. *)
Definition users_pk (s : Store) : Prop :=
  NoDup (map User.id (users s)).

Definition emails_unique (s : Store) : Prop :=
  forall u1 u2 e,
    In u1 (users s) -> In u2 (users s) ->
    User.email u1 = Some e -> User.email u2 = Some e ->
    User.id u1 = User.id u2.

(** Every favorite points at a stored user and a stored content, every
    episode at a stored content. *)
Definition references_hold (s : Store) : Prop :=
  (forall f, In f (favorites s) ->
             has_user s (Favorite.userId f) = true
             /\ has_content s (Favorite.contentId f) = true)
  /\ (forall e, In e (episodes s) ->
                has_content s (Episode.contentId e) = true).

(** The rows of [favorites] for one pair. *)
Definition favorite_rows (s : Store) (userId contentId : string)
  : list Favorite.t :=
  filter (favorite_of userId contentId) (favorites s).

(** *** Update bodies *)

(** The body [{}]: nothing to set. *)
Definition no_change : PartialInsertContent.t :=
  PartialInsertContent.mk None Absent None Absent Absent Absent Absent Absent
    Absent Absent Absent Absent Absent Absent.

(** The body [{ isActive: b }]. *)
Definition set_isActive (b : bool) : PartialInsertContent.t :=
  PartialInsertContent.mk None Absent None Absent Absent Absent Absent Absent
    Absent Absent Absent Absent (Value b) Absent.

(** The body [{ title: t }]. *)
Definition set_title (t : string) : PartialInsertContent.t :=
  PartialInsertContent.mk (Some t) Absent None Absent Absent Absent Absent
    Absent Absent Absent Absent Absent Absent Absent.

(** A full set of content fields, read as an update of all of them that
    are present. *)
Definition as_partial (d : InsertContent.t) : PartialInsertContent.t :=
  PartialInsertContent.mk
    (Some (InsertContent.title d))
    (InsertContent.description d)
    (Some (InsertContent.type d))
    (InsertContent.videoUrl d)
    (InsertContent.thumbnailHorizontal d)
    (InsertContent.thumbnailVertical d)
    (InsertContent.year d)
    (InsertContent.duration d)
    (InsertContent.rating d)
    (InsertContent.genres d)
    (InsertContent.cast d)
    (InsertContent.director d)
    (InsertContent.isActive d)
    (InsertContent.isFeatured d).

(** The content rows a response body carries. *)
Definition body_rows (b : Body) : list Content.t :=
  match b with
  | BodyContent (Some c) => [c]
  | BodyContentList l => l
  | _ => []
  end.

(** The requests whose handlers only read. *)
Definition read_only (req : Request) : bool :=
  match req with
  | GetAuthUser | GetContent _ | GetEpisodes _ | GetFavorites
  | CheckFavorite _ | AdminVerify _ => true
  | _ => false
  end.

(** ** Sample data *)

Definition movie (id title : string) (isActive isFeatured : bool)
  (viewCount createdAt : Z) : Content.t :=
  Content.mk id title None "movie" None None None None None None None None
    None (Some isActive) (Some isFeatured) (Some viewCount) (Some createdAt)
    (Some createdAt).

Definition heat : Content.t := movie "c1" "Heat" true true 3 100.
Definition ronin : Content.t := movie "c2" "Ronin" false false 0 200.
Definition thief : Content.t := movie "c3" "Thief" true true 7 300.

Definition ann : User.t :=
  User.mk "u1" (Some "ann@example.org"%string) None None None (Some 50) (Some 50).

Definition sample_store : Store :=
  mkStore [ann] [heat; ronin; thief] []
    [Favorite.mk "f1" "u1" "c1" (Some 400);
     Favorite.mk "f2" "u1" "c1" (Some 410)].

Definition sample_env : Env := mkEnv "f3" 500.

(** A row whose counter is at the end of the range. *)
Definition alien : Content.t := movie "c4" "Alien" true false 2147483647 50.

Definition counted_out_store : Store := mkStore [] [alien] [] [].

Definition wrong_password : Json :=
  JObj [("password"%string, JStr "cla-samu20")].

(** The store after an admin has created one movie on the empty store. *)
Definition first_movie_store : Store :=
  store_after
    (serve (mkEnv "c1" 100) None
       (AdminCreateContent
          (JObj [("password"%string, JStr ADMIN_PASSWORD);
                 ("title"%string, JStr "Heat");
                 ("type"%string, JStr "movie");
                 ("viewCount"%string, JNum 1000)]))
       empty_store).

(** A request body of an admin: the password and the given keys. *)
Definition admin_json (fields : list (string * Json)) : Json :=
  JObj (("password"%string, JStr ADMIN_PASSWORD) :: fields).

Definition pilot : InsertEpisode.t :=
  InsertEpisode.mk "c1" "Pilot" Absent 1 Absent "https://cdn.example.org/1"
    Absent Absent.

(** The same episode, as a body, for a content that is not stored. *)
Definition orphan_episode_json : Json :=
  admin_json [("contentId"%string, JStr "c9");
              ("title"%string, JStr "Pilot");
              ("episodeNumber"%string, JNum 1);
              ("videoUrl"%string, JStr "https://cdn.example.org/1")].

Definition bob_data : UpsertUser.t :=
  UpsertUser.mk (Some "u2"%string) (Value "bob@example.org"%string) Absent
    Absent Absent Absent Absent.

(** A favorite for [thief], in a body that names another user. *)
Definition favorite_json : Json :=
  JObj [("contentId"%string, JStr "c3"); ("userId"%string, JStr "u7")].

Definition new_movie_json : Json :=
  admin_json [("title"%string, JStr "Collateral");
              ("type"%string, JStr "movie");
              ("id"%string, JStr "mine");
              ("viewCount"%string, JNum 99)].

(** A store with a row in every table, reached from the empty store: a
    login, a movie, a favorite and an episode. *)
Definition ann_data : UpsertUser.t :=
  UpsertUser.mk (Some "u1"%string) (Value "ann@example.org"%string) Absent
    Absent Absent Absent Absent.

Definition store_after_login : Store :=
  match upsertUser (mkEnv "u1" 50) empty_store ann_data with
  | Ok (_, s) => s
  | Err _ => empty_store
  end.

Definition busy_store : Store :=
  store_after
    (serve (mkEnv "e1" 130) None
       (AdminCreateEpisode
          (admin_json [("contentId"%string, JStr "c1");
                       ("title"%string, JStr "Pilot");
                       ("episodeNumber"%string, JNum 1);
                       ("videoUrl"%string,
                        JStr "https://cdn.example.org/1")]))
       (store_after
          (serve (mkEnv "f1" 120) (Some "u1"%string)
             (PostFavorites (JObj [("contentId"%string, JStr "c1")]))
             (store_after
                (serve (mkEnv "c1" 100) None
                   (AdminCreateContent
                      (admin_json [("title"%string, JStr "Heat");
                                   ("type"%string, JStr "movie")]))
                   store_after_login))))).

Definition rename_json : Json :=
  admin_json [("title"%string, JStr "Heat (1995)")].

(** * Properties *)

(** ** Ordering and filtering *)

Section OrderByFacts.
Context {A : Type}.
Variable le : A -> A -> bool.

Lemma insert_sorted_perm (a : A) (l : list A) :
  Permutation (insert_sorted le a l) (a :: l).
Proof.
  induction l as [|b l IH]; simpl.
  - apply Permutation_refl.
  - destruct (le a b).
    + apply Permutation_refl.
    + eapply perm_trans; [apply perm_skip, IH | apply perm_swap].
Qed.

Lemma orderBy_perm (l : list A) : Permutation (orderBy le l) l.
Proof.
  induction l as [|a l IH]; simpl.
  - constructor.
  - eapply perm_trans; [apply insert_sorted_perm | apply perm_skip, IH].
Qed.

Lemma orderBy_In (x : A) (l : list A) : In x (orderBy le l) <-> In x l.
Proof.
  split; apply Permutation_in;
    [apply orderBy_perm | apply Permutation_sym, orderBy_perm].
Qed.

Hypothesis le_total : forall a b, le a b = true \/ le b a = true.
Hypothesis le_trans :
  forall a b c, le a b = true -> le b c = true -> le a c = true.

Lemma insert_sorted_sorted (a : A) (l : list A) :
  StronglySorted (stands_before le) l -> StronglySorted (stands_before le) (insert_sorted le a l).
Proof.
  induction 1 as [|b l Hl IH Hb]; simpl.
  - repeat constructor.
  - destruct (le a b) eqn:Hab.
    + constructor; [constructor; assumption|].
      constructor; [exact Hab|].
      eapply Forall_impl; [|exact Hb].
      intros c Hc. exact (le_trans _ _ _ Hab Hc).
    + constructor; [exact IH|].
      assert (Hba : stands_before le b a).
      { destruct (le_total a b) as [H|H]; [congruence | exact H]. }
      eapply Permutation_Forall;
        [apply Permutation_sym, insert_sorted_perm|].
      constructor; assumption.
Qed.

Lemma orderBy_sorted (l : list A) : StronglySorted (stands_before le) (orderBy le l).
Proof.
  induction l as [|a l IH]; simpl.
  - constructor.
  - apply insert_sorted_sorted, IH.
Qed.

(** The first row of a sorted result stands before every row. *)
Lemma first_orderBy_least (l : list A) (x : A) :
  first (orderBy le l) = Some x ->
  In x l /\ forall y, In y l -> le x y = true.
Proof.
  intros Hx.
  pose proof (orderBy_sorted l) as Hs.
  destruct (orderBy le l) as [|z r] eqn:Hr; [discriminate|].
  injection Hx as ->.
  split.
  - apply orderBy_In. rewrite Hr. left. reflexivity.
  - intros y Hy. apply orderBy_In in Hy. rewrite Hr in Hy.
    destruct Hy as [<-|Hy].
    + destruct (le_total x x); assumption.
    + inversion Hs as [|? ? _ Hall]; subst.
      rewrite Forall_forall in Hall. apply Hall, Hy.
Qed.

Lemma first_orderBy_none (l : list A) :
  first (orderBy le l) = None <-> l = [].
Proof.
  split.
  - intros H. destruct l as [|a l]; [reflexivity|].
    assert (Hin : In a (orderBy le (a :: l)))
      by (apply orderBy_In; left; reflexivity).
    destruct (orderBy le (a :: l)); [destruct Hin | discriminate].
  - intros ->. reflexivity.
Qed.

End OrderByFacts.

Lemma desc_le_total (a b : option Z) :
  desc_le a b = true \/ desc_le b a = true.
Proof.
  destruct a, b; simpl; auto.
  destruct (Z.leb_spec z0 z); [left; reflexivity | right].
  apply Z.leb_le. lia.
Qed.

Lemma desc_le_trans (a b c : option Z) :
  desc_le a b = true -> desc_le b c = true -> desc_le a c = true.
Proof.
  destruct a, b, c; simpl; try congruence.
  rewrite !Z.leb_le. lia.
Qed.

Lemma active_iff (c : Content.t) :
  active c = true <-> Content.isActive c = Some true.
Proof.
  unfold active, is_true.
  destruct (Content.isActive c) as [[|]|]; split; congruence.
Qed.

Lemma inactive_not_active (c : Content.t) :
  Content.isActive c = Some false -> active c = false.
Proof. unfold active. intros ->. reflexivity. Qed.

Lemma In_firstn {A} (n : nat) (l : list A) (x : A) :
  In x (firstn n l) -> In x l.
Proof.
  revert l. induction n as [|n IH]; intros [|a l]; simpl; try tauto.
  intros [H|H]; [left; exact H | right; apply IH, H].
Qed.

Lemma In_first {A} (l : list A) (x : A) : first l = Some x -> In x l.
Proof. destruct l; simpl; [discriminate|]. intros [= ->]. left. reflexivity. Qed.

(** ** Soft-deleted content *)

Lemma update_where_In {A} (cond : A -> bool) (f : A -> A) (l : list A)
  (r : A) :
  In r l -> In (if cond r then f r else r) (update_where cond f l).
Proof.
  intros H. unfold update_where.
  apply (in_map (fun r => if cond r then f r else r)), H.
Qed.

Lemma update_where_In_inv {A} (cond : A -> bool) (f : A -> A) (l : list A)
  (r' : A) :
  In r' (update_where cond f l) ->
  exists r, In r l /\ r' = if cond r then f r else r.
Proof.
  unfold update_where. rewrite in_map_iff.
  intros (r & <- & Hr). exists r. split; [exact Hr | reflexivity].
Qed.

Lemma has_id_iff (id : string) (c : Content.t) :
  has_id id c = true <-> Content.id c = id.
Proof. unfold has_id. apply String.eqb_eq. Qed.

Lemma has_id_self (c : Content.t) : has_id (Content.id c) c = true.
Proof. apply has_id_iff. reflexivity. Qed.

Lemma has_content_false (s : Store) (id : string) :
  has_content s id = false <->
  forall c, In c (content s) -> Content.id c <> id.
Proof.
  unfold has_content. split.
  - intros H c Hc Heq.
    assert (E : existsb (fun c => String.eqb (Content.id c) id) (content s)
                = true).
    { apply existsb_exists. exists c. split; [exact Hc|].
      apply String.eqb_eq, Heq. }
    congruence.
  - intros H.
    destruct (existsb _ _) eqn:E; [|reflexivity].
    apply existsb_exists in E. destruct E as (c & Hc & Heq).
    apply String.eqb_eq in Heq. destruct (H c Hc Heq).
Qed.

(** Every row a read query returns is active. *)
Lemma read_queries_active (s : Store) (c : Content.t) :
  (In c (getAllContent s) -> active c = true)
  /\ (forall type, In c (getContentByType s type) -> active c = true)
  /\ (getFeaturedContent s = Some c -> active c = true)
  /\ (In c (getPopularContent s) -> active c = true)
  /\ (In c (getNewContent s) -> active c = true)
  /\ (forall q, In c (searchContent s q) -> active c = true)
  /\ (forall id, getContentById s id = Some c -> active c = true).
Proof.
  unfold getAllContent, getContentByType, getFeaturedContent,
    getPopularContent, getNewContent, searchContent, getContentById.
  repeat split; intros.
  all: repeat match goal with
       | H : first _ = Some _ |- _ => apply In_first in H
       | H : In _ (firstn _ _) |- _ => apply In_firstn in H
       | H : In _ (orderBy _ _) |- _ => apply orderBy_In in H
       | H : In _ (filter _ _) |- _ => apply filter_In in H; destruct H as [_ H]
       | H : (_ && _)%bool = true |- _ => apply andb_prop in H; destruct H
       end; assumption.
Qed.


(** ** Favorites *)

Lemma favorite_of_iff (userId contentId : string) (f : Favorite.t) :
  favorite_of userId contentId f = true <->
  Favorite.userId f = userId /\ Favorite.contentId f = contentId.
Proof.
  unfold favorite_of. rewrite andb_true_iff, !String.eqb_eq. tauto.
Qed.

Lemma isFavorite_iff (s : Store) (userId contentId : string) :
  isFavorite s userId contentId = true <->
  exists f, In f (favorites s)
            /\ Favorite.userId f = userId
            /\ Favorite.contentId f = contentId.
Proof.
  unfold isFavorite. split.
  - destruct (first _) as [f|] eqn:E; [|discriminate].
    intros _. apply In_first, filter_In in E. destruct E as [Hf Hm].
    exists f. split; [exact Hf | apply favorite_of_iff, Hm].
  - intros (f & Hf & Hu & Hc).
    assert (Hin : In f (filter (favorite_of userId contentId) (favorites s))).
    { apply filter_In. split; [exact Hf|]. apply favorite_of_iff. tauto. }
    destruct (filter _ _); [destruct Hin | reflexivity].
Qed.

(** [addToFavorites] goes through whenever the generated id is new and
    the user and the content exist. *)
Lemma addToFavorites_ok (env : Env) (s : Store) (data : InsertFavorite.t) :
  existsb (fun f => String.eqb (Favorite.id f) (uuid env)) (favorites s)
  = false ->
  has_user s (InsertFavorite.userId data) = true ->
  has_content s (InsertFavorite.contentId data) = true ->
  addToFavorites env s data
  = Ok (Favorite.mk (uuid env) (InsertFavorite.userId data)
          (InsertFavorite.contentId data) (Some (now env)),
        mkStore (users s) (content s) (episodes s)
          (favorites s
           ++ [Favorite.mk (uuid env) (InsertFavorite.userId data)
                 (InsertFavorite.contentId data) (Some (now env))])).
Proof.
  intros Hid Hu Hc. unfold addToFavorites. rewrite Hid, Hu, Hc. reflexivity.
Qed.

(** C7. Once [addToFavorites] has stored its row (the generated id is
    new, the user and the content exist), [isFavorite] on the same pair
    is true; after [removeFromFavorites], [isFavorite] on the same pair is
    false on every store, however many rows the pair had. *)
Theorem favorites_add_then_remove :
  (forall env s data,
      existsb (fun f => String.eqb (Favorite.id f) (uuid env)) (favorites s)
      = false ->
      has_user s (InsertFavorite.userId data) = true ->
      has_content s (InsertFavorite.contentId data) = true ->
      exists favorite s',
        addToFavorites env s data = Ok (favorite, s')
        /\ isFavorite s' (InsertFavorite.userId data)
                         (InsertFavorite.contentId data) = true)
  /\ (forall env s data favorite s',
        addToFavorites env s data = Ok (favorite, s') ->
        isFavorite s' (InsertFavorite.userId data)
                      (InsertFavorite.contentId data) = true)
  /\ (forall s userId contentId,
        isFavorite (removeFromFavorites s userId contentId) userId contentId
        = false).
Proof.
  assert (Hadd : forall env s data favorite s',
             addToFavorites env s data = Ok (favorite, s') ->
             isFavorite s' (InsertFavorite.userId data)
                           (InsertFavorite.contentId data) = true).
  { intros env s data favorite s'. unfold addToFavorites.
    destruct (existsb _ _); [discriminate|].
    destruct (negb _); [discriminate|].
    intros [= <- <-]. apply isFavorite_iff.
    eexists. split; [simpl; apply in_or_app; right; left; reflexivity|].
    split; reflexivity. }
  split; [|split].
  - intros env s data Hid Hu Hc.
    pose proof (addToFavorites_ok env s data Hid Hu Hc) as E.
    eexists _, _. split; [exact E|]. exact (Hadd _ _ _ _ _ E).
  - exact Hadd.
  - intros s userId contentId.
    destruct (isFavorite _ _ _) eqn:E; [|reflexivity].
    apply isFavorite_iff in E. destruct E as (f & Hf & Hu & Hc).
    unfold removeFromFavorites in Hf; simpl in Hf.
    apply filter_In in Hf. destruct Hf as [_ Hn].
    apply negb_true_iff in Hn.
    assert (favorite_of userId contentId f = true)
      by (apply favorite_of_iff; tauto).
    congruence.
Qed.

(** ** The featured item *)

Lemma featured_iff (c : Content.t) :
  is_true (Content.isFeatured c) && active c = true <-> featured c.
Proof.
  unfold featured. rewrite andb_true_iff, active_iff. unfold is_true.
  destruct (Content.isFeatured c) as [[|]|]; intuition congruence.
Qed.

(** C9. [getFeaturedContent] returns one row or none.  On a store whose
    rows all carry a [createdAt], the row it returns is active and
    featured and no active featured row has a later [createdAt]; it
    returns none only when no row is active and featured. *)
Theorem getFeaturedContent_newest (s : Store) :
  (forall c, In c (content s) -> Content.createdAt c <> None) ->
  match getFeaturedContent s with
  | Some c =>
      In c (content s) /\ featured c
      /\ exists t,
          Content.createdAt c = Some t
          /\ forall c' t',
              In c' (content s) -> featured c' ->
              Content.createdAt c' = Some t' -> t' <= t
  | None => forall c', In c' (content s) -> ~ featured c'
  end.
Proof.
  intros Hts. unfold getFeaturedContent.
  destruct (first _) as [c|] eqn:E.
  - apply (first_orderBy_least by_createdAt_desc) in E.
    + destruct E as [Hin Hmax]. apply filter_In in Hin.
      destruct Hin as [Hin Hf]. apply featured_iff in Hf.
      split; [exact Hin|]. split; [exact Hf|].
      destruct (Content.createdAt c) as [t|] eqn:Ht;
        [|destruct (Hts c Hin Ht)].
      exists t. split; [reflexivity|].
      intros c' t' Hin' Hf' Ht'.
      assert (H : by_createdAt_desc c c' = true).
      { apply Hmax, filter_In. split; [exact Hin' | apply featured_iff, Hf']. }
      unfold by_createdAt_desc in H. rewrite Ht, Ht' in H. simpl in H.
      apply Z.leb_le, H.
    + intros a b. apply desc_le_total.
    + intros a b d. apply desc_le_trans.
  - apply first_orderBy_none in E.
    intros c' Hin' Hf'.
    assert (H : In c' (filter (fun c => is_true (Content.isFeatured c)
                                        && active c) (content s))).
    { apply filter_In. split; [exact Hin' | apply featured_iff, Hf']. }
    rewrite E in H. destruct H.
Qed.

(** ** The handlers *)

Lemma password_mismatch (body : Json) :
  field body "password" <> Some (JStr ADMIN_PASSWORD) ->
  password_matches body = false.
Proof.
  unfold password_matches. intros H.
  destruct (field body "password") as [[| | |p| |]|]; try reflexivity.
  destruct (String.eqb p ADMIN_PASSWORD) eqn:E; [|reflexivity].
  apply String.eqb_eq in E. subst p. destruct H. reflexivity.
Qed.

Lemma password_match (body : Json) :
  password_matches body = true <->
  field body "password" = Some (JStr ADMIN_PASSWORD).
Proof.
  unfold password_matches. split.
  - destruct (field body "password") as [[| | |p| |]|]; try discriminate.
    intros E. apply String.eqb_eq in E. subst p. reflexivity.
  - intros ->. apply String.eqb_refl.
Qed.

(** C5. On each admin endpoint, a request whose submitted password is not
    the configured secret is answered 401, the store stays as it was and
    no storage operation is called, whatever the rest of the body is. *)
Theorem admin_wrong_password_rejected (env : Env) (session : option string)
  (req : Request) (body : Json) (s : Store) :
  admin_body req = Some body ->
  field body "password" <> Some (JStr ADMIN_PASSWORD) ->
  serve env session req s
  = mkServed (Some (mkResponse 401 (BodyMessage "Invalid admin password")))
             s [].
Proof.
  intros Hb Hp. apply password_mismatch in Hp.
  destruct req; simpl in Hb; try discriminate; injection Hb as ->;
    unfold serve, route, admin_verify, admin_create_content,
      admin_update_content, admin_delete_content, admin_create_episode,
      checkAdminPassword;
    rewrite Hp; reflexivity.
Qed.

Lemma getContentById_none (s : Store) (id : string) :
  getContentById s id = None <->
  forall c, In c (content s) -> Content.id c = id ->
            Content.isActive c <> Some true.
Proof.
  unfold getContentById. split.
  - intros E c Hc Hid Ha.
    assert (H : In c (filter (fun c => String.eqb (Content.id c) id
                                       && active c) (content s))).
    { apply filter_In. split; [exact Hc|].
      apply andb_true_iff. split;
        [apply String.eqb_eq, Hid | apply active_iff, Ha]. }
    destruct (filter _ _); [destruct H | discriminate].
  - intros H. destruct (first _) as [c|] eqn:E; [|reflexivity].
    apply In_first, filter_In in E. destruct E as [Hc Hm].
    apply andb_true_iff in Hm. destruct Hm as [Hid Ha].
    apply String.eqb_eq in Hid. apply active_iff in Ha.
    destruct (H c Hc Hid Ha).
Qed.

Lemma getContentById_some (s : Store) (id : string) (c : Content.t) :
  getContentById s id = Some c ->
  In c (content s) /\ Content.id c = id /\ Content.isActive c = Some true.
Proof.
  unfold getContentById. intros E.
  apply In_first, filter_In in E. destruct E as [Hc Hm].
  apply andb_true_iff in Hm. destruct Hm as [Hid Ha].
  apply String.eqb_eq in Hid. apply active_iff in Ha. auto.
Qed.

Lemma bump_is_add_one (c : Content.t) : bump_viewCount c = add_views 1 c.
Proof. reflexivity. Qed.

(** An increment goes through when the counters of the id have room for
    one more view, and then adds one view; it is rejected when one of
    them is at the end of the range. *)
Lemma incrementViewCount_ok (s : Store) (id : string) :
  room_for 1 id s -> incrementViewCount s id = Ok (viewed 1 id s).
Proof.
  intros Hroom. unfold incrementViewCount.
  destruct (existsb _ _) eqn:E; [|reflexivity].
  apply existsb_exists in E. destruct E as (c & Hc & E).
  apply andb_true_iff in E. destruct E as [Hid Hmax].
  unfold at_int4_max in Hmax.
  destruct (Content.viewCount c) as [v|] eqn:Hv; [|discriminate].
  apply Z.leb_le in Hmax. apply String.eqb_eq in Hid.
  pose proof (Hroom c v Hc Hid Hv). lia.
Qed.

Lemma incrementViewCount_inv (s s' : Store) (id : string) :
  incrementViewCount s id = Ok s' ->
  s' = viewed 1 id s /\ room_for 1 id s.
Proof.
  unfold incrementViewCount.
  destruct (existsb _ _) eqn:E; [discriminate|].
  intros [= <-]. split; [reflexivity|].
  intros c v Hc Hid Hv.
  destruct (Z.leb_spec INT4_MAX v) as [Hle|Hlt]; [|lia].
  assert (Hex : existsb
                  (fun c => has_id id c && at_int4_max (Content.viewCount c))
                  (content s) = true).
  { apply existsb_exists. exists c. split; [exact Hc|].
    apply andb_true_iff. split; [apply has_id_iff, Hid|].
    unfold at_int4_max. rewrite Hv. apply Z.leb_le, Hle. }
  congruence.
Qed.

Lemma incrementViewCount_err (s : Store) (id : string) (c : Content.t)
  (v : Z) :
  In c (content s) -> Content.id c = id ->
  Content.viewCount c = Some v -> INT4_MAX <= v ->
  incrementViewCount s id = Err NumericValueOutOfRange.
Proof.
  intros Hc Hid Hv Hmax. unfold incrementViewCount.
  destruct (existsb _ _) eqn:E; [reflexivity|].
  assert (Hex : existsb
                  (fun c => has_id id c && at_int4_max (Content.viewCount c))
                  (content s) = true).
  { apply existsb_exists. exists c. split; [exact Hc|].
    apply andb_true_iff. split; [apply has_id_iff, Hid|].
    unfold at_int4_max. rewrite Hv. apply Z.leb_le, Hmax. }
  congruence.
Qed.

Lemma serve_get_content_by_id (env : Env) (session : option string)
  (id : string) (s : Store) :
  serve env session (GetContentById id) s
  = match getContentById s id with
    | None =>
        mkServed (Some (mkResponse 404 (BodyMessage "Content not found")))
                 s [CallGetContentById id]
    | Some c =>
        match incrementViewCount s id with
        | Ok s' =>
            mkServed (Some (mkResponse 200 (BodyContent (Some c))))
                     s' [CallGetContentById id; CallIncrementViewCount id]
        | Err _ =>
            mkServed
              (Some (mkResponse 500 (BodyMessage "Failed to fetch content")))
              s [CallGetContentById id; CallIncrementViewCount id]
        end
    end.
Proof.
  unfold serve, route, get_content_by_id, incrementViewCount_prog, query,
    attempt_void, catch_all, json, status_json, ret; simpl.
  destruct (getContentById s id); simpl; [|reflexivity].
  destruct (incrementViewCount s id); reflexivity.
Qed.

Lemma incremented_row (s : Store) (id : string) (c : Content.t) :
  In c (content s) -> Content.id c = id ->
  In (add_views 1 c) (content (viewed 1 id s)).
Proof.
  intros Hc Hid. unfold viewed; simpl.
  pose proof (update_where_In (has_id id) (add_views 1) (content s) c Hc)
    as H.
  apply has_id_iff in Hid. rewrite Hid in H. exact H.
Qed.


(** ** The primary key *)

Lemma NoDup_map_eq {A B} (f : A -> B) (l : list A) (a b : A) :
  NoDup (map f l) -> In a l -> In b l -> f a = f b -> a = b.
Proof.
  induction l as [|x l IH]; simpl; intros Hnd Ha Hb Heq; [destruct Ha|].
  inversion Hnd as [|? ? Hx Hl]; subst.
  destruct Ha as [->|Ha], Hb as [->|Hb]; try reflexivity.
  - destruct Hx. rewrite Heq. apply in_map, Hb.
  - destruct Hx. rewrite <- Heq. apply in_map, Ha.
  - apply IH; assumption.
Qed.

Lemma pk_same_row (s : Store) (a b : Content.t) :
  content_pk s -> In a (content s) -> In b (content s) ->
  Content.id a = Content.id b -> a = b.
Proof. apply NoDup_map_eq. Qed.

Lemma update_where_ids {A B} (key : A -> B) (cond : A -> bool) (f : A -> A)
  (l : list A) :
  (forall r, key (f r) = key r) ->
  map key (update_where cond f l) = map key l.
Proof.
  intros H. unfold update_where. rewrite map_map. apply map_ext.
  intros r. destruct (cond r); [apply H | reflexivity].
Qed.

Lemma NoDup_filter_map {A B} (key : A -> B) (p : A -> bool) (l : list A) :
  NoDup (map key l) -> NoDup (map key (filter p l)).
Proof.
  induction l as [|a l IH]; simpl; intros H; [constructor|].
  inversion H as [|? ? Ha Hl]; subst.
  destruct (p a); simpl; [|apply IH, Hl].
  constructor; [|apply IH, Hl].
  intros Hin. apply Ha. apply in_map_iff in Hin.
  destruct Hin as (x & Hx & Hin). apply filter_In in Hin.
  apply in_map_iff. exists x. tauto.
Qed.

(** A request that is alone in flight runs its statements one after the
    other, with nothing in between: [run] is its one complete
    execution. *)
Lemma run_alone {A} :
  forall (m : M A) (s : Store) (log : list Call),
    executes (s, [m])
             (fst (snd (run m (s, log))), [outcome (fst (run m (s, log)))]).
Proof.
  fix IH 1. intros [a|e|c st] s log; simpl.
  - apply exec_here.
  - apply exec_here.
  - eapply exec_step; [exact (sched_pick s [] [] c st)|]. apply IH.
Qed.

Lemma alone_only {A} (x y : Store * list (M A)) :
  executes x y ->
  forall (m : M A) (s : Store) (log : list Call),
    x = (s, [m]) -> finished (snd y) ->
    y = (fst (snd (run m (s, log))), [outcome (fst (run m (s, log)))]).
Proof.
  induction 1 as [x|x y z Hstep _ IH]; intros m s log -> Hfin.
  - simpl in Hfin. inversion Hfin as [|? ? Hm _]; subst.
    destruct m; simpl in *; [reflexivity | reflexivity | discriminate].
  - remember (s, [m]) as x eqn:Ex.
    destruct Hstep as [s0 before after c st].
    injection Ex as -> Hx.
    destruct before as [|b before]; simpl in Hx.
    + injection Hx as <- ->. simpl.
      apply (IH _ _ (log ++ [c]) eq_refl Hfin).
    + injection Hx as _ Hx. destruct before; discriminate Hx.
Qed.

(** [serve] is the request alone in flight. *)
Lemma serve_alone (env : Env) (session : option string) (req : Request)
  (s : Store) (r : Response) :
  response (serve env session req s) = Some r ->
  executes (s, [route env session req])
           (store_after (serve env session req s), [Ret r])
  /\ forall s' pool',
      executes (s, [route env session req]) (s', pool') ->
      finished pool' ->
      s' = store_after (serve env session req s) /\ pool' = [Ret r].
Proof.
  intros Hr.
  pose proof (run_alone (route env session req) s []) as Hrun.
  assert (Hserve : (fst (snd (run (route env session req) (s, []))),
                    [outcome (fst (run (route env session req) (s, [])))])
                   = (store_after (serve env session req s), [Ret r])).
  { unfold serve in *.
    destruct (run (route env session req) (s, [])) as [[e|r'] [s' log]];
      simpl in *; [discriminate|]. injection Hr as <-. reflexivity. }
  split.
  - rewrite <- Hserve. exact Hrun.
  - intros s' pool' Hex Hfin.
    pose proof (alone_only _ _ Hex _ _ [] eq_refl Hfin) as H.
    rewrite Hserve in H. injection H as -> ->. split; reflexivity.
Qed.

(** The rows of the incremented id after an increment, under the primary
    key. *)
Lemma incremented_rows (s : Store) (id : string) (c c' : Content.t) :
  content_pk s -> In c (content s) -> Content.id c = id ->
  In c' (content (viewed 1 id s)) -> Content.id c' = id ->
  c' = add_views 1 c.
Proof.
  intros Hpk Hc Hid Hc' Hid'.
  unfold viewed in Hc'; simpl in Hc'.
  apply update_where_In_inv in Hc'. destruct Hc' as (r & Hr & ->).
  assert (Content.id r = id).
  { destruct (has_id id r) eqn:E; [apply has_id_iff, E | exact Hid']. }
  assert (r = c) by (apply (pk_same_row s); congruence).
  subst r. apply has_id_iff in Hid. rewrite Hid. reflexivity.
Qed.

(** C10, as amended. A [GET /api/content/:id] that succeeds and is
    alone in flight, so that no statement of another request runs
    between its read and its increment, ends in the answer and the store
    of [serve]; the answer is the row as it was stored before the
    request, and the row the request leaves behind under that id is the
    same row with its [viewCount] one higher, so the count in the answer
    is one less than the count stored afterwards. *)
Theorem get_content_by_id_answers_count_before (env : Env)
  (session : option string) (id : string) (s : Store) (r : Response) :
  content_pk s ->
  response (serve env session (GetContentById id) s) = Some r ->
  status r = 200 ->
  (forall s' pool',
      executes (s, [get_content_by_id id]) (s', pool') ->
      finished pool' ->
      s' = store_after (serve env session (GetContentById id) s)
      /\ pool' = [Ret r])
  /\ exists c,
    body r = BodyContent (Some c)
    /\ In c (content s) /\ Content.id c = id
    /\ incrementViewCount s id
       = Ok (store_after (serve env session (GetContentById id) s))
    /\ In (add_views 1 c)
          (content (store_after (serve env session (GetContentById id) s)))
    /\ forall c' v,
        In c' (content (store_after
                          (serve env session (GetContentById id) s))) ->
        Content.id c' = id ->
        Content.viewCount c = Some v ->
        Content.viewCount c' = Some (v + 1).
Proof.
  intros Hpk Hr Hs.
  split;
    [exact (proj2 (serve_alone env session (GetContentById id) s r Hr))|].
  revert Hr Hs. rewrite serve_get_content_by_id.
  destruct (getContentById s id) as [c|] eqn:E; simpl.
  - destruct (incrementViewCount s id) as [s'|e] eqn:Ei; simpl;
      [|intros [= <-]; simpl; discriminate].
    intros [= <-] _.
    destruct (incrementViewCount_inv _ _ _ Ei) as [-> _].
    destruct (getContentById_some _ _ _ E) as (Hc & Hid & _).
    exists c. repeat split; try assumption.
    + apply incremented_row; assumption.
    + intros c' v Hc' Hid' Hv.
      rewrite (incremented_rows s id c c' Hpk Hc Hid Hc' Hid'). simpl.
      rewrite Hv. reflexivity.
  - intros [= <-]. simpl. discriminate.
Qed.

(** ** What one request does to the store *)

Ltac run_handler :=
  unfold serve, route, get_auth_user, get_content, get_content_by_id,
    get_episodes, get_favorites, post_favorites, delete_favorite,
    check_favorite, admin_verify, admin_create_content,
    admin_update_content, admin_delete_content, admin_create_episode,
    isAuthenticated, checkAdminPassword, try_catch, bind, query, exec,
    exec_returning, attempt, parse, catch_all, catch_zod, json, status_json,
    throw, ret;
  simpl.

Ltac break_match :=
  match goal with
  | |- context [match ?x with _ => _ end] =>
      lazymatch x with
      | context [match _ with _ => _ end] => fail
      | _ => destruct x eqn:?; simpl
      end
  end.

(** Every handler ends in a response. *)
Lemma serve_responds (env : Env) (session : option string) (req : Request)
  (s : Store) :
  exists r, response (serve env session req s) = Some r.
Proof.
  destruct req; run_handler; repeat break_match; eexists; reflexivity.
Qed.

(** The store after a request is the store before, or the result of the
    one write the handler made. *)
Lemma serve_effect (env : Env) (session : option string) (req : Request)
  (s : Store) :
  store_after (serve env session req s) = s
  \/ (exists id,
         req = GetContentById id
         /\ incrementViewCount s id = Ok (viewed 1 id s)
         /\ store_after (serve env session req s) = viewed 1 id s)
  \/ (exists data row,
         createContent env s data
         = Ok (row, store_after (serve env session req s)))
  \/ (exists id data,
         store_after (serve env session req s)
         = snd (updateContent env s id data))
  \/ (exists id, store_after (serve env session req s) = deleteContent s id)
  \/ (exists data row,
         createEpisode env s data
         = Ok (row, store_after (serve env session req s)))
  \/ (exists data row,
         addToFavorites env s data
         = Ok (row, store_after (serve env session req s)))
  \/ (exists userId contentId,
         store_after (serve env session req s)
         = removeFromFavorites s userId contentId).
Proof.
  destruct req as [| q | id | id | | payload | contentId | contentId
                   | payload | payload | id payload | id payload | payload].
  - run_handler; repeat break_match; left; reflexivity.
  - run_handler; repeat break_match; left; reflexivity.
  - rewrite serve_get_content_by_id.
    destruct (getContentById s id); simpl; [|left; reflexivity].
    destruct (incrementViewCount s id) as [s'|e] eqn:E; simpl;
      [|left; reflexivity].
    destruct (incrementViewCount_inv _ _ _ E) as [-> _].
    right; left. exists id. auto.
  - run_handler; left; reflexivity.
  - run_handler; repeat break_match; left; reflexivity.
  - run_handler. destruct session as [userId|]; simpl; [|left; reflexivity].
    destruct (insertFavoriteSchema_parse _) as [e|parsed]; simpl;
      [left; reflexivity|].
    destruct (addToFavorites env s _) as [[f s']|e] eqn:E; simpl;
      [|left; reflexivity].
    do 6 right; left. eexists _, _. exact E.
  - run_handler. destruct session as [userId|]; simpl; [|left; reflexivity].
    do 7 right. eexists _, _. reflexivity.
  - run_handler; repeat break_match; left; reflexivity.
  - run_handler; repeat break_match; left; reflexivity.
  - run_handler. destruct (password_matches payload); simpl; [|left; reflexivity].
    destruct (insertContentSchema_parse _) as [e|data]; simpl;
      [left; reflexivity|].
    destruct (createContent env s data) as [[c s']|e] eqn:E; simpl;
      [|left; reflexivity].
    do 2 right; left. eexists _, _. exact E.
  - run_handler. destruct (password_matches payload); simpl; [|left; reflexivity].
    destruct (insertContentSchema_partial_parse _) as [e|data]; simpl;
      [left; reflexivity|].
    do 3 right; left. eexists _, _. reflexivity.
  - run_handler. destruct (password_matches payload); simpl; [|left; reflexivity].
    do 4 right; left. eexists. reflexivity.
  - run_handler. destruct (password_matches payload); simpl; [|left; reflexivity].
    destruct (insertEpisodeSchema_parse _) as [e|data]; simpl;
      [left; reflexivity|].
    destruct (createEpisode env s data) as [[c s']|e] eqn:E; simpl;
      [|left; reflexivity].
    do 5 right; left. eexists _, _. exact E.
Qed.

(** ** The view counter *)

Lemma set_content_viewCount (env : Env) (data : PartialInsertContent.t)
  (c : Content.t) :
  Content.viewCount (set_content env data c) = Content.viewCount c.
Proof. reflexivity. Qed.

Lemma createContent_ok (env : Env) (s : Store) (data : InsertContent.t)
  (row : Content.t) (s' : Store) :
  createContent env s data = Ok (row, s') ->
  has_content s (uuid env) = false
  /\ row = new_content env data
  /\ s' = mkStore (users s) (content s ++ [row]) (episodes s) (favorites s).
Proof.
  unfold createContent. destruct (has_content s (uuid env)); [discriminate|].
  intros [= <- <-]. auto.
Qed.

Lemma createEpisode_content (env : Env) (s : Store) (data : InsertEpisode.t)
  (row : Episode.t) (s' : Store) :
  createEpisode env s data = Ok (row, s') -> content s' = content s.
Proof.
  unfold createEpisode. destruct (existsb _ _); [discriminate|].
  destruct (negb _); [discriminate|]. intros [= _ <-]. reflexivity.
Qed.

Lemma addToFavorites_content (env : Env) (s : Store)
  (data : InsertFavorite.t) (row : Favorite.t) (s' : Store) :
  addToFavorites env s data = Ok (row, s') -> content s' = content s.
Proof.
  unfold addToFavorites. destruct (existsb _ _); [discriminate|].
  destruct (negb _); [discriminate|]. intros [= _ <-]. reflexivity.
Qed.

Lemma upsertUser_content (env : Env) (s s' : Store) (userData : UpsertUser.t)
  (u : User.t) :
  upsertUser env s userData = Ok (u, s') -> content s' = content s.
Proof.
  unfold upsertUser.
  destruct (getUser s _); destruct (email_taken _ _ _); try discriminate;
    intros [= _ <-]; reflexivity.
Qed.

(** One request and one row: the row that carries the same id afterwards
    has the same [viewCount], unless the request was the
    [GET /api/content/:id] of that id, which adds one. *)
Lemma serve_viewCount (env : Env) (session : option string) (req : Request)
  (s : Store) (c c' : Content.t) :
  content_pk s ->
  In c (content s) ->
  In c' (content (store_after (serve env session req s))) ->
  Content.id c' = Content.id c ->
  Content.viewCount c' = Content.viewCount c
  \/ (req = GetContentById (Content.id c)
      /\ Content.viewCount c'
         = option_map (fun v => v + 1) (Content.viewCount c)).
Proof.
  intros Hpk Hc Hc' Hid.
  destruct (serve_effect env session req s)
    as [E|[(id & Hreq & _ & E)|[(data & row & E)|[(id & data & E)|[(id & E)
       |[(data & row & E)|[(data & row & E)|(u & k & E)]]]]]]].
  - rewrite E in Hc'. left. f_equal. apply (pk_same_row s); assumption.
  - rewrite E in Hc'. unfold viewed in Hc'; simpl in Hc'.
    apply update_where_In_inv in Hc'. destruct Hc' as (r & Hr & ->).
    assert (Hrid : Content.id r = Content.id c)
      by (destruct (has_id id r); exact Hid).
    assert (r = c) by (apply (pk_same_row s); assumption). subst r.
    destruct (has_id id c) eqn:Eid.
    + right. apply has_id_iff in Eid. subst id. split; [exact Hreq|].
      reflexivity.
    + left. reflexivity.
  - apply createContent_ok in E. destruct E as (Hnew & -> & E).
    rewrite E in Hc'; simpl in Hc'. apply in_app_or in Hc'.
    destruct Hc' as [Hc'|[<-|[]]].
    + left. f_equal. apply (pk_same_row s); assumption.
    + rewrite has_content_false in Hnew. destruct (Hnew c Hc).
      rewrite <- Hid. reflexivity.
  - rewrite E in Hc'. unfold updateContent in Hc'; simpl in Hc'.
    apply update_where_In_inv in Hc'. destruct Hc' as (r & Hr & ->).
    assert (Hrid : Content.id r = Content.id c)
      by (destruct (has_id id r); exact Hid).
    assert (r = c) by (apply (pk_same_row s); assumption). subst r.
    left. destruct (has_id id c); reflexivity.
  - rewrite E in Hc'. unfold deleteContent in Hc'; simpl in Hc'.
    apply filter_In in Hc'. destruct Hc' as [Hc' _].
    left. f_equal. apply (pk_same_row s); assumption.
  - apply createEpisode_content in E. rewrite E in Hc'.
    left. f_equal. apply (pk_same_row s); assumption.
  - apply addToFavorites_content in E. rewrite E in Hc'.
    left. f_equal. apply (pk_same_row s); assumption.
  - rewrite E in Hc'. simpl in Hc'.
    left. f_equal. apply (pk_same_row s); assumption.
Qed.

(** C6. [viewCount] only counts up: across any one request, the row that
    keeps an id keeps its [viewCount], except across the
    [GET /api/content/:id] of that id, whose [incrementViewCount] adds
    exactly one.  An [incrementViewCount] that the store accepts adds
    exactly one to the rows of its id; the store accepts it whenever
    their counters are below 2147483647, and rejects it, writing
    nothing, only when one of them is there.  [updateContent] writes every
    column of its row but [viewCount], and [createContent] appends one
    row whose [viewCount] is 0 and leaves the other rows alone:
    [InsertContent] has no [viewCount] to pass.  A login's [upsertUser]
    does not touch [content]. *)
Theorem viewCount_moves_only_by_increment :
  (forall env session req s c c',
      content_pk s ->
      In c (content s) ->
      In c' (content (store_after (serve env session req s))) ->
      Content.id c' = Content.id c ->
      Content.viewCount c' = Content.viewCount c
      \/ (req = GetContentById (Content.id c)
          /\ Content.viewCount c'
             = option_map (fun v => v + 1) (Content.viewCount c)))
  /\ (forall s id s' c,
        incrementViewCount s id = Ok s' ->
        In c (content s) -> Content.id c = id ->
        In (add_views 1 c) (content s'))
  /\ (forall s id,
        room_for 1 id s -> incrementViewCount s id = Ok (viewed 1 id s))
  /\ (forall s id e,
        incrementViewCount s id = Err e ->
        exists c v, In c (content s) /\ Content.id c = id
                    /\ Content.viewCount c = Some v /\ INT4_MAX <= v)
  /\ (forall env data c,
        Content.viewCount (set_content env data c) = Content.viewCount c)
  /\ (forall env s data row s',
        createContent env s data = Ok (row, s') ->
        Content.viewCount row = Some 0 /\ content s' = content s ++ [row])
  /\ (forall env s userData u s',
        upsertUser env s userData = Ok (u, s') -> content s' = content s).
Proof.
  split; [|split; [|split; [|split; [|split; [|split]]]]].
  - intros. apply (serve_viewCount env session req s); assumption.
  - intros s id s' c E Hc Hid.
    destruct (incrementViewCount_inv _ _ _ E) as [-> _].
    apply incremented_row; assumption.
  - intros. apply incrementViewCount_ok. assumption.
  - intros s id e. unfold incrementViewCount.
    destruct (existsb _ _) eqn:E; [|discriminate]. intros _.
    apply existsb_exists in E. destruct E as (c & Hc & E).
    apply andb_true_iff in E. destruct E as [Hid Hmax].
    unfold at_int4_max in Hmax.
    destruct (Content.viewCount c) as [v|] eqn:Hv; [|discriminate].
    exists c, v. apply Z.leb_le in Hmax. apply has_id_iff in Hid. auto.
  - intros. apply set_content_viewCount.
  - intros env s data row s' E. apply createContent_ok in E.
    destruct E as (_ & -> & ->). split; reflexivity.
  - intros env s userData u s' E.
    exact (upsertUser_content env s s' userData u E).
Qed.

(** ** The invariant of the reachable stores *)

Lemma well_formed_same_content (s s' : Store) :
  content s' = content s -> well_formed s -> well_formed s'.
Proof.
  intros E [Hpk Hv Ht]. unfold content_pk in Hpk.
  split; unfold content_pk; rewrite E; assumption.
Qed.

Lemma well_formed_increment (s : Store) (id : string) :
  well_formed s -> room_for 1 id s -> well_formed (viewed 1 id s).
Proof.
  intros [Hpk Hv Ht] Hroom. split.
  - unfold content_pk, viewed; simpl.
    rewrite (update_where_ids Content.id); [exact Hpk | reflexivity].
  - intros c Hc. unfold viewed in Hc; simpl in Hc.
    apply update_where_In_inv in Hc. destruct Hc as (r & Hr & ->).
    destruct (Hv r Hr) as (v & Hrv & Hpos).
    destruct (has_id id r) eqn:E; [|eauto].
    exists (v + 1). simpl. rewrite Hrv. split; [reflexivity|].
    apply has_id_iff in E. pose proof (Hroom r v Hr E Hrv). lia.
  - intros c Hc. unfold viewed in Hc; simpl in Hc.
    apply update_where_In_inv in Hc. destruct Hc as (r & Hr & ->).
    destruct (has_id id r); [exact (Ht r Hr) | exact (Ht r Hr)].
Qed.

Lemma well_formed_create (env : Env) (s s' : Store) (data : InsertContent.t)
  (row : Content.t) :
  createContent env s data = Ok (row, s') ->
  well_formed s -> well_formed s'.
Proof.
  intros E [Hpk Hv Ht]. apply createContent_ok in E.
  destruct E as (Hnew & -> & ->). split.
  - unfold content_pk; simpl. rewrite map_app; simpl.
    apply NoDup_app_remove_l with (l := []); simpl.
    apply Permutation_NoDup with (l := uuid env :: map Content.id (content s)).
    + apply Permutation_cons_append.
    + constructor; [|exact Hpk].
      intros Hin. apply in_map_iff in Hin. destruct Hin as (c & Hid & Hc).
      rewrite has_content_false in Hnew. exact (Hnew c Hc Hid).
  - simpl. intros c Hc. apply in_app_or in Hc.
    destruct Hc as [Hc|[<-|[]]]; [exact (Hv c Hc)|].
    exists 0. split; [reflexivity | unfold INT4_MAX; lia].
  - simpl. intros c Hc. apply in_app_or in Hc.
    destruct Hc as [Hc|[<-|[]]]; [exact (Ht c Hc)|].
    eexists. reflexivity.
Qed.

Lemma well_formed_update (env : Env) (s : Store) (id : string)
  (data : PartialInsertContent.t) :
  well_formed s -> well_formed (snd (updateContent env s id data)).
Proof.
  intros [Hpk Hv Ht]. split.
  - unfold content_pk, updateContent; simpl.
    rewrite (update_where_ids Content.id); [exact Hpk | reflexivity].
  - intros c Hc. unfold updateContent in Hc; simpl in Hc.
    apply update_where_In_inv in Hc. destruct Hc as (r & Hr & ->).
    destruct (has_id id r); exact (Hv r Hr).
  - intros c Hc. unfold updateContent in Hc; simpl in Hc.
    apply update_where_In_inv in Hc. destruct Hc as (r & Hr & ->).
    destruct (has_id id r); exact (Ht r Hr).
Qed.

Lemma well_formed_delete (s : Store) (id : string) :
  well_formed s -> well_formed (deleteContent s id).
Proof.
  intros [Hpk Hv Ht]. split.
  - unfold content_pk, deleteContent; simpl.
    apply NoDup_filter_map, Hpk.
  - intros c Hc. unfold deleteContent in Hc; simpl in Hc.
    apply filter_In in Hc. apply Hv, Hc.
  - intros c Hc. unfold deleteContent in Hc; simpl in Hc.
    apply filter_In in Hc. apply Ht, Hc.
Qed.

Lemma well_formed_serve (env : Env) (session : option string)
  (req : Request) (s : Store) :
  well_formed s -> well_formed (store_after (serve env session req s)).
Proof.
  intros Hwf.
  destruct (serve_effect env session req s)
    as [E|[(id & _ & Hok & E)|[(data & row & E)|[(id & data & E)|[(id & E)
       |[(data & row & E)|[(data & row & E)|(u & k & E)]]]]]]].
  - rewrite E. exact Hwf.
  - rewrite E. apply well_formed_increment; [exact Hwf|].
    exact (proj2 (incrementViewCount_inv _ _ _ Hok)).
  - exact (well_formed_create _ _ _ _ _ E Hwf).
  - rewrite E. apply well_formed_update, Hwf.
  - rewrite E. apply well_formed_delete, Hwf.
  - apply createEpisode_content in E.
    exact (well_formed_same_content _ _ E Hwf).
  - apply addToFavorites_content in E.
    exact (well_formed_same_content _ _ E Hwf).
  - rewrite E. apply (well_formed_same_content s); [reflexivity | exact Hwf].
Qed.

(** Every store the system can be in keeps the primary key of [content]
    and has a [viewCount] within the range of the column and a
    [createdAt] in every content row. *)
Lemma reachable_well_formed (s : Store) : reachable s -> well_formed s.
Proof.
  induction 1 as [|env session req s _ IH|env userData s s' u _ IH E].
  - split; simpl; [constructor | intros c [] | intros c []].
  - apply well_formed_serve, IH.
  - apply upsertUser_content in E.
    exact (well_formed_same_content _ _ E IH).
Qed.

(** A created row starts at 0 views whatever the body says. *)
Example first_movie_store_reachable :
  reachable first_movie_store
  /\ content first_movie_store = [movie "c1" "Heat" true false 0 100].
Proof. split; [apply reach_serve, reach_empty | reflexivity]. Qed.

Corollary reachable_pk (s : Store) : reachable s -> content_pk s.
Proof. intros H. exact (wf_pk s (reachable_well_formed s H)). Qed.

Corollary reachable_createdAt (s : Store) (c : Content.t) :
  reachable s -> In c (content s) -> Content.createdAt c <> None.
Proof.
  intros H Hc.
  destruct (wf_createdAt s (reachable_well_formed s H) c Hc) as (t & ->).
  discriminate.
Qed.

Corollary reachable_viewCount (s : Store) (c : Content.t) :
  reachable s -> In c (content s) ->
  exists v, Content.viewCount c = Some v /\ 0 <= v <= INT4_MAX.
Proof.
  intros H Hc. exact (wf_viewCount s (reachable_well_formed s H) c Hc).
Qed.

(** ** Concurrent increments *)






Lemma room_for_viewed (k m : Z) (id : string) (s : Store) :
  room_for (k + m) id s -> room_for m id (viewed k id s).
Proof.
  intros Hroom c' v' Hc' Hid' Hv'.
  unfold viewed in Hc'; simpl in Hc'.
  apply update_where_In_inv in Hc'. destruct Hc' as (r & Hr & ->).
  destruct (has_id id r) eqn:E.
  - simpl in Hv'. destruct (Content.viewCount r) as [v|] eqn:Hrv;
      [|discriminate].
    injection Hv' as <-. apply has_id_iff in E.
    pose proof (Hroom r v Hr E Hrv). lia.
  - apply has_id_iff in Hid'. congruence.
Qed.




Lemma executes_trans {A} (x y z : Store * list (M A)) :
  executes x y -> executes y z -> executes x z.
Proof.
  induction 1 as [|x y' y Hstep _ IH]; [auto|].
  intros Hz. exact (exec_step x y' z Hstep (IH Hz)).
Qed.

Lemma nth_error_split_at {A} (l : list A) (i : nat) (a : A) :
  nth_error l i = Some a -> l = firstn i l ++ a :: skipn (S i) l.
Proof.
  revert i. induction l as [|b l IH]; intros [|i]; simpl; try discriminate.
  - intros [= ->]. reflexivity.
  - intros H. f_equal. exact (IH i H).
Qed.

(** A schedule given by places is a run of the store. *)
Lemma step_request_executes {A} (i : nat) (x : Store * list (M A)) :
  executes x (step_request i x).
Proof.
  unfold step_request. destruct x as [s pool]. simpl.
  destruct (nth_error pool i) as [[a|e|c statement]|] eqn:E;
    try apply exec_here.
  eapply exec_step; [|apply exec_here].
  rewrite (nth_error_split_at pool i _ E) at 1.
  apply sched_pick.
Qed.

Lemma schedule_executes {A} (order : list nat) (x : Store * list (M A)) :
  executes x (schedule order x).
Proof.
  unfold schedule. revert x.
  induction order as [|i order IH]; intros x; simpl; [apply exec_here|].
  eapply executes_trans; [apply step_request_executes | apply IH].
Qed.





(** C10, at the requests that break it. Between the read and the
    increment of one [GET /api/content/:id] another request can run: of
    two such requests for the row with 3 views, each reading before
    either increments, both answer 3, and 5 is stored when the second
    completes, two more than it answered. *)
Lemma overlapping_gets_counterexample :
  executes
    (sample_store, [get_content_by_id "c1"; get_content_by_id "c1"])
    (viewed 2 "c1" sample_store,
     [Ret (mkResponse 200 (BodyContent (Some heat)));
      Ret (mkResponse 200 (BodyContent (Some heat)))])
  /\ Content.viewCount heat = Some 3
  /\ content (viewed 2 "c1" sample_store) = [add_views 2 heat; ronin; thief]
  /\ Content.viewCount (add_views 2 heat) = Some 5.
Proof.
  split; [|split; [|split]]; try reflexivity.
  exact (schedule_executes [0; 1; 0; 1]%nat
           (sample_store,
            [get_content_by_id "c1"; get_content_by_id "c1"])).
Qed.

(** ** Search *)

Lemma like_percent (p t : list ascii) :
  like_match (percent :: p) t = like_match p t || matches_later p t.
Proof.
  simpl. f_equal. induction t as [|x t IH]; simpl; [reflexivity|].
  rewrite IH. reflexivity.
Qed.

Lemma like_underscore (p t : list ascii) :
  like_match (underscore :: p) t
  = match t with
    | [] => false
    | _ :: t' => like_match p (skip_continuation t')
    end.
Proof. reflexivity. Qed.

Lemma like_plain (c : ascii) (p t : list ascii) :
  is_wildcard c = false ->
  like_match (c :: p) t
  = match t with
    | [] => false
    | x :: t' => Ascii.eqb x c && like_match p t'
    end.
Proof.
  unfold is_wildcard. intros H.
  apply orb_false_iff in H. destruct H as [H Hb].
  apply orb_false_iff in H. destruct H as [Hp Hu].
  simpl. rewrite Hp, Hu, Hb. reflexivity.
Qed.

Lemma matches_later_end (t : list ascii) :
  t <> [] -> matches_later [] t = true.
Proof.
  induction t as [|x t IH]; intros Hne; [destruct Hne; reflexivity|].
  simpl. destruct t as [|y t]; [reflexivity|].
  rewrite IH by discriminate. apply orb_true_r.
Qed.

Lemma like_any (t : list ascii) : like_match [percent] t = true.
Proof.
  rewrite like_percent. destruct t as [|x t]; [reflexivity|].
  rewrite matches_later_end by discriminate. apply orb_true_r.
Qed.

Lemma like_prefix (q t : list ascii) :
  forallb (fun c => negb (is_wildcard c)) q = true ->
  like_match (q ++ [percent]) t = is_prefix q t.
Proof.
  revert t. induction q as [|a q IH]; intros t Hq.
  - simpl app. rewrite like_any. reflexivity.
  - simpl in Hq. apply andb_true_iff in Hq. destruct Hq as [Ha Hq].
    apply negb_true_iff in Ha.
    change ((a :: q) ++ [percent]) with (a :: (q ++ [percent])).
    rewrite (like_plain a _ _ Ha).
    destruct t as [|x t]; [reflexivity|].
    simpl. rewrite (IH t Hq). reflexivity.
Qed.

(** A query that starts on a character is found at the start of a
    character only. *)
Lemma is_prefix_boundary (q t : list ascii) :
  q <> [] -> boundary q = true -> is_prefix q t = true -> boundary t = true.
Proof.
  destruct q as [|a q]; [intros H; destruct H; reflexivity|].
  intros _ Hb. simpl in Hb. destruct t as [|b t]; simpl; [reflexivity|].
  intros H. apply andb_true_iff in H. destruct H as [H _].
  apply Ascii.eqb_eq in H. subst b. exact Hb.
Qed.

Lemma like_occurs (q t : list ascii) :
  forallb (fun c => negb (is_wildcard c)) q = true ->
  boundary q = true ->
  like_match (percent :: q ++ [percent]) t = occurs_in q t.
Proof.
  intros Hq Hb. rewrite like_percent, (like_prefix q t Hq).
  destruct q as [|a q].
  - destruct t; reflexivity.
  - assert (Hlater : forall t,
               matches_later ((a :: q) ++ [percent]) t
               = match t with
                 | [] => false
                 | _ :: t' => occurs_in (a :: q) t'
                 end).
    { intros u. induction u as [|x u IH]; [reflexivity|].
      cbn [matches_later]. rewrite IH, (like_prefix (a :: q) u Hq).
      replace (occurs_in (a :: q) u)
        with (is_prefix (a :: q) u
              || match u with
                 | [] => false
                 | _ :: u' => occurs_in (a :: q) u'
                 end)
        by (destruct u; reflexivity).
      f_equal. destruct (is_prefix (a :: q) u) eqn:E;
        [|apply andb_false_r].
      rewrite (is_prefix_boundary (a :: q) u); [reflexivity | | | ];
        [discriminate | exact Hb | exact E]. }
    rewrite Hlater. destruct t; reflexivity.
Qed.



Lemma lower_keeps_wildcards (c : ascii) :
  is_wildcard (lower c) = is_wildcard c.
Proof. destruct c as [[] [] [] [] [] [] [] []]; reflexivity. Qed.

Lemma lower_keeps_continuation (c : ascii) :
  is_continuation (lower c) = is_continuation c.
Proof. destruct c as [[] [] [] [] [] [] [] []]; reflexivity. Qed.

Lemma fold_case_wildcard_free (query : string) :
  wildcard_free query = true ->
  forallb (fun c => negb (is_wildcard c)) (fold_case query) = true.
Proof.
  unfold wildcard_free, fold_case.
  induction (list_ascii_of_string query) as [|a l IH]; simpl;
    [reflexivity|].
  rewrite lower_keeps_wildcards.
  intros H. apply andb_true_iff in H. destruct H as [-> H].
  exact (IH H).
Qed.

Lemma fold_case_boundary (query : string) :
  starts_on_character query = true -> boundary (fold_case query) = true.
Proof.
  unfold starts_on_character, fold_case.
  destruct (list_ascii_of_string query) as [|a l]; simpl; [reflexivity|].
  rewrite lower_keeps_continuation. auto.
Qed.

Lemma list_ascii_of_string_app (a b : string) :
  list_ascii_of_string (a ++ b)
  = list_ascii_of_string a ++ list_ascii_of_string b.
Proof.
  induction a as [|c a IH]; simpl; [reflexivity|]. rewrite IH. reflexivity.
Qed.

Lemma fold_case_pattern (query : string) :
  fold_case ("%" ++ query ++ "%") = percent :: fold_case query ++ [percent].
Proof.
  unfold fold_case. rewrite !list_ascii_of_string_app, !map_app.
  reflexivity.
Qed.

(** On a query without [%], [_] and backslash the pattern of
    [searchContent] matches the titles that contain the query. *)
Lemma ilike_contains (query title : string) :
  wildcard_free query = true ->
  starts_on_character query = true ->
  ilike title ("%" ++ query ++ "%")
  = occurs_in (fold_case query) (fold_case title).
Proof.
  intros H Hb. unfold ilike.
  change (map lower (list_ascii_of_string ("%" ++ query ++ "%")))
    with (fold_case ("%" ++ query ++ "%")).
  rewrite fold_case_pattern.
  apply like_occurs; [apply fold_case_wildcard_free, H|].
  apply fold_case_boundary, Hb.
Qed.

(** What [searchContent] returns on any query: the active rows whose
    title matches the pattern, newest first. *)
Lemma searchContent_like (s : Store) (query : string) :
  (forall c,
      In c (searchContent s query) <->
      In c (content s) /\ Content.isActive c = Some true
      /\ ilike (Content.title c) ("%" ++ query ++ "%") = true)
  /\ StronglySorted (stands_before by_createdAt_desc)
                    (searchContent s query).
Proof.
  unfold searchContent. split.
  - intros c. rewrite orderBy_In, filter_In, andb_true_iff, active_iff.
    tauto.
  - apply orderBy_sorted.
    + intros a b. apply desc_le_total.
    + intros a b d. apply desc_le_trans.
Qed.


(** ** Validation failures *)

(** The admin handlers answer a body that fails its schema with 400 and
    the issues of the parse. *)
Lemma admin_create_content_invalid (env : Env) (session : option string)
  (payload : Json) (s : Store) (errors : ZodError) :
  password_matches payload = true ->
  insertContentSchema_parse (field_or_self payload "content") = inl errors ->
  serve env session (AdminCreateContent payload) s
  = mkServed
      (Some (mkResponse 400 (BodyInvalid "Invalid content data" errors)))
      s [].
Proof.
  intros Hp He. run_handler. rewrite Hp; simpl. rewrite He. reflexivity.
Qed.

Lemma admin_update_content_invalid (env : Env) (session : option string)
  (id : string) (payload : Json) (s : Store) (errors : ZodError) :
  password_matches payload = true ->
  insertContentSchema_partial_parse (field_or_self payload "content")
  = inl errors ->
  serve env session (AdminUpdateContent id payload) s
  = mkServed
      (Some (mkResponse 400 (BodyInvalid "Invalid content data" errors)))
      s [].
Proof.
  intros Hp He. run_handler. rewrite Hp; simpl. rewrite He. reflexivity.
Qed.

Lemma admin_create_episode_invalid (env : Env) (session : option string)
  (payload : Json) (s : Store) (errors : ZodError) :
  password_matches payload = true ->
  insertEpisodeSchema_parse (field_or_self payload "episode") = inl errors ->
  serve env session (AdminCreateEpisode payload) s
  = mkServed
      (Some (mkResponse 400 (BodyInvalid "Invalid episode data" errors)))
      s [].
Proof.
  intros Hp He. run_handler. rewrite Hp; simpl. rewrite He. reflexivity.
Qed.

(** [POST /api/favorites] has one [catch] for everything: a body that
    fails [insertFavoriteSchema] is answered 500, without the issues. *)
Lemma post_favorites_invalid (env : Env) (userId : string) (payload : Json)
  (s : Store) (errors : ZodError) :
  insertFavoriteSchema_parse (spread_with payload "userId" (JStr userId))
  = inl errors ->
  serve env (Some userId) (PostFavorites payload) s
  = mkServed
      (Some (mkResponse 500 (BodyMessage "Failed to add to favorites")))
      s [].
Proof.
  intros He. run_handler. rewrite He. reflexivity.
Qed.

(** C4, at the request that breaks it. A signed-in user posts the empty
    object to [/api/favorites]: [insertFavoriteSchema] fails on
    [contentId], and the answer is 500 with a generic message, not 400
    with the issue. *)
Theorem post_favorites_empty_body_500 :
  insertFavoriteSchema_parse (spread_with (JObj []) "userId" (JStr "u1"))
  = inl [["contentId"%string]]
  /\ serve sample_env (Some "u1"%string) (PostFavorites (JObj [])) sample_store
     = mkServed
         (Some (mkResponse 500 (BodyMessage "Failed to add to favorites")))
         sample_store [].
Proof. split; reflexivity. Qed.

(** ** The theorems at the sample data *)

Lemma sample_store_pk : content_pk sample_store.
Proof.
  unfold content_pk; simpl.
  repeat constructor; simpl; intuition discriminate.
Defined.


Lemma sample_store_room (n : Z) :
  n <= 1000 -> room_for n "c1" sample_store.
Proof.
  intros Hn c v [<-|[<-|[<-|[]]]]; simpl; intros Hid [= <-];
    unfold INT4_MAX; lia.
Defined.




Lemma admin_wrong_password_rejected_witness :
  admin_body (AdminDeleteContent "c1" wrong_password) = Some wrong_password
  /\ field wrong_password "password" <> Some (JStr ADMIN_PASSWORD)
  /\ serve sample_env None (AdminDeleteContent "c1" wrong_password)
           sample_store
     = mkServed
         (Some (mkResponse 401 (BodyMessage "Invalid admin password")))
         sample_store [].
Proof.
  assert (H1 : admin_body (AdminDeleteContent "c1" wrong_password)
               = Some wrong_password) by reflexivity.
  assert (H2 : field wrong_password "password"
               <> Some (JStr ADMIN_PASSWORD))
    by (simpl; discriminate).
  split; [exact H1|]. split; [exact H2|].
  exact (admin_wrong_password_rejected sample_env None _ _ sample_store
           H1 H2).
Defined.

Lemma viewCount_moves_only_by_increment_witness :
  content_pk sample_store
  /\ In heat (content sample_store)
  /\ In (add_views 1 heat)
        (content (store_after (serve sample_env None (GetContentById "c1")
                                     sample_store)))
  /\ (Content.viewCount (add_views 1 heat) = Content.viewCount heat
      \/ (GetContentById "c1" = GetContentById (Content.id heat)
          /\ Content.viewCount (add_views 1 heat)
             = option_map (fun v => v + 1) (Content.viewCount heat))).
Proof.
  assert (H1 : In heat (content sample_store)) by (simpl; auto).
  assert (H2 : In (add_views 1 heat)
                  (content (store_after
                              (serve sample_env None (GetContentById "c1")
                                     sample_store))))
    by (simpl; auto).
  split; [exact sample_store_pk|]. split; [exact H1|]. split; [exact H2|].
  exact (proj1 viewCount_moves_only_by_increment sample_env None
           (GetContentById "c1") sample_store heat (add_views 1 heat)
           sample_store_pk H1 H2 eq_refl).
Defined.

Lemma favorites_add_then_remove_witness :
  has_user sample_store "u1" = true
  /\ has_content sample_store "c3" = true
  /\ (exists favorite s',
         addToFavorites sample_env sample_store (InsertFavorite.mk "u1" "c3")
         = Ok (favorite, s')
         /\ isFavorite s' "u1" "c3" = true)
  /\ isFavorite sample_store "u1" "c1" = true
  /\ isFavorite (removeFromFavorites sample_store "u1" "c1") "u1" "c1"
     = false.
Proof.
  destruct favorites_add_then_remove as (Hadd & _ & Hremove).
  split; [reflexivity|]. split; [reflexivity|].
  split;
    [exact (Hadd sample_env sample_store (InsertFavorite.mk "u1" "c3")
              eq_refl eq_refl eq_refl)|].
  split; [reflexivity|].
  exact (Hremove sample_store "u1"%string "c1"%string).
Defined.



Lemma getFeaturedContent_newest_witness :
  (forall c, In c (content sample_store) -> Content.createdAt c <> None)
  /\ getFeaturedContent sample_store = Some thief
  /\ match getFeaturedContent sample_store with
     | Some c =>
         In c (content sample_store) /\ featured c
         /\ exists t,
             Content.createdAt c = Some t
             /\ forall c' t',
                 In c' (content sample_store) -> featured c' ->
                 Content.createdAt c' = Some t' -> t' <= t
     | None => forall c', In c' (content sample_store) -> ~ featured c'
     end.
Proof.
  assert (H : forall c, In c (content sample_store) ->
                        Content.createdAt c <> None).
  { intros c [<-|[<-|[<-|[]]]]; simpl; discriminate. }
  split; [exact H|]. split; [reflexivity|].
  exact (getFeaturedContent_newest sample_store H).
Defined.

Lemma get_content_by_id_answers_count_before_witness :
  response (serve sample_env None (GetContentById "c1") sample_store)
  = Some (mkResponse 200 (BodyContent (Some heat)))
  /\ exists c,
      BodyContent (Some heat) = BodyContent (Some c)
      /\ In c (content sample_store)
      /\ incrementViewCount sample_store "c1"
         = Ok (store_after (serve sample_env None (GetContentById "c1")
                                  sample_store))
      /\ forall c' v,
          In c' (content (store_after
                            (serve sample_env None (GetContentById "c1")
                                   sample_store))) ->
          Content.id c' = "c1"%string ->
          Content.viewCount c = Some v ->
          Content.viewCount c' = Some (v + 1).
Proof.
  assert (H : response (serve sample_env None (GetContentById "c1")
                              sample_store)
              = Some (mkResponse 200 (BodyContent (Some heat))))
    by reflexivity.
  split; [exact H|].
  destruct (get_content_by_id_answers_count_before sample_env None "c1"
              sample_store _ sample_store_pk H eq_refl)
    as (_ & c & Hbody & Hc & _ & Hinc & _ & Hafter).
  exists c. split; [exact Hbody|]. split; [exact Hc|].
  split; [exact Hinc | exact Hafter].
Defined.

(** * Further properties of the data access layer *)

(** ** Sorted results *)

Lemma StronglySorted_weaken {A} (R R' : A -> A -> Prop) (l : list A) :
  (forall a b, R a b -> R' a b) ->
  StronglySorted R l -> StronglySorted R' l.
Proof.
  intros HR. induction 1 as [|a l _ IH Hall]; constructor.
  - exact IH.
  - eapply Forall_impl; [|exact Hall]. intros b. apply HR.
Qed.

Lemma sorted_firstn_skipn {A} (R : A -> A -> Prop) (l : list A) (n : nat)
  (x y : A) :
  StronglySorted R l -> In x (firstn n l) -> In y (skipn n l) -> R x y.
Proof.
  intros Hs. revert n. induction Hs as [|a l _ IH Hall]; intros n Hx Hy.
  - destruct n; destruct Hx.
  - destruct n as [|n]; simpl in Hx, Hy; [destruct Hx|].
    destruct Hx as [<-|Hx].
    + rewrite Forall_forall in Hall. apply Hall.
      rewrite <- (firstn_skipn n l). apply in_or_app. right. exact Hy.
    + exact (IH n Hx Hy).
Qed.

Lemma by_createdAt_desc_total (a b : Content.t) :
  by_createdAt_desc a b = true \/ by_createdAt_desc b a = true.
Proof. apply desc_le_total. Qed.

Lemma by_createdAt_desc_trans (a b c : Content.t) :
  by_createdAt_desc a b = true -> by_createdAt_desc b c = true ->
  by_createdAt_desc a c = true.
Proof. apply desc_le_trans. Qed.

Lemma by_viewCount_desc_total (a b : Content.t) :
  by_viewCount_desc a b = true \/ by_viewCount_desc b a = true.
Proof. apply desc_le_total. Qed.

Lemma by_viewCount_desc_trans (a b c : Content.t) :
  by_viewCount_desc a b = true -> by_viewCount_desc b c = true ->
  by_viewCount_desc a c = true.
Proof. apply desc_le_trans. Qed.

Ltac order_cases :=
  repeat match goal with
         | |- context [Z.leb ?x ?y] => destruct (Z.leb_spec x y); simpl
         | H : context [Z.leb ?x ?y] |- _ =>
             destruct (Z.leb_spec x y); simpl in H
         end;
  try reflexivity; try discriminate; try lia.

Lemma by_season_episode_total (a b : Episode.t) :
  by_season_episode a b = true \/ by_season_episode b a = true.
Proof.
  unfold by_season_episode, asc_le.
  destruct (Episode.seasonNumber a), (Episode.seasonNumber b); simpl;
    order_cases; auto.
Qed.

Lemma by_season_episode_trans (a b c : Episode.t) :
  by_season_episode a b = true -> by_season_episode b c = true ->
  by_season_episode a c = true.
Proof.
  unfold by_season_episode, asc_le.
  destruct (Episode.seasonNumber a), (Episode.seasonNumber b),
    (Episode.seasonNumber c); simpl; intros H1 H2; order_cases.
Qed.

(** What [by_season_episode] says of two rows that have a season. *)
Lemma by_season_episode_reading (a b : Episode.t) (sa sb : Z) :
  Episode.seasonNumber a = Some sa -> Episode.seasonNumber b = Some sb ->
  by_season_episode a b = true ->
  sa < sb \/ (sa = sb /\ Episode.episodeNumber a <= Episode.episodeNumber b).
Proof.
  unfold by_season_episode, asc_le. intros -> ->. intros H.
  order_cases.
Qed.

(** X1. [getEpisodesByContentId] returns the episodes of the content and
    no other, each as often as it is stored, and of any two of them the
    earlier in the result has the lower season, or the same season and
    an episode number that is not higher. *)
Theorem getEpisodesByContentId_sorted (s : Store) (contentId : string) :
  (forall e,
      In e (getEpisodesByContentId s contentId) <->
      In e (episodes s) /\ Episode.contentId e = contentId)
  /\ Permutation
       (getEpisodesByContentId s contentId)
       (filter (fun e => String.eqb (Episode.contentId e) contentId)
               (episodes s))
  /\ StronglySorted
       (fun a b =>
          forall sa sb,
            Episode.seasonNumber a = Some sa ->
            Episode.seasonNumber b = Some sb ->
            sa < sb
            \/ (sa = sb
                /\ Episode.episodeNumber a <= Episode.episodeNumber b))
       (getEpisodesByContentId s contentId).
Proof.
  unfold getEpisodesByContentId. split; [|split].
  - intros e. rewrite orderBy_In, filter_In, String.eqb_eq. reflexivity.
  - apply orderBy_perm.
  - eapply StronglySorted_weaken;
      [|apply orderBy_sorted;
        [exact by_season_episode_total | exact by_season_episode_trans]].
    intros a b Hab sa sb Ha Hb.
    exact (by_season_episode_reading a b sa sb Ha Hb Hab).
Qed.

(** X2. [getAllContent] and [getContentByType] return exactly the active
    rows (of the type), each as often as it is stored, with no row that
    has a [createdAt] before a row with a later one; [getNewContent] is
    the first 20 rows of [getAllContent]. *)
Theorem content_lists_exact_and_sorted (s : Store) :
  (Permutation (getAllContent s) (filter active (content s))
   /\ StronglySorted
        (fun a b =>
           forall ta tb,
             Content.createdAt a = Some ta -> Content.createdAt b = Some tb ->
             tb <= ta)
        (getAllContent s))
  /\ (forall type,
        Permutation
          (getContentByType s type)
          (filter (fun c => String.eqb (Content.type c) type && active c)
                  (content s))
        /\ StronglySorted
             (fun a b =>
                forall ta tb,
                  Content.createdAt a = Some ta ->
                  Content.createdAt b = Some tb -> tb <= ta)
             (getContentByType s type))
  /\ getNewContent s = firstn 20 (getAllContent s)
  /\ (List.length (getNewContent s) <= 20)%nat.
Proof.
  assert (Hread : forall a b : Content.t,
             stands_before by_createdAt_desc a b ->
             forall ta tb,
               Content.createdAt a = Some ta ->
               Content.createdAt b = Some tb -> tb <= ta).
  { unfold stands_before, by_createdAt_desc. intros a b H ta tb Ha Hb.
    rewrite Ha, Hb in H. simpl in H. apply Z.leb_le, H. }
  split; [|split; [|split]].
  - split; [apply orderBy_perm|].
    eapply StronglySorted_weaken; [exact Hread|].
    apply orderBy_sorted;
      [exact by_createdAt_desc_total | exact by_createdAt_desc_trans].
  - intros type. split; [apply orderBy_perm|].
    eapply StronglySorted_weaken; [exact Hread|].
    apply orderBy_sorted;
      [exact by_createdAt_desc_total | exact by_createdAt_desc_trans].
  - reflexivity.
  - unfold getNewContent. apply firstn_le_length.
Qed.

(** X3. [getPopularContent] returns at most 20 active rows, all of them
    when there are no more than 20; the active rows it leaves out have no
    more views than any row it returns. *)
Theorem getPopularContent_top_20 (s : Store) :
  exists rest,
    Permutation (getPopularContent s ++ rest) (filter active (content s))
    /\ (List.length (getPopularContent s) <= 20)%nat
    /\ ((List.length (filter active (content s)) <= 20)%nat -> rest = [])
    /\ (forall x y vx vy,
           In x (getPopularContent s) -> In y rest ->
           Content.viewCount x = Some vx -> Content.viewCount y = Some vy ->
           vy <= vx)
    /\ StronglySorted
         (fun a b =>
            forall va vb,
              Content.viewCount a = Some va -> Content.viewCount b = Some vb ->
              vb <= va)
         (getPopularContent s).
Proof.
  unfold getPopularContent.
  set (sorted := orderBy by_viewCount_desc (filter active (content s))).
  assert (Hs : StronglySorted (stands_before by_viewCount_desc) sorted)
    by (apply orderBy_sorted;
        [exact by_viewCount_desc_total | exact by_viewCount_desc_trans]).
  assert (Hread : forall a b : Content.t,
             stands_before by_viewCount_desc a b ->
             forall va vb,
               Content.viewCount a = Some va ->
               Content.viewCount b = Some vb -> vb <= va).
  { unfold stands_before, by_viewCount_desc. intros a b H va vb Ha Hb.
    rewrite Ha, Hb in H. simpl in H. apply Z.leb_le, H. }
  exists (skipn 20 sorted). split; [|split; [|split; [|split]]].
  - rewrite firstn_skipn. apply orderBy_perm.
  - apply firstn_le_length.
  - intros Hlen. apply skipn_all2.
    unfold sorted.
    rewrite (Permutation_length (orderBy_perm by_viewCount_desc _)).
    exact Hlen.
  - intros x y vx vy Hx Hy.
    apply Hread. exact (sorted_firstn_skipn _ sorted 20 x y Hs Hx Hy).
  - eapply StronglySorted_weaken; [exact Hread|].
    rewrite <- (firstn_skipn 20 sorted) in Hs.
    clear - Hs. revert Hs.
    generalize (firstn 20 sorted) as l1, (skipn 20 sorted) as l2.
    induction l1 as [|a l1 IH]; intros l2 H; [constructor|].
    simpl in H. inversion H as [|? ? Hl Hall]; subst.
    constructor; [exact (IH l2 Hl)|].
    apply Forall_app in Hall. tauto.
Qed.

(** ** Content rows by id *)

Lemma store_eta (s : Store) :
  mkStore (users s) (content s) (episodes s) (favorites s) = s.
Proof. destruct s. reflexivity. Qed.

Lemma filter_all {A} (p : A -> bool) (l : list A) :
  (forall x, In x l -> p x = true) -> filter p l = l.
Proof.
  induction l as [|a l IH]; simpl; intros H; [reflexivity|].
  rewrite (H a (or_introl eq_refl)). f_equal. apply IH.
  intros x Hx. apply H. right. exact Hx.
Qed.

Lemma filter_none {A} (p : A -> bool) (l : list A) :
  (forall x, In x l -> p x = false) -> filter p l = [].
Proof.
  induction l as [|a l IH]; simpl; intros H; [reflexivity|].
  rewrite (H a (or_introl eq_refl)). apply IH.
  intros x Hx. apply H. right. exact Hx.
Qed.

Lemma update_where_none {A} (cond : A -> bool) (f : A -> A) (l : list A) :
  (forall x, In x l -> cond x = false) -> update_where cond f l = l.
Proof.
  intros H. unfold update_where. rewrite <- (map_id l) at 2.
  apply map_ext_in. intros x Hx. rewrite (H x Hx). reflexivity.
Qed.

Lemma has_id_false (s : Store) (id : string) :
  has_content s id = false ->
  forall c, In c (content s) -> has_id id c = false.
Proof.
  intros H c Hc. rewrite has_content_false in H.
  destruct (has_id id c) eqn:E; [|reflexivity].
  apply has_id_iff in E. destruct (H c Hc E).
Qed.

(** Under the primary key, the rows with the id of a stored row are that
    row alone. *)
Lemma pk_filter_id (s : Store) (c : Content.t) (p : Content.t -> bool) :
  content_pk s -> In c (content s) ->
  (forall r, p r = true -> Content.id r = Content.id c) ->
  filter p (content s) = if p c then [c] else [].
Proof.
  unfold content_pk. intros Hpk Hc Hp.
  induction (content s) as [|a l IH]; [destruct Hc|].
  simpl in Hpk. inversion Hpk as [|? ? Ha Hl]; subst.
  destruct Hc as [->|Hc].
  - simpl. rewrite (filter_none p l).
    + destruct (p c); reflexivity.
    + intros x Hx. destruct (p x) eqn:E; [|reflexivity].
      destruct Ha. rewrite <- (Hp x E). apply in_map, Hx.
  - simpl. rewrite (IH Hl Hc).
    destruct (p a) eqn:E; [|reflexivity].
    destruct Ha. rewrite (Hp a E). apply in_map, Hc.
Qed.

Lemma getContentById_under_pk (s : Store) :
  content_pk s ->
  (forall c,
      In c (content s) ->
      getContentById s (Content.id c)
      = if active c then Some c else None)
  /\ (forall id, has_content s id = false -> getContentById s id = None).
Proof.
  intros Hpk. split.
  - intros c Hc. unfold getContentById.
    rewrite (pk_filter_id s c _ Hpk Hc).
    + rewrite String.eqb_refl. simpl. destruct (active c); reflexivity.
    + intros r Hr. apply andb_true_iff in Hr. destruct Hr as [Hr _].
      apply String.eqb_eq, Hr.
  - intros id Hid. apply getContentById_none.
    intros c Hc Heq. rewrite has_content_false in Hid.
    destruct (Hid c Hc Heq).
Qed.

(** X4. Under the primary key, [getContentById] on the id of a stored
    row returns that very row when the row is active and nothing when it
    is not; on an id no row has it returns nothing. *)
Theorem getContentById_finds_active_row (s : Store) :
  content_pk s ->
  (forall c,
      In c (content s) ->
      getContentById s (Content.id c)
      = if active c then Some c else None)
  /\ (forall id, has_content s id = false -> getContentById s id = None).
Proof. exact (getContentById_under_pk s). Qed.

Lemma deleteContent_rows (s : Store) (id : string) :
  (forall c, In c (content (deleteContent s id)) <->
             In c (content s) /\ Content.id c <> id)
  /\ (forall e, In e (episodes (deleteContent s id)) <->
                In e (episodes s) /\ Episode.contentId e <> id)
  /\ (forall f, In f (favorites (deleteContent s id)) <->
                In f (favorites s) /\ Favorite.contentId f <> id)
  /\ users (deleteContent s id) = users s
  /\ getEpisodesByContentId (deleteContent s id) id = []
  /\ (forall userId, isFavorite (deleteContent s id) userId id = false)
  /\ deleteContent (deleteContent s id) id = deleteContent s id.
Proof.
  assert (Hneq : forall a b : string,
             negb (String.eqb a b) = true <-> a <> b).
  { intros a b. rewrite negb_true_iff. apply String.eqb_neq. }
  split; [|split; [|split; [|split; [|split; [|split]]]]].
  - intros c. unfold deleteContent; simpl. rewrite filter_In.
    unfold has_id. rewrite Hneq. reflexivity.
  - intros e. unfold deleteContent; simpl. rewrite filter_In, Hneq.
    reflexivity.
  - intros f. unfold deleteContent; simpl. rewrite filter_In, Hneq.
    reflexivity.
  - reflexivity.
  - unfold getEpisodesByContentId, deleteContent; simpl.
    rewrite filter_none; [reflexivity|].
    intros e He. apply filter_In in He. destruct He as [_ He].
    apply negb_true_iff, He.
  - intros userId. unfold isFavorite, deleteContent; simpl.
    rewrite filter_none; [reflexivity|].
    intros f Hf. apply filter_In in Hf. destruct Hf as [_ Hf].
    unfold favorite_of. apply negb_true_iff in Hf. rewrite Hf.
    apply andb_false_r.
  - unfold deleteContent; simpl. f_equal.
    + apply filter_all. intros c Hc. apply filter_In in Hc. tauto.
    + apply filter_all. intros e He. apply filter_In in He. tauto.
    + apply filter_all. intros f Hf. apply filter_In in Hf. tauto.
Qed.

(** X5. [deleteContent] removes the rows of the id from [content] and,
    with them, the episodes and the favorites that reference the id; all
    other rows of the three tables and all users stay; a second
    [deleteContent] of the same id changes nothing. *)
Theorem deleteContent_cascades (s : Store) (id : string) :
  (forall c, In c (content (deleteContent s id)) <->
             In c (content s) /\ Content.id c <> id)
  /\ (forall e, In e (episodes (deleteContent s id)) <->
                In e (episodes s) /\ Episode.contentId e <> id)
  /\ (forall f, In f (favorites (deleteContent s id)) <->
                In f (favorites s) /\ Favorite.contentId f <> id)
  /\ users (deleteContent s id) = users s
  /\ getEpisodesByContentId (deleteContent s id) id = []
  /\ (forall userId, isFavorite (deleteContent s id) userId id = false)
  /\ deleteContent (deleteContent s id) id = deleteContent s id.
Proof. exact (deleteContent_rows s id). Qed.

(** X6. [createContent] with a generated id that no row has stores a row
    with that id, no views, and the statement's time as [createdAt] and
    [updatedAt]; [isActive] defaults to true and [isFeatured] to false.
    [getContentById] on the new id then returns the row, unless the data
    set [isActive] to false or null, in which case it returns nothing. *)
Theorem createContent_then_getContentById (env : Env) (s : Store)
  (data : InsertContent.t) :
  has_content s (uuid env) = false ->
  exists row s',
    createContent env s data = Ok (row, s')
    /\ content s' = content s ++ [row]
    /\ Content.id row = uuid env
    /\ Content.viewCount row = Some 0
    /\ Content.createdAt row = Some (now env)
    /\ Content.updatedAt row = Some (now env)
    /\ (InsertContent.isActive data = Absent ->
        Content.isActive row = Some true)
    /\ (InsertContent.isFeatured data = Absent ->
        Content.isFeatured row = Some false)
    /\ getContentById s' (uuid env)
       = match InsertContent.isActive data with
         | Absent | Value true => Some row
         | Null | Value false => None
         end.
Proof.
  intros Hnew. exists (new_content env data). eexists.
  split; [unfold createContent; rewrite Hnew; reflexivity|].
  simpl. repeat split.
  - intros ->. reflexivity.
  - intros ->. reflexivity.
  - unfold getContentById; simpl. rewrite filter_app.
    rewrite (filter_none _ (content s)).
    + simpl. rewrite String.eqb_refl. unfold active; simpl.
      destruct (InsertContent.isActive data) as [| |[|]]; reflexivity.
    + intros c Hc. pose proof (has_id_false s _ Hnew c Hc) as H.
      unfold has_id in H. rewrite H. reflexivity.
Qed.

Lemma updateContent_cases (env : Env) (s : Store) (id : string)
  (data : PartialInsertContent.t) :
  (has_content s id = false -> updateContent env s id data = (None, s))
  /\ (content_pk s ->
      forall c,
        In c (content s) -> Content.id c = id ->
        fst (updateContent env s id data) = Some (set_content env data c)
        /\ (forall c',
               In c' (content (snd (updateContent env s id data))) <->
               c' = set_content env data c
               \/ (In c' (content s) /\ Content.id c' <> id))
        /\ Content.id (set_content env data c) = Content.id c
        /\ Content.viewCount (set_content env data c) = Content.viewCount c
        /\ Content.createdAt (set_content env data c) = Content.createdAt c
        /\ Content.updatedAt (set_content env data c) = Some (now env)).
Proof.
  split.
  - intros Hno. unfold updateContent; simpl.
    rewrite (update_where_none _ _ _ (has_id_false s id Hno)).
    rewrite (filter_none _ _ (has_id_false s id Hno)).
    rewrite store_eta. reflexivity.
  - intros Hpk c Hc Hid.
    assert (Hs' : content_pk (snd (updateContent env s id data))).
    { unfold content_pk, updateContent; simpl.
      rewrite (update_where_ids Content.id); [exact Hpk | reflexivity]. }
    assert (Hnew : In (set_content env data c)
                      (content (snd (updateContent env s id data)))).
    { unfold updateContent; simpl.
      pose proof (update_where_In (has_id id) (set_content env data)
                    (content s) c Hc) as H.
      apply has_id_iff in Hid. rewrite Hid in H. exact H. }
    split; [|split; [|repeat split]].
    + unfold updateContent at 1. cbn [fst].
      change (update_where (has_id id) (set_content env data) (content s))
        with (content (snd (updateContent env s id data))).
      rewrite (pk_filter_id _ (set_content env data c) _ Hs' Hnew).
      * simpl. unfold has_id; simpl. apply String.eqb_eq in Hid.
        rewrite Hid. reflexivity.
      * intros r Hr. apply has_id_iff in Hr. simpl. congruence.
    + intros c'. split.
      * intros Hc'. unfold updateContent in Hc'; simpl in Hc'.
        apply update_where_In_inv in Hc'. destruct Hc' as (r & Hr & ->).
        destruct (has_id id r) eqn:E.
        -- left. apply has_id_iff in E.
           assert (r = c) by (apply (pk_same_row s); congruence).
           subst r. reflexivity.
        -- right. split; [exact Hr|]. intros Heq.
           apply has_id_iff in Heq. congruence.
      * intros [->|[Hc' Hne]]; [exact Hnew|].
        unfold updateContent; simpl.
        pose proof (update_where_In (has_id id) (set_content env data)
                      (content s) c' Hc') as H.
        destruct (has_id id c') eqn:E; [|exact H].
        apply has_id_iff in E. destruct (Hne E).
Qed.

(** X7. [updateContent] on an id that no row has returns no row and
    leaves the store as it is.  Under the primary key, on the id of a
    stored row it returns that row rewritten, stores it in the row's
    place and leaves every other row alone; the rewritten row keeps its
    [id], [viewCount] and [createdAt] and has the statement's time as
    [updatedAt], whatever the data. *)
Theorem updateContent_rewrites_one_row (env : Env) (s : Store) (id : string)
  (data : PartialInsertContent.t) :
  (has_content s id = false -> updateContent env s id data = (None, s))
  /\ (content_pk s ->
      forall c,
        In c (content s) -> Content.id c = id ->
        fst (updateContent env s id data) = Some (set_content env data c)
        /\ (forall c',
               In c' (content (snd (updateContent env s id data))) <->
               c' = set_content env data c
               \/ (In c' (content s) /\ Content.id c' <> id))
        /\ Content.id (set_content env data c) = Content.id c
        /\ Content.viewCount (set_content env data c) = Content.viewCount c
        /\ Content.createdAt (set_content env data c) = Content.createdAt c
        /\ Content.updatedAt (set_content env data c) = Some (now env)).
Proof. exact (updateContent_cases env s id data). Qed.

(** C1. A content row whose [isActive] is false appears in the result of
    none of [getAllContent], [getContentByType], [getFeaturedContent],
    [getPopularContent], [getNewContent] and [searchContent].  Yet
    [updateContent] on its id rewrites it, every column the data names
    taking the data's value, and returns a row (under the primary key,
    the rewritten row, which takes the place of the old one); an update
    that sets [isActive] to true makes [getContentById] return it; and
    [deleteContent] on its id removes it: neither looks at [isActive]. *)
Theorem inactive_content_hidden_but_editable (s : Store) (c : Content.t) :
  In c (content s) ->
  Content.isActive c = Some false ->
  (~ In c (getAllContent s)
   /\ (forall type, ~ In c (getContentByType s type))
   /\ getFeaturedContent s <> Some c
   /\ ~ In c (getPopularContent s)
   /\ ~ In c (getNewContent s)
   /\ (forall query, ~ In c (searchContent s query)))
  /\ (forall env data,
        In (set_content env data c)
           (content (snd (updateContent env s (Content.id c) data)))
        /\ fst (updateContent env s (Content.id c) data) <> None
        /\ set_content env data c
           = Content.mk (Content.id c)
               (update_req (Content.title c)
                           (PartialInsertContent.title data))
               (update_col (Content.description c)
                           (PartialInsertContent.description data))
               (update_req (Content.type c) (PartialInsertContent.type data))
               (update_col (Content.videoUrl c)
                           (PartialInsertContent.videoUrl data))
               (update_col (Content.thumbnailHorizontal c)
                           (PartialInsertContent.thumbnailHorizontal data))
               (update_col (Content.thumbnailVertical c)
                           (PartialInsertContent.thumbnailVertical data))
               (update_col (Content.year c) (PartialInsertContent.year data))
               (update_col (Content.duration c)
                           (PartialInsertContent.duration data))
               (update_col (Content.rating c)
                           (PartialInsertContent.rating data))
               (update_col (Content.genres c)
                           (PartialInsertContent.genres data))
               (update_col (Content.cast c) (PartialInsertContent.cast data))
               (update_col (Content.director c)
                           (PartialInsertContent.director data))
               (update_col (Some false) (PartialInsertContent.isActive data))
               (update_col (Content.isFeatured c)
                           (PartialInsertContent.isFeatured data))
               (Content.viewCount c)
               (Content.createdAt c)
               (Some (now env))
        /\ (content_pk s ->
            fst (updateContent env s (Content.id c) data)
            = Some (set_content env data c)
            /\ (set_content env data c <> c ->
                ~ In c (content
                          (snd (updateContent env s (Content.id c) data))))))
  /\ (content_pk s ->
      forall env,
        getContentById
          (snd (updateContent env s (Content.id c) (set_isActive true)))
          (Content.id c)
        = Some (set_content env (set_isActive true) c)
        /\ Content.isActive (set_content env (set_isActive true) c)
           = Some true)
  /\ (~ In c (content (deleteContent s (Content.id c)))
      /\ has_content (deleteContent s (Content.id c)) (Content.id c) = false).
Proof.
  intros Hin Hoff.
  pose proof (inactive_not_active c Hoff) as Hna.
  destruct (read_queries_active s c) as (H1 & H2 & H3 & H4 & H5 & H6 & _).
  assert (Hnew : forall env data,
             In (set_content env data c)
                (content (snd (updateContent env s (Content.id c) data)))).
  { intros env data. unfold updateContent; simpl.
    pose proof (update_where_In (has_id (Content.id c))
                  (set_content env data) (content s) c Hin) as H.
    rewrite has_id_self in H. exact H. }
  split; [|split; [|split]].
  - repeat split; unfold not; intros;
      match goal with
      | Hx : _ |- _ =>
          first [ apply H1 in Hx | apply H2 in Hx | apply H3 in Hx
                | apply H4 in Hx | apply H5 in Hx | apply H6 in Hx ]
      end; congruence.
  - intros env data. split; [apply Hnew|]. split; [|split].
    + unfold updateContent; simpl.
      assert (Hf : In (set_content env data c)
                      (filter (has_id (Content.id c))
                         (update_where (has_id (Content.id c))
                            (set_content env data) (content s)))).
      { apply filter_In. split; [apply Hnew | apply has_id_iff; reflexivity]. }
      destruct (filter _ _); [destruct Hf | discriminate].
    + unfold set_content. rewrite Hoff. reflexivity.
    + intros Hpk.
      destruct (proj2 (updateContent_cases env s (Content.id c) data)
                  Hpk c Hin eq_refl) as (Hfst & Hrows & _).
      split; [exact Hfst|].
      intros Hne Hc. apply Hrows in Hc.
      destruct Hc as [Heq|[_ Hid]];
        [apply Hne; symmetry; exact Heq | apply Hid; reflexivity].
  - intros Hpk env. split; [|reflexivity].
    assert (Hpk' : content_pk
                     (snd (updateContent env s (Content.id c)
                             (set_isActive true)))).
    { unfold content_pk, updateContent; simpl.
      rewrite (update_where_ids Content.id); [exact Hpk | reflexivity]. }
    exact (proj1 (getContentById_under_pk _ Hpk') _
             (Hnew env (set_isActive true))).
  - split.
    + unfold deleteContent; simpl. rewrite filter_In.
      intros [_ H]. rewrite has_id_self in H. discriminate.
    + apply has_content_false. unfold deleteContent; simpl.
      intros c' Hc' Heq. apply filter_In in Hc'. destruct Hc' as [_ H].
      apply negb_true_iff in H.
      apply has_id_iff in Heq. congruence.
Qed.

(** X8. Hiding and showing a row through [updateContent].  Under the
    primary key, setting [isActive] to false on a stored row makes
    [getContentById] return nothing for its id while the row stays in
    the table; setting it to true again makes [getContentById] return
    the row, changed from the original in [isActive] and [updatedAt]
    only. *)
Theorem hide_then_show (env env' : Env) (s : Store) (c : Content.t) :
  content_pk s ->
  In c (content s) ->
  let hidden := snd (updateContent env s (Content.id c) (set_isActive false)) in
  let shown :=
    snd (updateContent env' hidden (Content.id c) (set_isActive true)) in
  getContentById hidden (Content.id c) = None
  /\ has_content hidden (Content.id c) = true
  /\ getContentById shown (Content.id c)
     = Some (set_content env' (set_isActive true) c)
  /\ set_content env' (set_isActive true) c
     = Content.mk (Content.id c) (Content.title c) (Content.description c)
         (Content.type c) (Content.videoUrl c)
         (Content.thumbnailHorizontal c) (Content.thumbnailVertical c)
         (Content.year c) (Content.duration c) (Content.rating c)
         (Content.genres c) (Content.cast c) (Content.director c)
         (Some true) (Content.isFeatured c) (Content.viewCount c)
         (Content.createdAt c) (Some (now env')).
Proof.
  intros Hpk Hc hidden shown.
  destruct (proj2 (updateContent_cases env s (Content.id c)
                     (set_isActive false)) Hpk c Hc eq_refl)
    as (_ & Hrows & _).
  assert (Hpk1 : content_pk hidden).
  { unfold content_pk, hidden, updateContent; simpl.
    rewrite (update_where_ids Content.id); [exact Hpk | reflexivity]. }
  assert (Hc1 : In (set_content env (set_isActive false) c) (content hidden))
    by (apply Hrows; left; reflexivity).
  destruct (proj2 (updateContent_cases env' hidden (Content.id c)
                     (set_isActive true)) Hpk1 _ Hc1 eq_refl)
    as (_ & Hrows2 & _).
  assert (Hpk2 : content_pk shown).
  { unfold content_pk, shown, updateContent; simpl.
    rewrite (update_where_ids Content.id); [exact Hpk1 | reflexivity]. }
  assert (Hc2 : In (set_content env' (set_isActive true)
                      (set_content env (set_isActive false) c))
                   (content shown))
    by (apply Hrows2; left; reflexivity).
  split; [|split; [|split]].
  - exact (proj1 (getContentById_under_pk hidden Hpk1) _ Hc1).
  - unfold has_content. apply existsb_exists.
    exists (set_content env (set_isActive false) c).
    split; [exact Hc1 | apply String.eqb_refl].
  - exact (proj1 (getContentById_under_pk shown Hpk2) _ Hc2).
  - reflexivity.
Qed.

(** ** Views seen by the next read *)

Lemma first_filter_map {A} (p : A -> bool) (g : A -> A) (l : list A) :
  (forall x, p (g x) = p x) ->
  first (filter p (map g l)) = option_map g (first (filter p l)).
Proof.
  intros H. induction l as [|a l IH]; simpl; [reflexivity|].
  rewrite H. destruct (p a); simpl; [reflexivity | exact IH].
Qed.

Lemma getContentById_after_increment (s : Store) (id : string) :
  getContentById (viewed 1 id s) id
  = option_map (add_views 1) (getContentById s id)
  /\ (forall id', id' <> id ->
                  getContentById (viewed 1 id s) id' = getContentById s id')
  /\ (has_content s id = false -> viewed 1 id s = s).
Proof.
  split; [|split].
  - unfold getContentById, viewed, update_where; simpl.
    rewrite first_filter_map.
    + destruct (first _) as [c|] eqn:E; [|reflexivity]. simpl.
      apply In_first, filter_In in E. destruct E as [_ E].
      apply andb_true_iff in E. destruct E as [E _].
      unfold has_id. rewrite E. reflexivity.
    + intros c. destruct (has_id id c); reflexivity.
  - intros id' Hne.
    unfold getContentById, viewed, update_where; simpl.
    rewrite first_filter_map.
    + destruct (first _) as [c|] eqn:E; [|reflexivity]. simpl.
      apply In_first, filter_In in E. destruct E as [_ E].
      apply andb_true_iff in E. destruct E as [E _].
      apply String.eqb_eq in E.
      destruct (has_id id c) eqn:E'; [|reflexivity].
      apply has_id_iff in E'. congruence.
    + intros c. destruct (has_id id c); reflexivity.
  - intros Hno. unfold viewed.
    rewrite (update_where_none _ _ _ (has_id_false s id Hno)).
    apply store_eta.
Qed.

Lemma room_for_absent (n : Z) (s : Store) (id : string) :
  has_content s id = false -> room_for n id s.
Proof.
  intros Hno c v Hc Hid _.
  pose proof (has_id_false s id Hno c Hc) as H.
  apply has_id_iff in Hid. congruence.
Qed.

(** X9. [incrementViewCount] and the next [getContentById]: after an
    increment that the store accepts, the row the query returns for the
    id is the row it returned before with one more view, and nothing if
    it returned nothing; rows of other ids read as before.  On an id
    that no row has, [incrementViewCount] is accepted and leaves the
    store as it is.  The store rejects the increment exactly when a row
    of the id has its counter at 2147483647 or above, with
    [NumericValueOutOfRange]. *)
Theorem incrementViewCount_seen_by_next_read (s : Store) (id : string) :
  (forall s',
      incrementViewCount s id = Ok s' ->
      getContentById s' id = option_map (add_views 1) (getContentById s id)
      /\ forall id', id' <> id -> getContentById s' id' = getContentById s id')
  /\ (has_content s id = false -> incrementViewCount s id = Ok s)
  /\ (forall e,
        incrementViewCount s id = Err e <->
        e = NumericValueOutOfRange
        /\ exists c v, In c (content s) /\ Content.id c = id
                       /\ Content.viewCount c = Some v /\ INT4_MAX <= v).
Proof.
  split; [|split].
  - intros s' E. destruct (incrementViewCount_inv _ _ _ E) as [-> _].
    destruct (getContentById_after_increment s id) as (H1 & H2 & _).
    split; assumption.
  - intros Hno.
    rewrite (incrementViewCount_ok s id (room_for_absent 1 s id Hno)).
    rewrite (proj2 (proj2 (getContentById_after_increment s id)) Hno).
    reflexivity.
  - intros e. split.
    + unfold incrementViewCount.
      destruct (existsb _ _) eqn:E; [|discriminate].
      intros [= <-]. split; [reflexivity|].
      apply existsb_exists in E. destruct E as (c & Hc & E).
      apply andb_true_iff in E. destruct E as [Hid Hmax].
      unfold at_int4_max in Hmax.
      destruct (Content.viewCount c) as [v|] eqn:Hv; [|discriminate].
      exists c, v. apply Z.leb_le in Hmax. apply has_id_iff in Hid. auto.
    + intros (-> & c & v & Hc & Hid & Hv & Hmax).
      exact (incrementViewCount_err s id c v Hc Hid Hv Hmax).
Qed.

(** X10. Two [GET /api/content/:id] of the same id in a row, the first
    answered with a row: when the counters of the id have room for a
    second view, the second is answered with that row and one more view;
    when the first view took one of them to 2147483647, the second is
    answered 500. *)
Theorem second_get_sees_first_view (env env' : Env)
  (session session' : option string) (id : string) (s : Store)
  (c : Content.t) :
  response (serve env session (GetContentById id) s)
  = Some (mkResponse 200 (BodyContent (Some c))) ->
  store_after (serve env session (GetContentById id) s) = viewed 1 id s
  /\ (room_for 2 id s ->
      response (serve env' session' (GetContentById id)
                  (store_after (serve env session (GetContentById id) s)))
      = Some (mkResponse 200 (BodyContent (Some (add_views 1 c)))))
  /\ ((exists c' v, In c' (content s) /\ Content.id c' = id
                    /\ Content.viewCount c' = Some v
                    /\ INT4_MAX <= v + 1) ->
      response (serve env' session' (GetContentById id)
                  (store_after (serve env session (GetContentById id) s)))
      = Some (mkResponse 500 (BodyMessage "Failed to fetch content"))).
Proof.
  rewrite !serve_get_content_by_id.
  destruct (getContentById s id) as [c0|] eqn:E; simpl;
    [|discriminate].
  destruct (incrementViewCount s id) as [s'|e] eqn:Ei; simpl;
    [|discriminate].
  intros [= <-].
  destruct (incrementViewCount_inv _ _ _ Ei) as [-> _].
  split; [reflexivity|].
  rewrite (proj1 (getContentById_after_increment s id)), E. simpl.
  split.
  - intros Hroom.
    rewrite (incrementViewCount_ok (viewed 1 id s) id
               (room_for_viewed 1 1 id s Hroom)).
    reflexivity.
  - intros (c' & v & Hc' & Hid' & Hv & Hmax).
    rewrite (incrementViewCount_err (viewed 1 id s) id (add_views 1 c')
               (v + 1)); [reflexivity | | exact Hid' | | exact Hmax].
    + apply incremented_row; assumption.
    + simpl. rewrite Hv. reflexivity.
Qed.

(** ** Search, at its edges *)

Lemma fold_case_search_pattern (query : string) (title : string) :
  ilike title ("%" ++ query ++ "%")
  = like_match (percent :: fold_case query ++ [percent]) (fold_case title).
Proof.
  unfold ilike.
  change (map lower (list_ascii_of_string ("%" ++ query ++ "%")))
    with (fold_case ("%" ++ query ++ "%")).
  rewrite fold_case_pattern. reflexivity.
Qed.

(** X11. [searchContent] on the empty query returns what
    [getAllContent] returns; two queries that differ in letter case only
    return the same rows. *)
Theorem searchContent_empty_and_case (s : Store) :
  searchContent s "" = getAllContent s
  /\ (forall q q',
        fold_case q = fold_case q' ->
        searchContent s q = searchContent s q').
Proof.
  split.
  - unfold searchContent, getAllContent. f_equal.
    apply filter_ext. intros c.
    rewrite (ilike_contains "" _ eq_refl eq_refl).
    destruct (fold_case (Content.title c)); simpl; apply andb_true_r.
  - intros q q' H. unfold searchContent. f_equal.
    apply filter_ext. intros c.
    rewrite !fold_case_search_pattern, H. reflexivity.
Qed.

(** X12. In a query, [_] stands for any one character and [%] for any
    run: [searchContent] on ["_"] returns the active rows whose title is
    not empty, and on ["%"] every active row. *)
Theorem searchContent_wildcards (s : Store) :
  (forall c,
      In c (searchContent s "_") <->
      In c (content s) /\ Content.isActive c = Some true
      /\ Content.title c <> ""%string)
  /\ searchContent s "%" = getAllContent s.
Proof.
  assert (Hskip : forall p t, like_match p t = true ->
                              like_match (percent :: p) t = true).
  { intros p t H. rewrite like_percent, H. reflexivity. }
  split.
  - intros c. rewrite (proj1 (searchContent_like s "_")).
    rewrite fold_case_search_pattern.
    assert (H : like_match (percent :: fold_case "_" ++ [percent])
                           (fold_case (Content.title c)) = true
                <-> Content.title c <> ""%string).
    { change (fold_case "_") with [underscore]. simpl app.
      rewrite like_percent, like_underscore. unfold fold_case.
      destruct (Content.title c) as [|a t].
      - simpl. split; [discriminate | intros H; destruct H; reflexivity].
      - change (list_ascii_of_string (String a t))
          with (a :: list_ascii_of_string t).
        cbn [map]. rewrite like_any.
        split; [discriminate | reflexivity]. }
    rewrite H. reflexivity.
  - unfold searchContent, getAllContent. f_equal.
    apply filter_ext. intros c.
    rewrite fold_case_search_pattern.
    change (fold_case "%") with [percent]. simpl app.
    rewrite (Hskip _ _ (Hskip _ _ (like_any _))). apply andb_true_r.
Qed.

(** ** Users *)

Lemma getUser_none (s : Store) (id : string) :
  getUser s id = None ->
  forall u, In u (users s) -> String.eqb (User.id u) id = false.
Proof.
  unfold getUser. intros H u Hu.
  destruct (String.eqb (User.id u) id) eqn:E; [|reflexivity].
  assert (Hin : In u (filter (fun u => String.eqb (User.id u) id) (users s)))
    by (apply filter_In; split; assumption).
  destruct (filter _ _); [destruct Hin | discriminate].
Qed.

Lemma getUser_some (s : Store) (id : string) (u : User.t) :
  getUser s id = Some u -> In u (users s) /\ User.id u = id.
Proof.
  unfold getUser. intros H. apply In_first, filter_In in H.
  rewrite String.eqb_eq in H. exact H.
Qed.

(** The two shapes of a successful [upsertUser]. *)
Lemma upsertUser_ok (env : Env) (s s' : Store) (userData : UpsertUser.t)
  (u : User.t) :
  upsertUser env s userData = Ok (u, s') ->
  email_taken s (User.id u) (User.email u) = false
  /\ content s' = content s /\ episodes s' = episodes s
  /\ favorites s' = favorites s
  /\ ((getUser s (User.id u) = None /\ users s' = users s ++ [u])
      \/ (exists old,
             getUser s (User.id u) = Some old
             /\ users s'
                = map (fun r => if String.eqb (User.id r) (User.id u)
                                then u else r)
                      (users s))).
Proof.
  unfold upsertUser.
  set (uid := match UpsertUser.id userData with
              | Some i => i
              | None => uuid env
              end).
  destruct (getUser s uid) as [old|] eqn:E.
  - match goal with
    | |- context [email_taken s uid ?e] =>
        destruct (email_taken s uid e) eqn:Et; [discriminate|]
    end.
    intros [= <- <-]. simpl in *. rewrite Et, E.
    repeat split. right. exists old. split; reflexivity.
  - match goal with
    | |- context [email_taken s uid ?e] =>
        destruct (email_taken s uid e) eqn:Et; [discriminate|]
    end.
    intros [= <- <-]. simpl in *. rewrite Et, E.
    repeat split. left. split; reflexivity.
Qed.

(** X13. After an [upsertUser] that the store accepts, [getUser] on the
    id of the returned user returns that user, [getUser] on any other id
    returns what it returned before, and the other tables are as
    before. *)
Theorem upsertUser_then_getUser (env : Env) (s s' : Store)
  (userData : UpsertUser.t) (u : User.t) :
  upsertUser env s userData = Ok (u, s') ->
  getUser s' (User.id u) = Some u
  /\ (forall id, id <> User.id u -> getUser s' id = getUser s id)
  /\ content s' = content s
  /\ episodes s' = episodes s
  /\ favorites s' = favorites s.
Proof.
  intros H. destruct (upsertUser_ok _ _ _ _ _ H)
    as (_ & Hc & He & Hf & [[Hnone Hus]|(old & Hold & Hus)]).
  - split; [|split; [|auto]].
    + unfold getUser. rewrite Hus, filter_app.
      rewrite (filter_none _ (users s) (getUser_none s _ Hnone)).
      simpl. rewrite String.eqb_refl. reflexivity.
    + intros id Hne. unfold getUser. rewrite Hus, filter_app. simpl.
      destruct (String.eqb (User.id u) id) eqn:E;
        [apply String.eqb_eq in E; congruence|].
      rewrite app_nil_r. reflexivity.
  - split; [|split; [|auto]].
    + unfold getUser. rewrite Hus.
      apply getUser_some in Hold. destruct Hold as [Hin Hid].
      clear Hus. induction (users s) as [|a l IH]; [destruct Hin|].
      simpl. destruct (String.eqb (User.id a) (User.id u)) eqn:E.
      * rewrite String.eqb_refl. reflexivity.
      * rewrite E. apply IH. destruct Hin as [->|Hin]; [|exact Hin].
        rewrite Hid, String.eqb_refl in E. discriminate.
    + intros id Hne. unfold getUser. rewrite Hus. f_equal.
      clear - Hne. induction (users s) as [|a l IH]; [reflexivity|].
      simpl. destruct (String.eqb (User.id a) (User.id u)) eqn:E.
      * apply String.eqb_eq in E.
        destruct (String.eqb (User.id u) id) eqn:E1;
          [apply String.eqb_eq in E1; congruence|].
        destruct (String.eqb (User.id a) id) eqn:E2;
          [apply String.eqb_eq in E2; congruence|].
        exact IH.
      * destruct (String.eqb (User.id a) id); [f_equal|]; exact IH.
Qed.

Lemma email_taken_false (s : Store) (self e : string) :
  email_taken s self (Some e) = false ->
  forall r, In r (users s) -> User.email r = Some e -> User.id r = self.
Proof.
  unfold email_taken. intros H r Hr He.
  destruct (String.eqb (User.id r) self) eqn:E;
    [apply String.eqb_eq, E|].
  assert (Hex : existsb
                  (fun u =>
                     negb (String.eqb (User.id u) self)
                     && match User.email u with
                        | Some e' => String.eqb e' e
                        | None => false
                        end) (users s) = true).
  { apply existsb_exists. exists r. split; [exact Hr|].
    rewrite E, He, String.eqb_refl. reflexivity. }
  congruence.
Qed.

(** X14. [upsertUser] keeps the keys of [users]: when the ids are
    distinct and no two users share an email before, the same holds
    after every [upsertUser] that the store accepts. *)
Theorem upsertUser_keeps_keys (env : Env) (s s' : Store)
  (userData : UpsertUser.t) (u : User.t) :
  users_pk s -> emails_unique s ->
  upsertUser env s userData = Ok (u, s') ->
  users_pk s' /\ emails_unique s'.
Proof.
  intros Hpk Hem H.
  destruct (upsertUser_ok _ _ _ _ _ H)
    as (Et & _ & _ & _ & [[Hnone Hus]|(old & Hold & Hus)]).
  - split.
    + unfold users_pk. rewrite Hus, map_app. simpl.
      apply NoDup_app_remove_l with (l := []); simpl.
      apply Permutation_NoDup with (l := User.id u :: map User.id (users s));
        [apply Permutation_cons_append|].
      constructor; [|exact Hpk].
      intros Hin. apply in_map_iff in Hin. destruct Hin as (r & Hid & Hr).
      pose proof (getUser_none s _ Hnone r Hr) as E.
      rewrite Hid, String.eqb_refl in E. discriminate.
    + unfold emails_unique. rewrite Hus. intros u1 u2 e H1 H2 E1 E2.
      apply in_app_or in H1. apply in_app_or in H2.
      destruct H1 as [H1|[<-|[]]], H2 as [H2|[<-|[]]].
      * exact (Hem u1 u2 e H1 H2 E1 E2).
      * rewrite E2 in Et. exact (email_taken_false s _ e Et u1 H1 E1).
      * rewrite E1 in Et. symmetry.
        exact (email_taken_false s _ e Et u2 H2 E2).
      * reflexivity.
  - assert (Hrepl : forall r', In r' (users s') ->
               r' = u
               \/ (In r' (users s) /\ User.id r' <> User.id u)).
    { intros r' Hr'. rewrite Hus in Hr'. apply in_map_iff in Hr'.
      destruct Hr' as (r & <- & Hr).
      destruct (String.eqb (User.id r) (User.id u)) eqn:E;
        [left; reflexivity | right].
      split; [exact Hr | apply String.eqb_neq, E]. }
    split.
    + unfold users_pk. rewrite Hus, map_map.
      erewrite map_ext; [exact Hpk|].
      intros r. simpl.
      destruct (String.eqb (User.id r) (User.id u)) eqn:E;
        [symmetry; apply String.eqb_eq, E | reflexivity].
    + intros u1 u2 e H1 H2 E1 E2.
      destruct (Hrepl u1 H1) as [->|[H1' N1]],
               (Hrepl u2 H2) as [->|[H2' N2]].
      * reflexivity.
      * rewrite E1 in Et.
        destruct N2. exact (email_taken_false s _ e Et u2 H2' E2).
      * rewrite E2 in Et.
        destruct N1. exact (email_taken_false s _ e Et u1 H1' E1).
      * exact (Hem u1 u2 e H1' H2' E1 E2).
Qed.

(** ** Favorites, continued *)

Lemma isFavorite_rows (s : Store) (userId contentId : string) :
  isFavorite s userId contentId = true <->
  favorite_rows s userId contentId <> [].
Proof.
  unfold isFavorite, favorite_rows.
  destruct (filter _ _); simpl; split; congruence.
Qed.

(** X15. [addToFavorites] does not look for a row of the same pair: with
    a new generated id and an existing user and content it stores one
    more row for the pair, also when [isFavorite] was already true, and
    it leaves the rows of every other pair and the other tables as they
    were. *)
Theorem addToFavorites_adds_a_row (env : Env) (s : Store)
  (data : InsertFavorite.t) :
  existsb (fun f => String.eqb (Favorite.id f) (uuid env)) (favorites s)
  = false ->
  has_user s (InsertFavorite.userId data) = true ->
  has_content s (InsertFavorite.contentId data) = true ->
  exists favorite s',
    addToFavorites env s data = Ok (favorite, s')
    /\ favorite_rows s' (InsertFavorite.userId data)
                        (InsertFavorite.contentId data)
       = favorite_rows s (InsertFavorite.userId data)
                         (InsertFavorite.contentId data) ++ [favorite]
    /\ (forall userId contentId,
           (userId, contentId)
           <> (InsertFavorite.userId data, InsertFavorite.contentId data) ->
           favorite_rows s' userId contentId
           = favorite_rows s userId contentId)
    /\ users s' = users s /\ content s' = content s
    /\ episodes s' = episodes s.
Proof.
  intros Hid Hu Hc.
  eexists _, _. split; [exact (addToFavorites_ok env s data Hid Hu Hc)|].
  simpl. unfold favorite_rows; simpl. rewrite !filter_app. simpl.
  split; [|split; [|auto]].
  - unfold favorite_of at 2; simpl. rewrite !String.eqb_refl. reflexivity.
  - intros userId contentId Hne. rewrite filter_app. simpl.
    unfold favorite_of at 2; simpl.
    destruct (String.eqb (InsertFavorite.userId data) userId) eqn:E1;
      destruct (String.eqb (InsertFavorite.contentId data) contentId) eqn:E2;
      simpl; try apply app_nil_r.
    apply String.eqb_eq in E1, E2. subst. destruct Hne. reflexivity.
Qed.

(** X16. [removeFromFavorites] removes the rows of its pair and no other
    row: the rows of every other pair and the other tables stay, and
    when the pair has no row the store is left as it is. *)
Theorem removeFromFavorites_only_its_pair (s : Store)
  (userId contentId : string) :
  favorite_rows (removeFromFavorites s userId contentId) userId contentId
  = []
  /\ (forall userId' contentId',
         (userId', contentId') <> (userId, contentId) ->
         favorite_rows (removeFromFavorites s userId contentId)
                       userId' contentId'
         = favorite_rows s userId' contentId')
  /\ users (removeFromFavorites s userId contentId) = users s
  /\ content (removeFromFavorites s userId contentId) = content s
  /\ episodes (removeFromFavorites s userId contentId) = episodes s
  /\ (isFavorite s userId contentId = false ->
      removeFromFavorites s userId contentId = s).
Proof.
  split; [|split; [|split; [|split; [|split]]]]; try reflexivity.
  - unfold favorite_rows, removeFromFavorites; simpl.
    apply filter_none. intros f Hf. apply filter_In in Hf.
    apply negb_true_iff. tauto.
  - intros u' c' Hne. unfold favorite_rows, removeFromFavorites; simpl.
    induction (favorites s) as [|f l IH]; [reflexivity|]. simpl.
    destruct (favorite_of userId contentId f) eqn:E; simpl.
    + rewrite IH. destruct (favorite_of u' c' f) eqn:E'; [|reflexivity].
      apply favorite_of_iff in E, E'. destruct E, E'. subst.
      destruct Hne. congruence.
    + rewrite IH. reflexivity.
  - intros Hno. unfold removeFromFavorites.
    rewrite filter_all; [apply store_eta|].
    intros f Hf. apply negb_true_iff.
    destruct (favorite_of userId contentId f) eqn:E; [|reflexivity].
    assert (Hyes : isFavorite s userId contentId = true).
    { apply isFavorite_iff. exists f. apply favorite_of_iff in E. tauto. }
    congruence.
Qed.

Lemma getUserFavorites_iff (s : Store) (userId : string)
  (c : Content.t) :
  In c (getUserFavorites s userId) <->
  In c (content s) /\ Content.isActive c = Some true
  /\ isFavorite s userId (Content.id c) = true.
Proof.
  unfold getUserFavorites. rewrite in_flat_map, isFavorite_iff. split.
  - intros (f & Hf & Hc). apply filter_In in Hc. destruct Hc as [Hc Hm].
    apply andb_true_iff in Hm. destruct Hm as [Hid Hm].
    apply andb_true_iff in Hm. destruct Hm as [Hu Ha].
    apply String.eqb_eq in Hid, Hu. apply active_iff in Ha.
    split; [exact Hc|]. split; [exact Ha|]. exists f. auto.
  - intros (Hc & Ha & f & Hf & Hu & Hid).
    exists f. split; [exact Hf|]. apply filter_In. split; [exact Hc|].
    rewrite Hid, Hu, !String.eqb_refl. simpl. apply active_iff, Ha.
Qed.

(** X17. [getUserFavorites] returns the content rows that are active and
    that the user has a favorite row for, and no other row. *)
Theorem getUserFavorites_active_favorites (s : Store) (userId : string)
  (c : Content.t) :
  In c (getUserFavorites s userId) <->
  In c (content s) /\ Content.isActive c = Some true
  /\ isFavorite s userId (Content.id c) = true.
Proof. exact (getUserFavorites_iff s userId c). Qed.

Lemma filter_twice {A} (p q : A -> bool) (l : list A) :
  filter p (filter q l) = filter (fun x => q x && p x) l.
Proof.
  induction l as [|a l IH]; simpl; [reflexivity|].
  destruct (q a); simpl; [destruct (p a); rewrite IH; reflexivity | exact IH].
Qed.

(** X18. [getUserFavorites] joins row by row: under the primary key, an
    active content is listed once for each favorite row the user has for
    it, so twice when the pair was added twice. *)
Theorem getUserFavorites_once_per_row (s : Store) (userId : string)
  (c : Content.t) :
  content_pk s ->
  In c (content s) ->
  Content.isActive c = Some true ->
  List.length (filter (has_id (Content.id c)) (getUserFavorites s userId))
  = List.length (favorite_rows s userId (Content.id c)).
Proof.
  intros Hpk Hc Ha. apply active_iff in Ha.
  unfold getUserFavorites, favorite_rows.
  induction (favorites s) as [|f l IH]; [reflexivity|].
  simpl. rewrite filter_app, length_app, IH, filter_twice.
  rewrite (pk_filter_id s c _ Hpk Hc).
  - rewrite Ha, has_id_self, andb_true_r, andb_true_r.
    unfold favorite_of. rewrite andb_comm.
    destruct (_ && _); reflexivity.
  - intros r Hr. apply andb_true_iff in Hr. destruct Hr as [_ Hr].
    apply has_id_iff, Hr.
Qed.

(** ** References between the tables *)

Lemma has_content_true (s : Store) (id : string) :
  has_content s id = true <-> In id (map Content.id (content s)).
Proof.
  unfold has_content. rewrite existsb_exists, in_map_iff. split.
  - intros (c & Hc & E). exists c. apply String.eqb_eq in E. tauto.
  - intros (c & E & Hc). exists c. split; [exact Hc|].
    apply String.eqb_eq, E.
Qed.

Lemma has_user_true (s : Store) (id : string) :
  has_user s id = true <-> In id (map User.id (users s)).
Proof.
  unfold has_user. rewrite existsb_exists, in_map_iff. split.
  - intros (c & Hc & E). exists c. apply String.eqb_eq in E. tauto.
  - intros (c & E & Hc). exists c. split; [exact Hc|].
    apply String.eqb_eq, E.
Qed.

(** References are kept by any step that keeps the ids of the users and
    the contents and adds no favorite or episode. *)
Lemma references_kept (s s' : Store) :
  (forall id, In id (map User.id (users s)) ->
              In id (map User.id (users s'))) ->
  (forall id, In id (map Content.id (content s)) ->
              In id (map Content.id (content s'))) ->
  (forall f, In f (favorites s') -> In f (favorites s)) ->
  (forall e, In e (episodes s') -> In e (episodes s)) ->
  references_hold s -> references_hold s'.
Proof.
  intros Hu Hc Hf He [Hfav Hep]. split.
  - intros f Hin. destruct (Hfav f (Hf f Hin)) as [H1 H2].
    rewrite has_user_true in *. rewrite has_content_true in *. auto.
  - intros e Hin. pose proof (Hep e (He e Hin)) as H.
    rewrite has_content_true in *. auto.
Qed.

Lemma references_hold_serve (env : Env) (session : option string)
  (req : Request) (s : Store) :
  references_hold s ->
  references_hold (store_after (serve env session req s)).
Proof.
  intros Href.
  destruct (serve_effect env session req s)
    as [E|[(id & _ & _ & E)|[(data & row & E)|[(id & data & E)|[(id & E)
       |[(data & row & E)|[(data & row & E)|(u & k & E)]]]]]]].
  - rewrite E. exact Href.
  - rewrite E. apply (references_kept s); try exact Href; simpl; auto.
    intros i Hi. unfold viewed; simpl.
    rewrite (update_where_ids Content.id); [exact Hi | reflexivity].
  - apply createContent_ok in E. destruct E as (_ & _ & E). rewrite E.
    apply (references_kept s); try exact Href; simpl; auto.
    intros i Hi. rewrite map_app. apply in_or_app. left. exact Hi.
  - rewrite E. apply (references_kept s); try exact Href; simpl; auto.
    intros i Hi. unfold updateContent; simpl.
    rewrite (update_where_ids Content.id); [exact Hi | reflexivity].
  - rewrite E. destruct Href as [Hfav Hep].
    destruct (deleteContent_rows s id) as (Hc & He & Hf & Hu & _).
    assert (Hstill : forall i, i <> id -> has_content s i = true ->
                               has_content (deleteContent s id) i = true).
    { intros i Hne Hi. apply has_content_true in Hi.
      apply in_map_iff in Hi. destruct Hi as (c & <- & Hin).
      apply has_content_true. apply in_map. apply Hc. tauto. }
    split.
    + intros f Hin. apply Hf in Hin. destruct Hin as [Hin Hne].
      destruct (Hfav f Hin) as [H1 H2]. split.
      * unfold has_user in *. rewrite Hu. exact H1.
      * apply Hstill; assumption.
    + intros e Hin. apply He in Hin. destruct Hin as [Hin Hne].
      apply Hstill; [exact Hne | exact (Hep e Hin)].
  - unfold createEpisode in E. destruct (existsb _ _); [discriminate|].
    destruct (has_content s (InsertEpisode.contentId data)) eqn:Hc;
      [|discriminate].
    simpl in E. injection E as _ <-. destruct Href as [Hfav Hep].
    split; [exact Hfav|]. simpl.
    intros e Hin. apply in_app_or in Hin.
    destruct Hin as [Hin|[<-|[]]]; [exact (Hep e Hin) | exact Hc].
  - unfold addToFavorites in E. destruct (existsb _ _); [discriminate|].
    destruct (has_user s (InsertFavorite.userId data)) eqn:Hu;
      [|discriminate].
    destruct (has_content s (InsertFavorite.contentId data)) eqn:Hc;
      [|discriminate].
    simpl in E. injection E as _ <-. destruct Href as [Hfav Hep].
    split; [|exact Hep]. simpl.
    intros f Hin. apply in_app_or in Hin.
    destruct Hin as [Hin|[<-|[]]]; [exact (Hfav f Hin) | auto].
  - rewrite E. apply (references_kept s); try exact Href; simpl; auto.
    intros f Hf. apply filter_In in Hf. tauto.
Qed.

Lemma references_hold_upsertUser (env : Env) (s s' : Store)
  (userData : UpsertUser.t) (u : User.t) :
  upsertUser env s userData = Ok (u, s') ->
  references_hold s -> references_hold s'.
Proof.
  intros H.
  destruct (upsertUser_ok _ _ _ _ _ H)
    as (_ & Hc & He & Hf & [[_ Hus]|(old & _ & Hus)]).
  - apply references_kept; rewrite ?Hc, ?He, ?Hf; auto.
    intros i Hi. rewrite Hus, map_app. apply in_or_app. left. exact Hi.
  - apply references_kept; rewrite ?Hc, ?He, ?Hf; auto.
    intros i Hi. rewrite Hus, map_map.
    apply in_map_iff in Hi. destruct Hi as (r & <- & Hr).
    apply in_map_iff. exists r. split; [|exact Hr].
    destruct (String.eqb (User.id r) (User.id u)) eqn:E;
      [symmetry; apply String.eqb_eq, E | reflexivity].
Qed.

(** X19. In every store the system can be in, each favorite references
    a stored user and a stored content and each episode a stored
    content: inserts check the references and [deleteContent] takes the
    referencing rows along. *)
Theorem reachable_references_hold (s : Store) :
  reachable s -> references_hold s.
Proof.
  induction 1 as [|env session req s _ IH|env userData s s' u _ IH E].
  - split; intros ? [].
  - apply references_hold_serve, IH.
  - exact (references_hold_upsertUser _ _ _ _ _ E IH).
Qed.

(** ** Episodes *)

(** X20. [createEpisode] with a new generated id and the id of a stored
    content stores the episode at the end of the table, with season 1
    when the data names none; [getEpisodesByContentId] of that content
    then lists it, and [deleteEpisode] of its id gives back the store of
    before. *)
Theorem createEpisode_round_trip (env : Env) (s : Store)
  (data : InsertEpisode.t) :
  existsb (fun e => String.eqb (Episode.id e) (uuid env)) (episodes s)
  = false ->
  has_content s (InsertEpisode.contentId data) = true ->
  exists row s',
    createEpisode env s data = Ok (row, s')
    /\ episodes s' = episodes s ++ [row]
    /\ Episode.id row = uuid env
    /\ Episode.seasonNumber row
       = match InsertEpisode.seasonNumber data with
         | Absent => Some 1
         | Null => None
         | Value n => Some n
         end
    /\ In row (getEpisodesByContentId s' (InsertEpisode.contentId data))
    /\ deleteEpisode s' (Episode.id row) = s.
Proof.
  intros Hid Hc. exists (new_episode env data). eexists.
  split; [unfold createEpisode; rewrite Hid, Hc; reflexivity|].
  simpl. split; [reflexivity|]. split; [reflexivity|].
  split; [destruct (InsertEpisode.seasonNumber data); reflexivity|].
  split.
  - unfold getEpisodesByContentId; simpl.
    apply orderBy_In, filter_In. split.
    + apply in_or_app. right. left. reflexivity.
    + simpl. apply String.eqb_refl.
  - unfold deleteEpisode; simpl. rewrite filter_app. simpl.
    rewrite String.eqb_refl. simpl. rewrite app_nil_r.
    rewrite filter_all; [apply store_eta|].
    intros e He. apply negb_true_iff.
    destruct (String.eqb (Episode.id e) (uuid env)) eqn:E; [|reflexivity].
    assert (Hex : existsb (fun e => String.eqb (Episode.id e) (uuid env))
                          (episodes s) = true)
      by (apply existsb_exists; exists e; split; assumption).
    congruence.
Qed.

(** X21. [POST /api/admin/episodes] for a content that is not stored:
    with the right password and a body that passes the schema, the store
    rejects the insert, the answer is 500 and the store is as before. *)
Theorem admin_create_episode_unknown_content (env : Env)
  (session : option string) (payload : Json) (s : Store)
  (data : InsertEpisode.t) :
  password_matches payload = true ->
  insertEpisodeSchema_parse (field_or_self payload "episode") = inr data ->
  has_content s (InsertEpisode.contentId data) = false ->
  serve env session (AdminCreateEpisode payload) s
  = mkServed
      (Some (mkResponse 500 (BodyMessage "Failed to create episode")))
      s [CallCreateEpisode data].
Proof.
  intros Hp Hd Hc. run_handler. rewrite Hp; simpl. rewrite Hd; simpl.
  unfold createEpisode. rewrite Hc.
  destruct (existsb _ _); reflexivity.
Qed.

(** ** The handlers and the store *)

(** X22. A request that is answered with a status of 400 or above leaves
    the store as it was; so does every request to an endpoint that only
    reads ([GET /api/auth/user], [GET /api/content],
    [GET /api/content/:id/episodes], [GET /api/favorites],
    [GET /api/favorites/:contentId/check], [POST /api/admin/verify]). *)
Theorem failed_and_reading_requests_keep_store (env : Env)
  (session : option string) (req : Request) (s : Store) :
  (forall r,
      response (serve env session req s) = Some r ->
      400 <= status r ->
      store_after (serve env session req s) = s)
  /\ (read_only req = true ->
      store_after (serve env session req s) = s).
Proof.
  split.
  - destruct req; run_handler; repeat break_match;
      intros r [= <-]; simpl; intros Hs; try reflexivity; try lia.
  - destruct req; simpl; try discriminate; intros _;
      run_handler; repeat break_match; reflexivity.
Qed.

(** X23. [POST /api/favorites] stores the favorite under the user of the
    session: when the answer is 201, the row it carries is stored, has
    the generated id and the session's user id, whatever [userId] the
    body names. *)
Theorem post_favorites_for_session_user (env : Env) (userId : string)
  (payload : Json) (s : Store) (r : Response) :
  response (serve env (Some userId) (PostFavorites payload) s) = Some r ->
  status r = 201 ->
  exists f,
    body r = BodyFavorite f
    /\ Favorite.userId f = userId
    /\ Favorite.id f = uuid env
    /\ favorites (store_after
                    (serve env (Some userId) (PostFavorites payload) s))
       = favorites s ++ [f].
Proof.
  run_handler.
  destruct (insertFavoriteSchema_parse _) as [e|parsed]; simpl;
    [intros [= <-]; simpl; discriminate|].
  destruct (addToFavorites env s _) as [[f s']|e] eqn:E; simpl;
    [|intros [= <-]; simpl; discriminate].
  intros [= <-] _. simpl. exists f.
  unfold addToFavorites in E. destruct (existsb _ _); [discriminate|].
  destruct (negb _); [discriminate|].
  injection E as <- <-. simpl. auto.
Qed.

(** X24. [POST /api/admin/content] decides the id, the counter and the
    timestamps itself: when the answer is 201, the row it carries is the
    one row added to [content], with the generated id, no views and the
    statement's time as [createdAt] and [updatedAt], whatever the body
    says about them. *)
Theorem admin_create_content_row (env : Env) (session : option string)
  (payload : Json) (s : Store) (r : Response) :
  response (serve env session (AdminCreateContent payload) s) = Some r ->
  status r = 201 ->
  exists c,
    body r = BodyContent (Some c)
    /\ content (store_after
                  (serve env session (AdminCreateContent payload) s))
       = content s ++ [c]
    /\ Content.id c = uuid env
    /\ Content.viewCount c = Some 0
    /\ Content.createdAt c = Some (now env)
    /\ Content.updatedAt c = Some (now env).
Proof.
  run_handler.
  destruct (password_matches payload); simpl;
    [|intros [= <-]; simpl; discriminate].
  destruct (insertContentSchema_parse _) as [e|data]; simpl;
    [intros [= <-]; simpl; discriminate|].
  destruct (createContent env s data) as [[c s']|e] eqn:E; simpl;
    [|intros [= <-]; simpl; discriminate].
  intros [= <-] _. simpl. exists c.
  apply createContent_ok in E. destruct E as (_ & -> & ->).
  simpl. auto 7.
Qed.

(** X25. [PUT /api/admin/content/:id] on an id that no row has: with the
    right password and a body that passes the schema the answer is 200
    with no row in it, not 404, and the store is as before. *)
Theorem admin_update_content_unknown_id (env : Env)
  (session : option string) (id : string) (payload : Json) (s : Store)
  (data : PartialInsertContent.t) :
  password_matches payload = true ->
  insertContentSchema_partial_parse (field_or_self payload "content")
  = inr data ->
  has_content s id = false ->
  serve env session (AdminUpdateContent id payload) s
  = mkServed (Some (mkResponse 200 (BodyContent None))) s
             [CallUpdateContent id data].
Proof.
  intros Hp Hd Hno.
  unfold serve, route, admin_update_content, checkAdminPassword.
  rewrite Hp. cbn [negb]. unfold parse. rewrite Hd.
  unfold exec_returning, json, status_json, ret.
  cbn [bind try_catch run fst snd].
  rewrite (proj1 (updateContent_cases env s id data) Hno).
  reflexivity.
Qed.

(** X26. [DELETE /api/admin/content/:id] on an id that no row has: with
    the right password the answer is 204, not 404, and a store whose
    references hold is left as it was. *)
Theorem admin_delete_content_unknown_id (env : Env)
  (session : option string) (id : string) (payload : Json) (s : Store) :
  password_matches payload = true ->
  references_hold s ->
  has_content s id = false ->
  serve env session (AdminDeleteContent id payload) s
  = mkServed (Some (mkResponse 204 BodyEmpty)) s [CallDeleteContent id].
Proof.
  intros Hp [Hfav Hep] Hno. run_handler. rewrite Hp; simpl.
  assert (E : deleteContent s id = s).
  { unfold deleteContent. rewrite !filter_all; [apply store_eta| | |].
    - intros f Hf. apply negb_true_iff.
      destruct (String.eqb (Favorite.contentId f) id) eqn:E; [|reflexivity].
      apply String.eqb_eq in E. destruct (Hfav f Hf) as [_ H].
      congruence.
    - intros e He. apply negb_true_iff.
      destruct (String.eqb (Episode.contentId e) id) eqn:E; [|reflexivity].
      apply String.eqb_eq in E. pose proof (Hep e He) as H. congruence.
    - intros c Hc. rewrite (has_id_false s id Hno c Hc). reflexivity. }
  rewrite E. reflexivity.
Qed.

(** X27. What the endpoints outside the admin area answer holds active
    content only: every content row in the body of the answer to such a
    request has [isActive] true. *)
Theorem public_answers_hold_active_rows (env : Env)
  (session : option string) (req : Request) (s : Store) (r : Response)
  (c : Content.t) :
  admin_body req = None ->
  response (serve env session req s) = Some r ->
  In c (body_rows (body r)) ->
  Content.isActive c = Some true.
Proof.
  intros Hreq Hr Hc. apply active_iff.
  destruct (read_queries_active s c) as (H1 & H2 & H3 & H4 & H5 & H6 & H7).
  destruct req as [| q | id | id | | payload | contentId | contentId
                   | payload | payload | id payload | id payload | payload];
    simpl in Hreq; try discriminate; revert Hr;
    run_handler; repeat break_match; intros [= <-]; simpl in Hc;
    repeat match goal with
           | H : In _ (match ?x with _ => _ end) |- _ =>
               destruct x eqn:?; simpl in H
           | H : _ \/ _ |- _ => destruct H
           | H : False |- _ => destruct H
           end;
    subst;
    first [ apply H1; assumption
          | eapply H2; eassumption
          | apply H3; first [assumption | reflexivity]
          | apply H4; assumption
          | apply H5; assumption
          | eapply H6; eassumption
          | eapply H7; eassumption
          | apply active_iff;
            apply getUserFavorites_iff in Hc; apply Hc ].
Qed.

(** ** The schemas *)

Lemma required_partial {A} (check : Json -> option A) (j : Json)
  (k : string) (a : A) :
  required check j k = Some a <-> partial check j k = Some (Some a).
Proof.
  unfold required, partial. destruct (field j k) as [v|].
  - destruct (check v); simpl; split; congruence.
  - split; discriminate.
Qed.

(** X28. A body passes [insertContentSchema] with some fields exactly
    when it passes [insertContentSchema.partial()] with the same fields,
    [title] and [type] among them: what the create endpoint accepts, the
    update endpoint accepts and reads alike. *)
Theorem full_content_is_partial_content (j : Json) (data : InsertContent.t) :
  insertContentSchema_parse j = inr data <->
  insertContentSchema_partial_parse j = inr (as_partial data).
Proof.
  unfold insertContentSchema_parse, insertContentSchema_partial_parse.
  destruct (is_object j); simpl; [|split; discriminate].
  assert (Ht := required_partial as_string j "title").
  assert (Hty := required_partial (as_varchar 20) j "type").
  destruct (required as_string j "title") as [t|];
    [rewrite (proj1 (Ht t) eq_refl)
    |destruct (partial as_string j "title") as [[t|]|];
       [pose proof (proj2 (Ht t) eq_refl); discriminate | |]];
    (destruct (required (as_varchar 20) j "type") as [ty|];
     [rewrite (proj1 (Hty ty) eq_refl)
     |destruct (partial (as_varchar 20) j "type") as [[ty|]|];
        [pose proof (proj2 (Hty ty) eq_refl); discriminate | |]]);
    clear Ht Hty; repeat break_match; split; intros H;
    try discriminate H;
    try (injection H as <-; reflexivity);
    destruct data; unfold as_partial in H; simpl in H;
    first [ discriminate H | injection H; intros; subst; reflexivity ].
Qed.

(** ** The further theorems at the sample data *)

Lemma inactive_content_hidden_but_editable_witness :
  In ronin (content sample_store)
  /\ Content.isActive ronin = Some false
  /\ ~ In ronin (getAllContent sample_store)
  /\ getContentById sample_store "c2" = None
  /\ In (set_content sample_env (set_title "Ronin (1998)") ronin)
        (content (snd (updateContent sample_env sample_store "c2"
                         (set_title "Ronin (1998)"))))
  /\ Content.title
       (set_content sample_env (set_title "Ronin (1998)") ronin)
     = "Ronin (1998)"%string
  /\ content_pk sample_store
  /\ fst (updateContent sample_env sample_store "c2"
            (set_title "Ronin (1998)"))
     = Some (set_content sample_env (set_title "Ronin (1998)") ronin)
  /\ ~ In ronin
        (content (snd (updateContent sample_env sample_store "c2"
                         (set_title "Ronin (1998)"))))
  /\ getContentById
       (snd (updateContent sample_env sample_store "c2" (set_isActive true)))
       "c2"
     = Some (set_content sample_env (set_isActive true) ronin)
  /\ ~ In ronin (content (deleteContent sample_store "c2")).
Proof.
  assert (H1 : In ronin (content sample_store)) by (simpl; auto).
  assert (H2 : Content.isActive ronin = Some false) by reflexivity.
  destruct (inactive_content_hidden_but_editable sample_store ronin H1 H2)
    as ((Hall & _) & Hupdate & Hshow & (Hdelete & _)).
  destruct (Hupdate sample_env (set_title "Ronin (1998)"))
    as (Hin & _ & Hrow & Hpk).
  destruct (Hpk sample_store_pk) as [Hfst Hgone].
  split; [exact H1|]. split; [exact H2|]. split; [exact Hall|].
  split; [reflexivity|]. split; [exact Hin|].
  split; [rewrite Hrow; reflexivity|].
  split; [exact sample_store_pk|]. split; [exact Hfst|].
  split; [apply Hgone; discriminate|].
  split; [exact (proj1 (Hshow sample_store_pk sample_env)) | exact Hdelete].
Defined.

Lemma sample_store_references : references_hold sample_store.
Proof.
  split.
  - intros f [<-|[<-|[]]]; split; reflexivity.
  - intros e [].
Defined.

Lemma getContentById_finds_active_row_witness :
  content_pk sample_store
  /\ getContentById sample_store "c1" = Some heat
  /\ getContentById sample_store "c2" = None.
Proof.
  destruct (getContentById_finds_active_row sample_store sample_store_pk)
    as [Hrow _].
  split; [exact sample_store_pk|]. split.
  - exact (Hrow heat (or_introl eq_refl)).
  - exact (Hrow ronin (or_intror (or_introl eq_refl))).
Defined.

Lemma createContent_then_getContentById_witness :
  has_content sample_store (uuid sample_env) = false
  /\ exists row s',
      createContent sample_env sample_store
        (InsertContent.mk "Collateral" Absent "movie" Absent Absent Absent
           Absent Absent Absent Absent Absent Absent Absent Absent)
      = Ok (row, s')
      /\ Content.viewCount row = Some 0
      /\ getContentById s' (uuid sample_env) = Some row.
Proof.
  split; [reflexivity|].
  destruct (createContent_then_getContentById sample_env sample_store
              (InsertContent.mk "Collateral" Absent "movie" Absent Absent
                 Absent Absent Absent Absent Absent Absent Absent Absent
                 Absent) eq_refl)
    as (row & s' & Hok & _ & _ & Hv & _ & _ & _ & _ & Hget).
  exists row, s'. split; [exact Hok|]. split; [exact Hv | exact Hget].
Defined.

Lemma updateContent_rewrites_one_row_witness :
  has_content sample_store "c9" = false
  /\ updateContent sample_env sample_store "c9" no_change
     = (None, sample_store)
  /\ In heat (content sample_store)
  /\ fst (updateContent sample_env sample_store "c1" no_change)
     = Some (set_content sample_env no_change heat).
Proof.
  destruct (updateContent_rewrites_one_row sample_env sample_store "c9"
              no_change) as [Hnone _].
  destruct (updateContent_rewrites_one_row sample_env sample_store "c1"
              no_change) as [_ Hsome].
  split; [reflexivity|]. split; [exact (Hnone eq_refl)|].
  split; [left; reflexivity|].
  exact (proj1 (Hsome sample_store_pk heat (or_introl eq_refl) eq_refl)).
Defined.

Lemma hide_then_show_witness :
  content_pk sample_store
  /\ In heat (content sample_store)
  /\ getContentById
       (snd (updateContent sample_env sample_store "c1" (set_isActive false)))
       "c1"
     = None.
Proof.
  split; [exact sample_store_pk|]. split; [left; reflexivity|].
  exact (proj1 (hide_then_show sample_env sample_env sample_store heat
                  sample_store_pk (or_introl eq_refl))).
Defined.

Lemma incrementViewCount_seen_by_next_read_witness :
  incrementViewCount sample_store "c1" = Ok (viewed 1 "c1" sample_store)
  /\ getContentById (viewed 1 "c1" sample_store) "c1"
     = Some (add_views 1 heat)
  /\ "c3"%string <> "c1"%string
  /\ getContentById (viewed 1 "c1" sample_store) "c3"
     = getContentById sample_store "c3"
  /\ has_content sample_store "c9" = false
  /\ incrementViewCount sample_store "c9" = Ok sample_store
  /\ incrementViewCount counted_out_store "c4" = Err NumericValueOutOfRange.
Proof.
  assert (Hne : "c3"%string <> "c1"%string) by discriminate.
  assert (Hok : incrementViewCount sample_store "c1"
                = Ok (viewed 1 "c1" sample_store)) by reflexivity.
  destruct (incrementViewCount_seen_by_next_read sample_store "c1")
    as (Hnext & _ & _).
  destruct (Hnext _ Hok) as [Hsame Hother].
  destruct (incrementViewCount_seen_by_next_read sample_store "c9")
    as (_ & Hnone & _).
  destruct (incrementViewCount_seen_by_next_read counted_out_store "c4")
    as (_ & _ & Herr).
  split; [exact Hok|]. split; [exact Hsame|].
  split; [exact Hne|]. split; [exact (Hother _ Hne)|].
  split; [reflexivity|]. split; [exact (Hnone eq_refl)|].
  apply (proj2 (Herr NumericValueOutOfRange)).
  split; [reflexivity|].
  exists alien, 2147483647. simpl. unfold INT4_MAX.
  repeat split; auto. lia.
Defined.

Lemma second_get_sees_first_view_witness :
  response (serve sample_env None (GetContentById "c1") sample_store)
  = Some (mkResponse 200 (BodyContent (Some heat)))
  /\ room_for 2 "c1" sample_store
  /\ response
       (serve sample_env None (GetContentById "c1")
          (store_after
             (serve sample_env None (GetContentById "c1") sample_store)))
     = Some (mkResponse 200 (BodyContent (Some (add_views 1 heat)))).
Proof.
  assert (Hroom : room_for 2 "c1" sample_store)
    by (apply sample_store_room; lia).
  split; [reflexivity|]. split; [exact Hroom|].
  exact (proj1 (proj2 (second_get_sees_first_view sample_env sample_env
                         None None "c1" sample_store heat eq_refl))
           Hroom).
Defined.

Lemma searchContent_empty_and_case_witness :
  fold_case "HEAT" = fold_case "heat"
  /\ searchContent sample_store "HEAT" = searchContent sample_store "heat".
Proof.
  split; [reflexivity|].
  exact (proj2 (searchContent_empty_and_case sample_store) "HEAT"%string
           "heat"%string eq_refl).
Defined.

Lemma upsertUser_then_getUser_witness :
  exists u s',
    upsertUser sample_env sample_store bob_data = Ok (u, s')
    /\ getUser s' "u2" = Some u
    /\ getUser s' "u1" = Some ann.
Proof.
  eexists _, _. split; [reflexivity|].
  destruct (upsertUser_then_getUser sample_env sample_store _ bob_data _
              eq_refl) as (Hget & Hother & _).
  split; [exact Hget|].
  rewrite (Hother "u1"%string); [reflexivity | discriminate].
Defined.

Lemma upsertUser_keeps_keys_witness :
  users_pk sample_store
  /\ emails_unique sample_store
  /\ exists u s',
      upsertUser sample_env sample_store bob_data = Ok (u, s')
      /\ users_pk s' /\ emails_unique s'.
Proof.
  assert (Hpk : users_pk sample_store).
  { unfold users_pk; simpl. repeat constructor. simpl. tauto. }
  assert (Hem : emails_unique sample_store).
  { intros u1 u2 e [<-|[]] [<-|[]] _ _. reflexivity. }
  split; [exact Hpk|]. split; [exact Hem|].
  eexists _, _. split; [reflexivity|].
  exact (upsertUser_keeps_keys sample_env sample_store _ bob_data _ Hpk Hem
           eq_refl).
Defined.

Lemma addToFavorites_adds_a_row_witness :
  isFavorite sample_store "u1" "c1" = true
  /\ exists favorite s',
      addToFavorites sample_env sample_store (InsertFavorite.mk "u1" "c1")
      = Ok (favorite, s')
      /\ List.length (favorite_rows s' "u1" "c1") = 3%nat.
Proof.
  split; [reflexivity|].
  destruct (addToFavorites_adds_a_row sample_env sample_store
              (InsertFavorite.mk "u1" "c1") eq_refl eq_refl eq_refl)
    as (f & s' & Hok & Hrows & _).
  exists f, s'. split; [exact Hok|].
  cbn [InsertFavorite.userId InsertFavorite.contentId] in Hrows.
  rewrite Hrows, length_app. reflexivity.
Defined.

Lemma removeFromFavorites_only_its_pair_witness :
  ("u1"%string, "c1"%string) <> ("u1"%string, "c3"%string)
  /\ favorite_rows (removeFromFavorites sample_store "u1" "c3") "u1" "c1"
     = favorite_rows sample_store "u1" "c1"
  /\ isFavorite sample_store "u1" "c3" = false
  /\ removeFromFavorites sample_store "u1" "c3" = sample_store.
Proof.
  assert (Hne : ("u1"%string, "c1"%string) <> ("u1"%string, "c3"%string))
    by discriminate.
  destruct (removeFromFavorites_only_its_pair sample_store "u1" "c3")
    as (_ & Hother & _ & _ & _ & Hnone).
  split; [exact Hne|]. split; [exact (Hother _ _ Hne)|].
  split; [reflexivity | exact (Hnone eq_refl)].
Defined.

Lemma getUserFavorites_once_per_row_witness :
  content_pk sample_store
  /\ In heat (content sample_store)
  /\ Content.isActive heat = Some true
  /\ List.length (favorite_rows sample_store "u1" "c1") = 2%nat
  /\ List.length (filter (has_id "c1") (getUserFavorites sample_store "u1"))
     = 2%nat.
Proof.
  split; [exact sample_store_pk|]. split; [left; reflexivity|].
  split; [reflexivity|]. split; [reflexivity|].
  exact (eq_trans
           (getUserFavorites_once_per_row sample_store "u1" heat
              sample_store_pk (or_introl eq_refl) eq_refl)
           eq_refl).
Defined.

Lemma store_after_login_reachable : reachable store_after_login.
Proof.
  unfold store_after_login.
  destruct (upsertUser (mkEnv "u1" 50) empty_store ann_data)
    as [[u s]|e] eqn:E.
  - exact (reach_login _ _ _ _ _ reach_empty E).
  - exact reach_empty.
Defined.

Lemma reachable_references_hold_witness :
  reachable busy_store
  /\ map User.id (users busy_store) = ["u1"%string]
  /\ map Content.id (content busy_store) = ["c1"%string]
  /\ map (fun f => (Favorite.userId f, Favorite.contentId f))
         (favorites busy_store)
     = [("u1"%string, "c1"%string)]
  /\ map Episode.contentId (episodes busy_store) = ["c1"%string]
  /\ references_hold busy_store.
Proof.
  assert (H : reachable busy_store).
  { unfold busy_store.
    do 3 apply reach_serve. exact store_after_login_reachable. }
  split; [exact H|]. do 4 (split; [reflexivity|]).
  exact (reachable_references_hold busy_store H).
Defined.

Lemma createEpisode_round_trip_witness :
  has_content sample_store (InsertEpisode.contentId pilot) = true
  /\ exists row s',
      createEpisode sample_env sample_store pilot = Ok (row, s')
      /\ Episode.seasonNumber row = Some 1
      /\ deleteEpisode s' (Episode.id row) = sample_store.
Proof.
  split; [reflexivity|].
  destruct (createEpisode_round_trip sample_env sample_store pilot
              eq_refl eq_refl)
    as (row & s' & Hok & _ & _ & Hseason & _ & Hback).
  exists row, s'. split; [exact Hok|]. split; [exact Hseason | exact Hback].
Defined.

Lemma admin_create_episode_unknown_content_witness :
  password_matches orphan_episode_json = true
  /\ has_content sample_store "c9" = false
  /\ response
       (serve sample_env None (AdminCreateEpisode orphan_episode_json)
              sample_store)
     = Some (mkResponse 500 (BodyMessage "Failed to create episode")).
Proof.
  split; [reflexivity|]. split; [reflexivity|].
  rewrite (admin_create_episode_unknown_content sample_env None
             orphan_episode_json sample_store _ eq_refl eq_refl eq_refl).
  reflexivity.
Defined.

Lemma failed_and_reading_requests_keep_store_witness :
  read_only (CheckFavorite "c1") = true
  /\ store_after (serve sample_env (Some "u1"%string) (CheckFavorite "c1")
                        sample_store)
     = sample_store
  /\ store_after (serve sample_env None (GetContentById "c2") sample_store)
     = sample_store.
Proof.
  split; [reflexivity|]. split.
  - exact (proj2 (failed_and_reading_requests_keep_store sample_env
                    (Some "u1"%string) (CheckFavorite "c1") sample_store)
             eq_refl).
  - apply (proj1 (failed_and_reading_requests_keep_store sample_env None
                    (GetContentById "c2") sample_store)
             (mkResponse 404 (BodyMessage "Content not found")));
      [reflexivity | simpl; lia].
Defined.

Lemma post_favorites_for_session_user_witness :
  field favorite_json "userId" = Some (JStr "u7")
  /\ exists r f,
      response (serve sample_env (Some "u1"%string)
                      (PostFavorites favorite_json) sample_store)
      = Some r
      /\ status r = 201
      /\ body r = BodyFavorite f
      /\ Favorite.userId f = "u1"%string.
Proof.
  split; [reflexivity|].
  eexists. 
  destruct (post_favorites_for_session_user sample_env "u1" favorite_json
              sample_store _ eq_refl eq_refl)
    as (f & Hbody & Huser & _).
  exists f. split; [reflexivity|]. split; [reflexivity|].
  split; [exact Hbody | exact Huser].
Defined.

Lemma admin_create_content_row_witness :
  field new_movie_json "viewCount" = Some (JNum 99)
  /\ exists r c,
      response (serve sample_env None (AdminCreateContent new_movie_json)
                      sample_store)
      = Some r
      /\ status r = 201
      /\ body r = BodyContent (Some c)
      /\ Content.id c = uuid sample_env
      /\ Content.viewCount c = Some 0.
Proof.
  split; [reflexivity|].
  eexists.
  destruct (admin_create_content_row sample_env None new_movie_json
              sample_store _ eq_refl eq_refl)
    as (c & Hbody & _ & Hid & Hv & _).
  exists c. split; [reflexivity|]. split; [reflexivity|].
  split; [exact Hbody|]. split; [exact Hid | exact Hv].
Defined.

Lemma admin_update_content_unknown_id_witness :
  password_matches rename_json = true
  /\ has_content sample_store "c9" = false
  /\ response
       (serve sample_env None (AdminUpdateContent "c9" rename_json)
              sample_store)
     = Some (mkResponse 200 (BodyContent None)).
Proof.
  split; [reflexivity|]. split; [reflexivity|].
  rewrite (admin_update_content_unknown_id sample_env None "c9" rename_json
             sample_store _ eq_refl eq_refl eq_refl).
  reflexivity.
Defined.

Lemma admin_delete_content_unknown_id_witness :
  password_matches (admin_json []) = true
  /\ references_hold sample_store
  /\ has_content sample_store "c9" = false
  /\ serve sample_env None (AdminDeleteContent "c9" (admin_json []))
           sample_store
     = mkServed (Some (mkResponse 204 BodyEmpty)) sample_store
                [CallDeleteContent "c9"].
Proof.
  split; [reflexivity|]. split; [exact sample_store_references|].
  split; [reflexivity|].
  exact (admin_delete_content_unknown_id sample_env None "c9" (admin_json [])
           sample_store eq_refl sample_store_references eq_refl).
Defined.

Lemma public_answers_hold_active_rows_witness :
  admin_body (GetContent (mkQuery None None None None None)) = None
  /\ response (serve sample_env None
                 (GetContent (mkQuery None None None None None))
                 sample_store)
     = Some (mkResponse 200 (BodyContentList [thief; heat]))
  /\ Content.isActive thief = Some true.
Proof.
  split; [reflexivity|]. split; [reflexivity|].
  exact (public_answers_hold_active_rows sample_env None
           (GetContent (mkQuery None None None None None)) sample_store
           (mkResponse 200 (BodyContentList [thief; heat])) thief
           eq_refl eq_refl (or_introl eq_refl)).
Defined.

Lemma getPopularContent_top_20_witness :
  (List.length (filter active (content sample_store)) <= 20)%nat
  /\ Permutation (getPopularContent sample_store)
                 (filter active (content sample_store)).
Proof.
  assert (Hlen : (List.length (filter active (content sample_store))
                  <= 20)%nat) by (simpl; lia).
  destruct (getPopularContent_top_20 sample_store)
    as (rest & Hperm & _ & Hrest & _).
  split; [exact Hlen|].
  rewrite (Hrest Hlen), app_nil_r in Hperm. exact Hperm.
Defined.
